(** * CourtEase: a shallow embedding of [app.js] and its request handlers

    [app.js] holds two documents.  The first one (lines 1-1097) defines the
    adapter functions [registerUser], [loginUser], [searchJudgments],
    [processDocument], [chatAI], [analyzeCase], [sendMail], [saveCaseToDB]
    and the routes that call them; it is embedded in [Module App].  The
    second one (lines 1098-1510) defines a second set of routes behind a
    [verifyToken] middleware; it is embedded in [Module App2].

    The program is glue around external services, so the embedding is an
    interaction semantics.  JavaScript values are the type [JsVal]; a
    computation of the program is a function in the monad [M], which
    threads the in-memory state ([MOCK_DB.users] and the clock), may throw,
    and records every call to an external service (identity provider,
    Firestore, Gemini, Indian Kanoon, mail relay) in order.  What a service
    answers is decided by the environment [Env], a record of oracles that
    see the calls made so far; the theorems quantify over every [Env].

    Not modelled: console output, the HTML pages apart from their layout
    [render] (they make no external call), numbers that are not integers,
    values that are functions, and characters beyond the 8-bit range (a
    string is a [string] of the Standard Library). *)

From Stdlib Require Import String Ascii List ZArith Bool Lia DecimalString.
Import ListNotations.
Open Scope string_scope.
Set Warnings "-register-all".

(* ================================================================== *)
(** ** JavaScript values                                                *)
(* ================================================================== *)

(** A JSON-like value.  A number [JNum n] is the integer [n], one that a
    double holds.  An object is its list of own properties in the order
    JavaScript lists them (array indices first, in ascending order, then
    the other keys in insertion order), with no key listed twice. *)
Inductive JsVal : Type :=
| JUndefined
| JNull
| JBool (b : bool)
| JNum (n : Z)
| JStr (s : string)
| JArr (items : list JsVal)
| JObj (fields : list (string * JsVal)).

Definition Fields := list (string * JsVal).

(** ToBoolean. *)
Definition truthy (v : JsVal) : bool :=
  match v with
  | JUndefined | JNull => false
  | JBool b => b
  | JNum n => negb (n =? 0)%Z
  | JStr s => negb (s =? "")
  | JArr _ | JObj _ => true
  end.

Definition nullish (v : JsVal) : bool :=
  match v with
  | JUndefined | JNull => true
  | _ => false
  end.

(** [a || b]. *)
Definition js_or (a b : JsVal) : JsVal := if truthy a then a else b.

(** [a === b].  Two objects (or arrays) are equal only when they are the
    same reference; the values compared in this program come from two
    different requests, so they never are. *)
Definition strict_eq (a b : JsVal) : bool :=
  match a, b with
  | JUndefined, JUndefined => true
  | JNull, JNull => true
  | JBool x, JBool y => Bool.eqb x y
  | JNum x, JNum y => (x =? y)%Z
  | JStr x, JStr y => (x =? y)
  | _, _ => false
  end.

(** The decimal digits of an integer. *)
Definition string_of_Z (n : Z) : string := NilZero.string_of_int (Z.to_int n).

Definition string_of_nat (n : nat) : string := string_of_Z (Z.of_nat n).

(** The double nearest to a positive integer, ties to even. *)
Definition nearest_double (x : Z) : Z :=
  let bits := (Z.log2 x + 1)%Z in
  if (bits <=? 53)%Z then x
  else
    let sh := (bits - 53)%Z in
    let q := Z.shiftr x sh in
    let r := (x - Z.shiftl q sh)%Z in
    let half := Z.shiftl 1 (sh - 1) in
    let up := (half <? r)%Z || ((r =? half)%Z && Z.odd q) in
    Z.shiftl (if up then q + 1 else q)%Z sh.

(** [x], which has [e] digits, cut to [k] significant digits, downwards
    or upwards: a cut that reads back as the double [x], the nearer one
    when both do. *)
Definition digits_at (x e k : Z) : option Z :=
  let p := (10 ^ (e - k))%Z in
  let lo := (x / p * p)%Z in
  let hi := (lo + p)%Z in
  let lo_ok := (nearest_double lo =? x)%Z in
  let hi_ok := (nearest_double hi =? x)%Z in
  if lo_ok && hi_ok then
    if (x - lo <? hi - x)%Z then Some lo
    else if (hi - x <? x - lo)%Z then Some hi
    else if Z.even (lo / p) then Some lo else Some hi
  else if lo_ok then Some lo
  else if hi_ok then Some hi
  else None.

(** The cut of [x] with the fewest significant digits, from [k] on. *)
Fixpoint shortest (x e k : Z) (fuel : nat) : Z :=
  match fuel with
  | O => x
  | S fuel' =>
      match digits_at x e k with
      | Some c => c
      | None => shortest x e (k + 1)%Z fuel'
      end
  end.

Fixpoint strip_zeros (s : string) : string :=
  match s with
  | EmptyString => EmptyString
  | String c r =>
      match strip_zeros r with
      | EmptyString => if Ascii.eqb c "0" then EmptyString else String c EmptyString
      | r' => String c r'
      end
  end.

(** The fewest significant digits that read back as the positive
    integer [x], followed by zeros up to the length of [x]. *)
Definition rounded_digits (x : Z) : string :=
  string_of_Z (shortest x (Z.of_nat (String.length (string_of_Z x))) 1 17).

(** The exponential form: the significant digits, then the exponent
    ("1e+21", "1.5e+22"). *)
Definition exponential (x : Z) : string :=
  let c := rounded_digits x in
  let exponent := string_of_Z (Z.of_nat (String.length c) - 1) in
  match strip_zeros c with
  | String d EmptyString => String d ("e+" ++ exponent)
  | String d r => String d ("." ++ r ++ "e+" ++ exponent)
  | EmptyString => "0"
  end.

(** Number.prototype.toString on an integer: its digits up to 2^53, where
    every integer is a double; beyond, the fewest digits that read back as
    the number, followed by zeros below 10^21 and in the exponential form
    from there on. *)
Definition string_of_number (n : Z) : string :=
  let x := Z.abs n in
  let sign := if (n <? 0)%Z then "-" else "" in
  if (x <=? 2 ^ 53)%Z then string_of_Z n
  else if (x <? 10 ^ 21)%Z then sign ++ rounded_digits x
  else sign ++ exponential x.

Fixpoint join (sep : string) (l : list string) : string :=
  match l with
  | [] => ""
  | [x] => x
  | x :: r => x ++ sep ++ join sep r
  end.

(** [String(v)], which is also what a template literal applies to [v],
    for a value that converts (see [converts] below). *)
Fixpoint js_String (v : JsVal) : string :=
  match v with
  | JUndefined => "undefined"
  | JNull => "null"
  | JBool true => "true"
  | JBool false => "false"
  | JNum n => string_of_number n
  | JStr s => s
  | JArr items =>
      join "," (map (fun x => if nullish x then "" else js_String x) items)
  | JObj _ => "[object Object]"
  end.

(** Whether the conversion of [v] to a string returns.  An object is
    converted by the method [toString] it has or inherits: an own property
    [toString] hides [Object.prototype.toString], and a value of this type
    is never a function, so the conversion then finds nothing to call and
    throws a TypeError.  An array joins the conversions of its elements,
    where null and undefined count as empty. *)
Fixpoint converts (v : JsVal) : bool :=
  match v with
  | JArr items => forallb (fun x => nullish x || converts x) items
  | JObj fs => negb (existsb (fun kv => fst kv =? "toString") fs)
  | _ => true
  end.

(** Own property lookup in an object. *)
Fixpoint lookup (k : string) (fs : Fields) : JsVal :=
  match fs with
  | [] => JUndefined
  | (k', v) :: r => if k' =? k then v else lookup k r
  end.

Fixpoint digits_value (acc : N) (s : string) : option N :=
  match s with
  | EmptyString => Some acc
  | String c r =>
      let d := N_of_ascii c in
      if (48 <=? d)%N && (d <=? 57)%N then digits_value (acc * 10 + (d - 48))%N r else None
  end.

(** The array index a property key stands for: the canonical decimal form
    of an integer from 0 to 2^32 - 2. *)
Definition array_index (k : string) : option N :=
  match k with
  | EmptyString => None
  | String _ _ =>
      match digits_value 0 k with
      | Some n =>
          if (n <? 4294967295)%N && (string_of_Z (Z.of_N n) =? k) then Some n else None
      | None => None
      end
  end.

(** A new key [k] is listed before the key [k'] that is there already. *)
Definition listed_before (k k' : string) : bool :=
  match array_index k, array_index k' with
  | Some i, Some j => (i <? j)%N
  | Some _, None => true
  | None, _ => false
  end.

(** [o[k] = v] on the property list: an existing key keeps its place; a
    new key goes where the order of property keys puts it. *)
Fixpoint set_field (k : string) (v : JsVal) (fs : Fields) : Fields :=
  match fs with
  | [] => [(k, v)]
  | (k', v') :: r =>
      if k' =? k then (k', v) :: r
      else if listed_before k k' then (k, v) :: (k', v') :: r
      else (k', v') :: set_field k v r
  end.

(** An object literal [{k1: v1, ..., kn: vn}]: later keys overwrite. *)
Definition obj (fs : Fields) : JsVal :=
  JObj (fold_left (fun acc kv => set_field (fst kv) (snd kv) acc) fs []).

Definition nth_char (n : nat) (s : string) : JsVal :=
  match String.get n s with
  | Some c => JStr (String c "")
  | None => JUndefined
  end.

(** [v[i]] for a value that is not null or undefined. *)
Definition get_index (v : JsVal) (i : nat) : JsVal :=
  match v with
  | JArr items => nth i items JUndefined
  | JStr s => nth_char i s
  | JObj fs => lookup (string_of_nat i) fs
  | _ => JUndefined
  end.

(** [v.k] for a value that is not null or undefined and a key [k] that is
    not an array index.  Properties inherited from the prototypes are not
    modelled; the program reads none. *)
Definition get_prop (v : JsVal) (k : string) : JsVal :=
  match v with
  | JObj fs => lookup k fs
  | JArr items => if k =? "length" then JNum (Z.of_nat (List.length items)) else JUndefined
  | JStr s => if k =? "length" then JNum (Z.of_nat (String.length s)) else JUndefined
  | _ => JUndefined
  end.

(** [v?.k] and [v?.[i]]. *)
Definition opt_prop (v : JsVal) (k : string) : JsVal :=
  if nullish v then JUndefined else get_prop v k.

Definition opt_index (v : JsVal) (i : nat) : JsVal :=
  if nullish v then JUndefined else get_index v i.

Fixpoint chars_from (i : nat) (s : string) : Fields :=
  match s with
  | EmptyString => []
  | String c r => (string_of_nat i, JStr (String c "")) :: chars_from (S i) r
  end.

Fixpoint items_from (i : nat) (l : list JsVal) : Fields :=
  match l with
  | [] => []
  | x :: r => (string_of_nat i, x) :: items_from (S i) r
  end.

(** The own enumerable properties that [{...v}] copies. *)
Definition own_entries (v : JsVal) : Fields :=
  match v with
  | JObj fs => fs
  | JArr items => items_from 0 items
  | JStr s => chars_from 0 s
  | _ => []
  end.

(** [{...base, ...v}] on property lists. *)
Definition spread (base : Fields) (v : JsVal) : Fields :=
  fold_left (fun acc kv => set_field (fst kv) (snd kv) acc) (own_entries v) base.

(* ================================================================== *)
(** ** Strings                                                          *)
(* ================================================================== *)

(** The double quote character, for the string constants that hold one. *)
Definition dq : string := String (ascii_of_nat 34) "".

(** Line feed, for the template literals that span lines. *)
Definition nl : string := String (ascii_of_nat 10) "".

(** [s.replace(/pat/g, "")] for a literal, non-empty [pat]: the scan goes
    left to right; where [pat] matches, its characters are dropped and the
    scan resumes after them ([skip] counts the characters still to drop). *)
Fixpoint remove_from (skip : nat) (pat s : string) : string :=
  match s with
  | EmptyString => EmptyString
  | String c r =>
      match skip with
      | S k => remove_from k pat r
      | O =>
          if prefix pat s then remove_from (String.length pat - 1) pat r
          else String c (remove_from 0 pat r)
      end
  end.

Definition remove_all (pat s : string) : string := remove_from 0 pat s.

(** White space and line terminators of ECMAScript among the characters
    0-255: TAB, LF, VT, FF, CR, SPACE and NBSP. *)
Definition is_space (c : ascii) : bool :=
  let n := nat_of_ascii c in
  ((9 <=? n)%nat && (n <=? 13)%nat) || (n =? 32)%nat || (n =? 160)%nat.

Fixpoint trim_start (s : string) : string :=
  match s with
  | EmptyString => EmptyString
  | String c r => if is_space c then trim_start r else s
  end.

Fixpoint trim_end (s : string) : string :=
  match s with
  | EmptyString => EmptyString
  | String c r =>
      match trim_end r with
      | EmptyString => if is_space c then EmptyString else String c EmptyString
      | r' => String c r'
      end
  end.

(** [s.trim()]. *)
Definition trim (s : string) : string := trim_end (trim_start s).

Definition backtick : ascii := "`"%char.

(** The markdown fence markers. *)
Definition fence : string := "```".
Definition fence_json : string := "```json".

(** [text.replace(/```json/g, "").replace(/```/g, "").trim()]
    (app.js:189, 220, 265, 276). *)
Definition strip_fences (text : string) : string :=
  trim (remove_all fence (remove_all fence_json text)).

(** [pat] occurs in [s] at some position. *)
Fixpoint occurs (pat s : string) : bool :=
  prefix pat s ||
  match s with
  | EmptyString => false
  | String _ r => occurs pat r
  end.

(** [s.split(sep)] for a non-empty [sep]: the first piece and the others. *)
Fixpoint split_from (skip : nat) (sep s : string) : string * list string :=
  match s with
  | EmptyString => (EmptyString, [])
  | String c r =>
      match skip with
      | S k => split_from k sep r
      | O =>
          if prefix sep s then
            let '(p, ps) := split_from (String.length sep - 1) sep r in
            (EmptyString, p :: ps)
          else
            let '(p, ps) := split_from 0 sep r in
            (String c p, ps)
      end
  end.

Definition split (sep s : string) : list string :=
  let '(p, ps) := split_from 0 sep s in p :: ps.

(* ================================================================== *)
(** ** External services and the environment                            *)
(* ================================================================== *)

(** The five kinds of upstream service the program talks to. *)
Inductive Service := Auth | Database | AI | Search | Mail.

(** Methods of [admin.auth()] that the program calls. *)
Inductive AuthOp :=
| createUser | updateUser | getUserByEmail | createCustomToken | verifyIdToken.

(** Firestore operations: [doc.set], [doc.update], [doc.get], [query.get]. *)
Inductive FsOp := FsSet | FsUpdate | FsGet | FsQuery.

Inductive Method := GET | POST.

(** The hosts reached through axios: identitytoolkit.googleapis.com,
    api.indiankanoon.org and generativelanguage.googleapis.com. *)
Inductive Api := IdentityToolkit | IndianKanoon | GenerativeLanguage.

(** One call to an external service, with its arguments. *)
Inductive Call :=
| AuthCall (op : AuthOp) (args : list JsVal)
| FirestoreCall (op : FsOp) (collection : string) (args : list JsVal)
| AxiosCall (m : Method) (api : Api) (url : string) (args : list JsVal)
| SdkGenerateContent (modelParams request : JsVal)
| MailerSendMail (options : JsVal).

Definition service_of (c : Call) : Service :=
  match c with
  | AuthCall _ _ => Auth
  | FirestoreCall _ _ _ => Database
  | AxiosCall _ IdentityToolkit _ _ => Auth
  | AxiosCall _ IndianKanoon _ _ => Search
  | AxiosCall _ GenerativeLanguage _ _ => AI
  | SdkGenerateContent _ _ => AI
  | MailerSendMail _ => Mail
  end.

(** The place in the code a call comes from, without its payload. *)
Inductive Site :=
| AuthSite (op : AuthOp)
| FirestoreSite (op : FsOp) (collection : string)
| AxiosSite (m : Method) (api : Api)
| SdkSite
| MailSite.

Definition site_of (c : Call) : Site :=
  match c with
  | AuthCall op _ => AuthSite op
  | FirestoreCall op coll _ => FirestoreSite op coll
  | AxiosCall m api _ _ => AxiosSite m api
  | SdkGenerateContent _ _ => SdkSite
  | MailerSendMail _ => MailSite
  end.

Definition Service_eqb (a b : Service) : bool :=
  match a, b with
  | Auth, Auth | Database, Database | AI, AI | Search, Search | Mail, Mail => true
  | _, _ => false
  end.

Definition is_service (s : Service) (c : Call) : bool := Service_eqb s (service_of c).

(** How many calls of a list went to service [s]. *)
Definition attempts (s : Service) (calls : list Call) : nat :=
  List.length (filter (is_service s) calls).

(** What a service answers: it rejects with an error object (given by its
    fields) or resolves with a value. *)
Inductive Reply (A : Type) :=
| Rejects (err : Fields)
| Resolves (a : A).
Arguments Rejects {A} err.
Arguments Resolves {A} a.

(** A Firestore document snapshot: [doc.exists] and [doc.data()]. *)
Record Snapshot := { snap_exists : bool; snap_data : JsVal }.

(** A document of a query snapshot: [d.id] and [d.data()]. *)
Record QueryDoc := { doc_id : string; doc_data : JsVal }.

(** What [generateContent] of the Gemini SDK resolves with, as far as the
    program looks at it.  [ResultString s]: a plain string.
    [ResultObject rt t str]: an object; [rt] is [None] when
    [result.response?.text] is missing, and otherwise what calling
    [result.response.text()] gives; [t] is the property [result.text]; [str]
    is [String(result)]. *)
Inductive SdkResult :=
| ResultString (s : string)
| ResultObject (response_text : option (Reply string)) (text : JsVal) (as_String : string).

(** The uploaded file that multer leaves in [req.file]: the buffer is seen
    only through [buffer.toString("base64")]. *)
Record Buffer := { toString_base64 : string }.
Record File := { buffer : Buffer; mimetype : JsVal }.

(** The world of one running document: its configuration, the built-in
    functions that are taken as given, and the oracles of the external
    services.  Every oracle is given the calls made before (oldest first).
    Each of the two documents is a program of its own, with its own
    variable [IS_FIREBASE_LIVE] (app.js:47 and app.js:1140), set by its own
    start-up ([App.initialize], [App2.initialize]): a handler of [App] is
    run in the world of the first document, a handler of [App2] in the
    world of the second, and two documents that run side by side have a
    world each. *)
Record Env := {
  (* process.env and CONFIG *)
  FIREBASE_WEB_API_KEY : JsVal;
  INDIAN_KANOON_TOKEN : JsVal;
  GEMINI_API_KEY : JsVal;
  NODEMAILER_PASS : JsVal;
  EMAIL_USER : JsVal;
  EMAIL_PASS : JsVal;
  (* set once at the start-up of the document that runs, when the
     Firebase Admin SDK initialised *)
  IS_FIREBASE_LIVE : bool;
  (* built-ins *)
  JSON_parse : string -> Reply JsVal;
  JSON_stringify : JsVal -> JsVal;
  encodeURIComponent : string -> string;
  clock : nat -> Z;
  toISOString : Z -> string;
  (* services *)
  auth : list Call -> AuthOp -> list JsVal -> Reply JsVal;
  firestore_write : list Call -> FsOp -> string -> list JsVal -> Reply unit;
  firestore_read : list Call -> string -> JsVal -> Reply Snapshot;
  firestore_query : list Call -> string -> list JsVal -> Reply (list QueryDoc);
  axios : list Call -> Method -> Api -> string -> list JsVal -> Reply JsVal;
  generateContent : list Call -> JsVal -> JsVal -> Reply SdkResult;
  mailer : list Call -> JsVal -> Reply unit
}.

(** What start-up meets (app.js:50-71, 1144-1159): the environment
    variable FIREBASE_SERVICE_ACCOUNT, whether the key file
    ./serviceAccountKey.json exists and what requiring it gives, what
    JSON.parse gives, how many Firebase apps exist already, and whether
    [admin.initializeApp({ credential: admin.credential.cert(account) })]
    goes through.  [admin.firestore()] and [admin.auth()] are taken not to
    throw once the app exists. *)
Record Startup := {
  FIREBASE_SERVICE_ACCOUNT : JsVal;
  key_file_exists : bool;
  require_key_file : Reply JsVal;
  parse_account : string -> Reply JsVal;
  apps_length : nat;
  initializeApp : JsVal -> Reply unit
}.

(* ================================================================== *)
(** ** The monad of computations                                        *)
(* ================================================================== *)

(** The mutable state inside the process: [MOCK_DB.users] (app.js:79) and
    the number of times the clock was read. *)
Record State := { MOCK_DB_users : list JsVal; clock_reads : nat }.

Inductive Result (A : Type) :=
| Throw (e : JsVal)
| Return (a : A).
Arguments Throw {A} e.
Arguments Return {A} a.

(** The outcome of running a computation: its result, the state it
    leaves, and the external calls it made, oldest first. *)
Record Run (A : Type) := { result : Result A; state : State; calls : list Call }.
Arguments result {A} r.
Arguments state {A} r.
Arguments calls {A} r.

(** A computation is run after a history of earlier calls, in a state. *)
Definition M (A : Type) : Type := list Call -> State -> Run A.

Definition ret {A} (a : A) : M A :=
  fun _ st => {| result := Return a; state := st; calls := [] |}.

Definition throw {A} (e : JsVal) : M A :=
  fun _ st => {| result := Throw e; state := st; calls := [] |}.

Definition bind {A B} (m : M A) (k : A -> M B) : M B :=
  fun h st =>
    match m h st with
    | {| result := Throw e; state := st1; calls := cs1 |} =>
        {| result := Throw e; state := st1; calls := cs1 |}
    | {| result := Return a; state := st1; calls := cs1 |} =>
        match k a (h ++ cs1)%list st1 with
        | {| result := r; state := st2; calls := cs2 |} =>
            {| result := r; state := st2; calls := (cs1 ++ cs2)%list |}
        end
    end.

Notation "x <- m ;; k" := (bind m (fun x => k))
  (at level 61, m at next level, right associativity).
Notation "m ;; k" := (bind m (fun _ => k))
  (at level 61, right associativity).

(** [try { m } catch (e) { handler e }]. *)
Definition try_catch {A} (m : M A) (handler : JsVal -> M A) : M A :=
  fun h st =>
    match m h st with
    | {| result := Return a; state := st1; calls := cs1 |} =>
        {| result := Return a; state := st1; calls := cs1 |}
    | {| result := Throw e; state := st1; calls := cs1 |} =>
        match handler e (h ++ cs1)%list st1 with
        | {| result := r; state := st2; calls := cs2 |} =>
            {| result := r; state := st2; calls := (cs1 ++ cs2)%list |}
        end
    end.

(** A call to a service: it is recorded, and the oracle's answer decides
    whether the awaited promise resolves or rejects. *)
Definition perform {A} (c : Call) (answer : list Call -> Reply A) : M A :=
  fun h st =>
    {| result := match answer h with
                 | Rejects err => Throw (JObj err)
                 | Resolves a => Return a
                 end;
       state := st; calls := [c] |}.

Definition TypeError (message : string) : JsVal :=
  JObj [("name", JStr "TypeError"); ("message", JStr message)].

(** [v.k] where [v] may be null or undefined: then a TypeError is thrown. *)
Definition member (v : JsVal) (k : string) : M JsVal :=
  if nullish v
  then throw (TypeError ("Cannot read properties of " ++ js_String v ++ " (reading '" ++ k ++ "')"))
  else ret (get_prop v k).

(** A template literal, [String(v)] or [encodeURIComponent(v)]: the
    values [holes] are converted to strings in turn; when one of them does
    not convert, a TypeError is thrown; [text] is the string that results
    when all of them convert. *)
Definition interpolate (holes : list JsVal) (text : string) : M string :=
  if forallb converts holes then ret text
  else throw (TypeError "Cannot convert object to primitive value").

Fixpoint mapM {A B} (f : A -> M B) (l : list A) : M (list B) :=
  match l with
  | [] => ret []
  | x :: r => y <- f x ;; ys <- mapM f r ;; ret (y :: ys)
  end.

(** [v.map(f)]: a TypeError unless [v] is an array. *)
Definition array_map (v : JsVal) (f : JsVal -> M JsVal) : M JsVal :=
  match v with
  | JArr items => out <- mapM f items ;; ret (JArr out)
  | _ => throw (TypeError "map is not a function")
  end.

Definition get_users : M (list JsVal) :=
  fun _ st => {| result := Return (MOCK_DB_users st); state := st; calls := [] |}.

(** [MOCK_DB.users.push(u)]. *)
Definition push_user (u : JsVal) : M unit :=
  fun _ st =>
    {| result := Return tt;
       state := {| MOCK_DB_users := (MOCK_DB_users st ++ [u])%list; clock_reads := clock_reads st |};
       calls := [] |}.

Section Primitives.
Variable env : Env.

(** [Date.now()]. *)
Definition Date_now : M Z :=
  fun _ st =>
    {| result := Return (clock env (clock_reads st));
       state := {| MOCK_DB_users := MOCK_DB_users st; clock_reads := S (clock_reads st) |};
       calls := [] |}.

(** [new Date().toISOString()]. *)
Definition new_Date_toISOString : M JsVal :=
  t <- Date_now ;; ret (JStr (toISOString env t)).

(** [JSON.parse(s)]: the value, or a thrown SyntaxError. *)
Definition parse (s : string) : M JsVal :=
  fun _ st =>
    {| result := match JSON_parse env s with
                 | Rejects err => Throw (JObj err)
                 | Resolves v => Return v
                 end;
       state := st; calls := [] |}.

Definition auth_call (op : AuthOp) (args : list JsVal) : M JsVal :=
  perform (AuthCall op args) (fun h => auth env h op args).

(** [db.collection(coll).doc(id).set(data)] and [.update(data)]. *)
Definition firestore_set (coll : string) (id data : JsVal) : M unit :=
  perform (FirestoreCall FsSet coll [id; data])
          (fun h => firestore_write env h FsSet coll [id; data]).

Definition firestore_update (coll : string) (id data : JsVal) : M unit :=
  perform (FirestoreCall FsUpdate coll [id; data])
          (fun h => firestore_write env h FsUpdate coll [id; data]).

(** [db.collection(coll).doc(id).get()]. *)
Definition firestore_get (coll : string) (id : JsVal) : M Snapshot :=
  perform (FirestoreCall FsGet coll [id]) (fun h => firestore_read env h coll id).

(** [db.collection(coll)...get()] with the clauses of the query. *)
Definition firestore_get_query (coll : string) (clauses : list JsVal) : M (list QueryDoc) :=
  perform (FirestoreCall FsQuery coll clauses) (fun h => firestore_query env h coll clauses).

(** [axios.post(url, ...)] and [axios.get(url, ...)]: resolve with
    [res.data]. *)
Definition axios_post (api : Api) (url : string) (args : list JsVal) : M JsVal :=
  perform (AxiosCall POST api url args) (fun h => axios env h POST api url args).

Definition axios_get (api : Api) (url : string) (args : list JsVal) : M JsVal :=
  perform (AxiosCall GET api url args) (fun h => axios env h GET api url args).

(** [genAI.getGenerativeModel(modelParams).generateContent(request)].
    [getGenerativeModel] of @google/generative-ai throws, before anything
    is sent, unless [modelParams.model] is set: it wants an object
    [{ model: name }], and a string has no property [model]. *)
Definition sdk_generateContent (modelParams request : JsVal) : M SdkResult :=
  if truthy (get_prop modelParams "model") then
    perform (SdkGenerateContent modelParams request)
            (fun h => generateContent env h modelParams request)
  else throw (JObj [("message", JStr "[GoogleGenerativeAI Error]: Must provide a model name. Example: genai.getGenerativeModel({ model: 'my-model-name' })")]).

(** [transport.sendMail(options)]. *)
Definition mailer_sendMail (options : JsVal) : M unit :=
  perform (MailerSendMail options) (fun h => mailer env h options).

(** [genAI && typeof genAI.getGenerativeModel === "function"]: [genAI]
    is created at start-up exactly when the key is set (app.js:74-77). *)
Definition genAI_ready : bool := truthy (GEMINI_API_KEY env).
End Primitives.

(** [result?.response?.text && result.response.text()]. *)
Definition response_text (r : SdkResult) : M JsVal :=
  match r with
  | ResultString _ => ret JUndefined
  | ResultObject None _ _ => ret JUndefined
  | ResultObject (Some (Resolves s)) _ _ => ret (JStr s)
  | ResultObject (Some (Rejects err)) _ _ => throw (JObj err)
  end.

(** [typeof result === 'string' ? result : null]. *)
Definition string_or_null (r : SdkResult) : JsVal :=
  match r with
  | ResultString s => JStr s
  | ResultObject _ _ _ => JNull
  end.

(** [String(result)]. *)
Definition String_of_result (r : SdkResult) : string :=
  match r with
  | ResultString s => s
  | ResultObject _ _ str => str
  end.

(** [result.text]. *)
Definition text_property (r : SdkResult) : JsVal :=
  match r with
  | ResultString _ => JUndefined
  | ResultObject _ t _ => t
  end.

(** An HTTP response: [res.status(code).json(body)]; [res.json] alone
    answers 200.  A handler that throws sends none. *)
Record Response := { status : Z; body : JsVal }.

Definition json (b : JsVal) : Response := {| status := 200; body := b |}.
Definition status_json (code : Z) (b : JsVal) : Response := {| status := code; body := b |}.

(** The parts of a request the handlers read. *)
Record Req := {
  req_body : JsVal;
  req_file : option File;
  req_authorization : option string
}.

(* ================================================================== *)
(** ** The first document of app.js (lines 1-1097)                      *)
(* ================================================================== *)

Module App.


(** app.js:46-71.  [true] is the value [IS_FIREBASE_LIVE] is left with:
    any error thrown on the way is caught and leaves it [false]. *)
Definition initialize (s : Startup) : bool :=
  let serviceAccount :=
    if truthy (FIREBASE_SERVICE_ACCOUNT s)
    then parse_account s (js_String (FIREBASE_SERVICE_ACCOUNT s))
    else if key_file_exists s then require_key_file s
    else Resolves JNull in
  match serviceAccount with
  | Rejects e => false
  | Resolves serviceAccount =>
      if truthy serviceAccount then
        if (apps_length s =? 0)%nat then
          match initializeApp s serviceAccount with
          | Rejects e => false
          | Resolves _ => true
          end
        else true
      else false
  end.

Section WithEnv.
Variable env : Env.

(** The options handed to the relay (app.js:983-988). *)
Definition mail_options (to subject msg : JsVal) : JsVal :=
  obj [("from", JStr (dq ++ "CourtEase Team" ++ dq ++ " <" ++ js_String (EMAIL_USER env) ++ ">"));
       ("to", to); ("subject", subject); ("html", msg)].

(** app.js:977-993.  Without the relay credentials the mail is skipped;
    a failure of the relay is caught and logged.  A caller that does not
    await [sendMail] (app.js:1017, 1069, 1086) still has the relay called
    before it goes on; the outcome of that call is not looked at. *)
Definition sendMail (to subject msg : JsVal) : M unit :=
  if negb (truthy (EMAIL_USER env)) || negb (truthy (EMAIL_PASS env)) then ret tt
  else
    try_catch
      (mailer_sendMail env (mail_options to subject msg))
      (fun e => ret tt).

Definition welcome_html (name role : JsVal) : string :=
  "<h2>Welcome, " ++ js_String name ++ "!</h2>" ++ nl
  ++ "                 <p>Your account has been successfully created as a <b>"
  ++ js_String role ++ "</b>.</p>" ++ nl
  ++ "                 <p>You can now log in to your dashboard.</p>".

(** The account created at the identity provider (app.js:88). *)
Definition account_properties (name email password : JsVal) : JsVal :=
  obj [("email", email); ("password", password); ("displayName", name)].

(** The profile document written at registration (app.js:91-95). *)
Definition profile_record (name email role createdAt : JsVal) : JsVal :=
  obj [("name", name); ("email", email); ("role", role);
       ("createdAt", createdAt);
       ("stats", obj [("cases", JNum 0); ("docs", JNum 0)])].

(** app.js:85-111. *)
Definition registerUser (name email password role : JsVal) : M JsVal :=
  if IS_FIREBASE_LIVE env then
    try_catch
      (userRecord <- auth_call env createUser [account_properties name email password] ;;
       uid <- member userRecord "uid" ;;
       createdAt <- new_Date_toISOString env ;;
       firestore_set env "users" uid (profile_record name email role createdAt) ;;
       html <- interpolate [name; role] (welcome_html name role) ;;
       sendMail email (JStr "Welcome to CourtEase") (JStr html) ;;
       ret (obj [("success", JBool true)]))
      (fun e =>
         message <- member e "message" ;;
         ret (obj [("success", JBool false); ("message", message)]))
  else
    push_user (obj [("name", name); ("email", email); ("password", password); ("role", role)]) ;;
    ret (obj [("success", JBool true); ("message", JStr "Mock Registered")]).

(** The profile used when the user has no document (app.js:120). *)
Definition default_profile : JsVal :=
  obj [("name", JStr "User"); ("role", JStr "Litigant");
       ("stats", obj [("cases", JNum 0); ("docs", JNum 0)])].

(** [u => u.email === email && u.password === password] (app.js:124). *)
Definition credentials_match (email password u : JsVal) : bool :=
  strict_eq (get_prop u "email") email && strict_eq (get_prop u "password") password.

Definition signIn_url : string :=
  "https://identitytoolkit.googleapis.com/v1/accounts:signInWithPassword?key="
  ++ js_String (FIREBASE_WEB_API_KEY env).

Definition signIn_body (email password : JsVal) : JsVal :=
  obj [("email", email); ("password", password); ("returnSecureToken", JBool true)].

(** app.js:113-126. *)
Definition loginUser (email password : JsVal) : M JsVal :=
  if IS_FIREBASE_LIVE env then
    try_catch
      (let url := signIn_url in
       data <- axios_post env IdentityToolkit url [signIn_body email password] ;;
       uid <- member data "localId" ;;
       doc <- firestore_get env "users" uid ;;
       let userData := if snap_exists doc then snap_data doc else default_profile in
       ret (obj [("success", JBool true);
                 ("user", JObj (set_field "email" email (spread [("id", uid)] userData)))]))
      (fun e =>
         response <- member e "response" ;;
         ret (obj [("success", JBool false);
                   ("message", js_or (opt_prop (opt_prop (opt_prop response "data") "error") "message")
                                     (JStr "Login Failed"))]))
  else
    users <- get_users ;;
    match find (credentials_match email password) users with
    | Some user => ret (obj [("success", JBool true); ("user", user)])
    | None => ret (obj [("success", JBool false); ("message", JStr "Invalid Credentials")])
    end.

(** app.js:128-137. *)
Definition updateUserProfile (uid data : JsVal) : M JsVal :=
  if IS_FIREBASE_LIVE env then
    try_catch
      (firestore_update env "users" uid data ;;
       name <- member data "name" ;;
       (if truthy name
        then auth_call env updateUser [uid; obj [("displayName", name)]] ;; ret tt
        else ret tt) ;;
       ret (obj [("success", JBool true)]))
      (fun e =>
         message <- member e "message" ;;
         ret (obj [("success", JBool false); ("message", message)]))
  else ret (obj [("success", JBool true)]).

(** The two landmark cases returned when the search cannot be done
    (app.js:153-156). *)
Definition fallback_judgments : JsVal :=
  JArr [obj [("title", JStr "Kesavananda Bharati v. State of Kerala");
             ("court", JStr "Supreme Court"); ("link", JStr "#")];
        obj [("title", JStr "Vishaka v. State of Rajasthan");
             ("court", JStr "Supreme Court"); ("link", JStr "#")]].

Definition search_url (query : JsVal) : string :=
  "https://api.indiankanoon.org/search/?formInput=" ++ encodeURIComponent env (js_String query).

Definition search_config : JsVal :=
  obj [("headers",
        obj [("Authorization", JStr ("Token " ++ js_String (INDIAN_KANOON_TOKEN env)))])].

(** app.js:139-157. *)
Definition searchJudgments (query : JsVal) : M JsVal :=
  found <-
    (if truthy (INDIAN_KANOON_TOKEN env) then
       try_catch
         (url <- interpolate [query] (search_url query) ;;
          data <- axios_post env IndianKanoon url [obj []; search_config] ;;
          docs <- member data "docs" ;;
          results <- array_map docs
                       (fun d =>
                          title <- member d "title" ;;
                          court <- member d "docsource" ;;
                          tid <- member d "tid" ;;
                          link <- interpolate [tid] ("https://indiankanoon.org/doc/"
                                                     ++ js_String tid ++ "/") ;;
                          ret (obj [("title", title); ("court", court);
                                    ("link", JStr link)])) ;;
          ret (Some results))
         (fun e => ret None)
     else ret None) ;;
  match found with
  | Some results => ret results
  | None => ret fallback_judgments
  end.

Definition processDocument_prompt : string :=
  nl ++ "You are a Senior Indian Advocate. Read the provided PDF content (a case document) and meticulously extract the core facts and key legal points. Output a JSON object ONLY (no markdown):"
  ++ nl ++ nl ++ "{" ++ nl
  ++ "  " ++ dq ++ "summary" ++ dq ++ ": " ++ dq ++ "<plain English summary of the case>" ++ dq ++ "," ++ nl
  ++ "  " ++ dq ++ "facts" ++ dq ++ ": " ++ dq ++ "<Concise, numbered list or paragraph of the core facts of the case, suitable for SWOT analysis>" ++ dq ++ "," ++ nl
  ++ "  " ++ dq ++ "judgments" ++ dq ++ ": [ {" ++ dq ++ "title" ++ dq ++ ":" ++ dq ++ "..." ++ dq ++ ","
  ++ dq ++ "court" ++ dq ++ ":" ++ dq ++ "..." ++ dq ++ "," ++ dq ++ "relevance" ++ dq ++ ":" ++ dq ++ "..." ++ dq ++ "} ]," ++ nl
  ++ "  " ++ dq ++ "solutions" ++ dq ++ ": [" ++ dq ++ "step 1" ++ dq ++ ", " ++ dq ++ "step 2" ++ dq ++ "]" ++ nl
  ++ "}" ++ nl.

Definition gemini_rest_url : string :=
  "https://generativelanguage.googleapis.com/v1/models/gemini-2.0-flash:generateContent?key="
  ++ js_String (GEMINI_API_KEY env).

Definition json_headers : JsVal :=
  obj [("headers", obj [("Content-Type", JStr "application/json")])].

(** [cand?.content?.[0]?.text || cand?.content?.text] (app.js:219, 247, 275). *)
Definition content_text (cand : JsVal) : JsVal :=
  js_or (opt_prop (opt_index (opt_prop cand "content") 0) "text")
        (opt_prop (opt_prop cand "content") "text").

(** [restErr?.response?.data?.error?.message || restErr?.message || "unknown"]. *)
Definition error_text (err : JsVal) : JsVal :=
  js_or (opt_prop (opt_prop (opt_prop (opt_prop err "response") "data") "error") "message")
        (js_or (opt_prop err "message") (JStr "unknown")).

(** [{ ...defaultErrorResponse, summary: s }] of [processDocument]. *)
Definition document_error (summary : string) : JsVal :=
  JObj (set_field "summary" (JStr summary)
          (spread [] (obj [("summary", JStr "Error analyzing document"); ("facts", JStr "");
                           ("judgments", JArr []); ("solutions", JArr [])]))).

(** The text read from the REST response [r.data] (app.js:218-219):
    [cand = r.data?.candidates?.[0] || r.data?.result || r.data], then
    [cand?.content?.[0]?.text || cand?.content?.text
     || cand?.output?.[0]?.content?.text || cand?.output?.text
     || JSON.stringify(r.data)]. *)
Definition document_rest_text (data : JsVal) : JsVal :=
  let cand := js_or (opt_index (opt_prop data "candidates") 0)
                    (js_or (opt_prop data "result") data) in
  js_or (content_text cand)
        (js_or (opt_prop (opt_prop (opt_index (opt_prop cand "output") 0) "content") "text")
               (js_or (opt_prop (opt_prop cand "output") "text")
                      (JSON_stringify env data))).

(** The request body of the REST call (app.js:201-215). *)
Definition document_rest_body (base64Data : string) : JsVal :=
  obj [("contents",
        JArr [obj [("parts",
                    JArr [obj [("text", JStr "(PDF content follows as base64 inlineData; the assistant should process this PDF)")];
                          obj [("inlineData",
                                obj [("data", JStr base64Data);
                                     ("mime_type", JStr "application/pdf")])]]);
                   ("role", JStr "user")];
              obj [("parts", JArr [obj [("text", JStr processDocument_prompt)]]);
                   ("role", JStr "user")]])].

(** The payload of the SDK call (app.js:181-184). *)
Definition document_sdk_payload (base64Data : string) : JsVal :=
  JArr [obj [("inlineData",
              obj [("data", JStr base64Data); ("mimeType", JStr "application/pdf")])];
        obj [("text", JStr processDocument_prompt)]].

Definition gemini_model : JsVal := obj [("model", JStr "gemini-2.0-flash")].

(** app.js:161-228. *)
Definition processDocument (buf : Buffer) : M JsVal :=
  if negb (truthy (GEMINI_API_KEY env)) then
    ret (obj [("summary", JStr "AI Key Missing"); ("facts", JStr "");
              ("judgments", JArr []); ("solutions", JArr [])])
  else
    let base64Data := toString_base64 buf in
    returned <-
      try_catch
        (if genAI_ready env then
           result <- sdk_generateContent env gemini_model (document_sdk_payload base64Data) ;;
           called <- response_text result ;;
           let text := js_or called (string_or_null result) in
           if truthy text then
             let cleaned := strip_fences (js_String text) in
             try_catch
               (v <- parse env cleaned ;; ret (Some v))
               (fun e => ret (Some (document_error
                                      ("AI returned non-JSON output (SDK). Raw: " ++ cleaned))))
           else ret None
         else ret None)
        (fun sdkErr => ret None) ;;
    match returned with
    | Some v => ret v
    | None =>
        try_catch
          (let body := document_rest_body base64Data in
           data <- axios_post env GenerativeLanguage gemini_rest_url [body; json_headers] ;;
           let text := document_rest_text data in
           shown <- interpolate [text] (js_String text) ;;
           let cleaned := strip_fences shown in
           try_catch
             (parse env cleaned)
             (fun e => ret (document_error ("AI returned non-JSON (REST). Raw: " ++ cleaned))))
          (fun restErr =>
             ret (document_error ("Error analyzing document: " ++ js_String (error_text restErr))))
    end.

(** [{ contents: [{ parts: [{ text: prompt }] }] }] (app.js:244, 272). *)
Definition text_rest_body (prompt : string) : JsVal :=
  obj [("contents", JArr [obj [("parts", JArr [obj [("text", JStr prompt)]])]])].

(** The text read from the REST response by [chatAI] and [analyzeCase]
    (app.js:246-247, 274-275). *)
Definition text_rest_text (data : JsVal) : JsVal :=
  let cand := js_or (opt_index (opt_prop data "candidates") 0) data in
  js_or (content_text cand) (JSON_stringify env data).

Definition chatAI_prompt (msg : JsVal) : string :=
  "You are an Indian Lawyer. Answer briefly and plainly to the user question: "
  ++ dq ++ js_String msg ++ dq.

(** app.js:230-251. *)
Definition chatAI (msg : JsVal) : M JsVal :=
  if negb (truthy (GEMINI_API_KEY env)) then ret (JStr "AI Key Missing")
  else
    prompt <- interpolate [msg] (chatAI_prompt msg) ;;
    returned <-
      try_catch
        (if genAI_ready env then
           res <- sdk_generateContent env gemini_model (JStr prompt) ;;
           called <- response_text res ;;
           ret (Some (js_or called (JStr (String_of_result res))))
         else ret None)
        (fun e => ret None) ;;
    match returned with
    | Some v => ret v
    | None =>
        try_catch
          (let body := text_rest_body prompt in
           data <- axios_post env GenerativeLanguage gemini_rest_url [body; json_headers] ;;
           ret (text_rest_text data))
          (fun err => ret (JStr ("AI Error: " ++ js_String (error_text err))))
    end.

Definition analyzeCase_prompt (text : JsVal) : string :=
  "Analyze this case under Indian Law. First, re-state the core facts concisely, then perform the SWOT. Return JSON ONLY:" ++ nl
  ++ "{ " ++ dq ++ "summary" ++ dq ++ ": " ++ dq ++ "Overall analysis summary..." ++ dq ++ ", "
  ++ dq ++ "facts" ++ dq ++ ": " ++ dq ++ "The core facts provided: " ++ js_String text ++ dq ++ ", "
  ++ dq ++ "strengths" ++ dq ++ ": [" ++ dq ++ "..." ++ dq ++ "], "
  ++ dq ++ "weaknesses" ++ dq ++ ": [" ++ dq ++ "..." ++ dq ++ "] }" ++ nl
  ++ "Case Facts: " ++ js_String text.

(** [{ ...defaultErrorResponse, summary: s }] of [analyzeCase]. *)
Definition analysis_error (text : JsVal) (summary : string) : JsVal :=
  JObj (set_field "summary" (JStr summary)
          (spread [] (obj [("summary", JStr "Analysis Failed"); ("facts", text);
                           ("strengths", JArr []); ("weaknesses", JArr [])]))).

(** app.js:253-281. *)
Definition analyzeCase (text : JsVal) : M JsVal :=
  if negb (truthy (GEMINI_API_KEY env)) then
    ret (obj [("summary", JStr "AI Error - key missing"); ("facts", JStr "");
              ("strengths", JArr []); ("weaknesses", JArr [])])
  else
    prompt <- interpolate [text; text] (analyzeCase_prompt text) ;;
    returned <-
      try_catch
        (if genAI_ready env then
           res <- sdk_generateContent env gemini_model (JStr prompt) ;;
           called <- response_text res ;;
           let txt := js_or called (JStr (String_of_result res)) in
           let cleaned := strip_fences (js_String txt) in
           v <- parse env cleaned ;;
           ret (Some v)
         else ret None)
        (fun sdkErr => ret None) ;;
    match returned with
    | Some v => ret v
    | None =>
        try_catch
          (let body := text_rest_body prompt in
           data <- axios_post env GenerativeLanguage gemini_rest_url [body; json_headers] ;;
           let txt := text_rest_text data in
           shown <- interpolate [txt] (js_String txt) ;;
           let cleaned := strip_fences shown in
           parse env cleaned)
          (fun restErr =>
             ret (analysis_error text ("Analysis Failed: " ++ js_String (error_text restErr))))
    end.

(** The case document written at creation (app.js:998-1009). *)
Definition case_record (caseId userId summary facts judgments solutions createdAt : JsVal) : JsVal :=
  obj [("caseId", caseId); ("userId", userId);
       ("summary", summary); ("facts", facts);
       ("judgments", judgments); ("solutions", solutions);
       ("status", JStr "Submitted");
       ("notes", JArr []);
       ("hearingDate", JNull);
       ("createdAt", createdAt)].

(** app.js:995-1011. *)
Definition saveCaseToDB (userId caseData : JsVal) : M JsVal :=
  if negb (IS_FIREBASE_LIVE env) then
    t <- Date_now env ;; ret (JStr ("MOCK-CASE-" ++ string_of_Z t))
  else
    t <- Date_now env ;;
    let caseId := JStr ("CASE-" ++ string_of_Z t) in
    summary <- member caseData "summary" ;;
    facts <- member caseData "facts" ;;
    judgments <- member caseData "judgments" ;;
    solutions <- member caseData "solutions" ;;
    createdAt <- new_Date_toISOString env ;;
    firestore_set env "cases" caseId
      (case_record caseId userId summary facts judgments solutions createdAt) ;;
    ret caseId.

(** *** Routes (app.js:469-483, 1013-1091) *)

Definition mock_mode : Response :=
  json (obj [("success", JBool true); ("message", JStr "Mock Mode")]).

Definition post_api_register (req : Req) : M Response :=
  name <- member (req_body req) "name" ;;
  email <- member (req_body req) "email" ;;
  password <- member (req_body req) "password" ;;
  role <- member (req_body req) "role" ;;
  r <- registerUser name email password role ;;
  ret (json r).

Definition post_api_login (req : Req) : M Response :=
  email <- member (req_body req) "email" ;;
  password <- member (req_body req) "password" ;;
  r <- loginUser email password ;;
  ret (json r).

Definition post_api_update_profile (req : Req) : M Response :=
  uid <- member (req_body req) "uid" ;;
  data <- member (req_body req) "data" ;;
  r <- updateUserProfile uid data ;;
  ret (json r).

Definition post_api_search (req : Req) : M Response :=
  query <- member (req_body req) "query" ;;
  results <- searchJudgments query ;;
  ret (json (obj [("results", results)])).

Definition post_api_analyze (req : Req) : M Response :=
  text <- member (req_body req) "text" ;;
  data <- analyzeCase text ;;
  ret (json (obj [("success", JBool true); ("data", data)])).

Definition post_api_chat (req : Req) : M Response :=
  msg <- member (req_body req) "msg" ;;
  reply <- chatAI msg ;;
  ret (json (obj [("reply", reply)])).

(** [typeof result === 'string' && result.startsWith("Error")]. *)
Definition is_error_string (v : JsVal) : bool :=
  match v with
  | JStr s => prefix "Error" s
  | _ => false
  end.

Definition post_api_upload (req : Req) : M Response :=
  match req_file req with
  | None => ret (json (obj [("success", JBool false); ("message", JStr "No file")]))
  | Some file =>
      result <- processDocument (buffer file) ;;
      if is_error_string result
      then ret (json (obj [("success", JBool false); ("message", result)]))
      else ret (json (obj [("success", JBool true); ("data", result)]))
  end.

Definition post_api_save_case (req : Req) : M Response :=
  if negb (IS_FIREBASE_LIVE env) then ret mock_mode
  else
    userId <- member (req_body req) "userId" ;;
    email <- member (req_body req) "email" ;;
    data <- member (req_body req) "data" ;;
    caseId <- saveCaseToDB userId data ;;
    summary <- member data "summary" ;;
    html <- interpolate [caseId; summary]
              ("<h3>Your case has been uploaded to CourtEase</h3>" ++ nl
               ++ "         <p>Case ID: <b>" ++ js_String caseId ++ "</b></p>" ++ nl
               ++ "         <p>Summary: " ++ js_String summary ++ "</p>") ;;
    sendMail email (JStr "Case Uploaded Successfully") (JStr html) ;;
    ret (json (obj [("success", JBool true); ("caseId", caseId)])).

Definition post_api_get_cases (req : Req) : M Response :=
  if negb (IS_FIREBASE_LIVE env)
  then ret (json (obj [("success", JBool true); ("cases", JArr [])]))
  else
    userId <- member (req_body req) "userId" ;;
    docs <- firestore_get_query env "cases"
              [obj [("where", JArr [JStr "userId"; JStr "=="; userId])]] ;;
    ret (json (obj [("success", JBool true); ("cases", JArr (map doc_data docs))])).

Definition post_api_all_cases (req : Req) : M Response :=
  if negb (IS_FIREBASE_LIVE env)
  then ret (json (obj [("success", JBool true); ("cases", JArr [])]))
  else
    docs <- firestore_get_query env "cases" [] ;;
    ret (json (obj [("success", JBool true); ("cases", JArr (map doc_data docs))])).

(** The sentinel [admin.firestore.FieldValue.arrayUnion(x)]. *)
Definition FieldValue_arrayUnion (x : JsVal) : JsVal :=
  obj [("FieldValue", JStr "arrayUnion"); ("elements", JArr [x])].

Definition post_api_cases_add_note (req : Req) : M Response :=
  if negb (IS_FIREBASE_LIVE env) then ret mock_mode
  else
    caseId <- member (req_body req) "caseId" ;;
    note <- member (req_body req) "note" ;;
    time <- new_Date_toISOString env ;;
    firestore_update env "cases" caseId
      (obj [("notes", FieldValue_arrayUnion (obj [("text", note); ("time", time)]))]) ;;
    ret (json (obj [("success", JBool true)])).

(** The two notices (app.js:1071, 1088).  [caseId] reaches them after
    [db.collection("cases").doc(caseId)] took it, which Firestore does for
    a non-empty string only: its conversion is the string itself. *)
Definition hearing_html (caseId hearingDate : JsVal) : string :=
  "<p>The next hearing for your case (<b>" ++ js_String caseId
  ++ "</b>) has been scheduled for <b>" ++ js_String hearingDate ++ "</b>.</p>".

Definition status_html (caseId status : JsVal) : string :=
  "<p>The status for your case (<b>" ++ js_String caseId
  ++ "</b>) has been updated to <b>" ++ js_String status ++ "</b>.</p>".

(** app.js:1059-1074. *)
Definition post_api_cases_update_hearing (req : Req) : M Response :=
  if negb (IS_FIREBASE_LIVE env) then ret mock_mode
  else
    caseId <- member (req_body req) "caseId" ;;
    hearingDate <- member (req_body req) "hearingDate" ;;
    firestore_update env "cases" caseId (obj [("hearingDate", hearingDate)]) ;;
    caseDoc <- firestore_get env "cases" caseId ;;
    let userId := opt_prop (snap_data caseDoc) "userId" in
    userDoc <- firestore_get env "users" userId ;;
    let clientEmail := opt_prop (snap_data userDoc) "email" in
    (if truthy clientEmail
     then html <- interpolate [hearingDate] (hearing_html caseId hearingDate) ;;
          sendMail clientEmail (JStr "Case Update: New Hearing Date") (JStr html)
     else ret tt) ;;
    ret (json (obj [("success", JBool true)])).

(** app.js:1076-1091. *)
Definition post_api_cases_update_status (req : Req) : M Response :=
  if negb (IS_FIREBASE_LIVE env) then ret mock_mode
  else
    caseId <- member (req_body req) "caseId" ;;
    status <- member (req_body req) "status" ;;
    firestore_update env "cases" caseId (obj [("status", status)]) ;;
    caseDoc <- firestore_get env "cases" caseId ;;
    let userId := opt_prop (snap_data caseDoc) "userId" in
    userDoc <- firestore_get env "users" userId ;;
    let clientEmail := opt_prop (snap_data userDoc) "email" in
    (if truthy clientEmail
     then html <- interpolate [status] (status_html caseId status) ;;
          sendMail clientEmail (JStr "Case Update: Status Changed") (JStr html)
     else ret tt) ;;
    ret (json (obj [("success", JBool true)])).
End WithEnv.
End App.

(* ================================================================== *)
(** ** The second document of app.js (lines 1098-1510)                  *)
(* ================================================================== *)

Module App2.

(** app.js:1140-1159.  The key file is required whenever the variable is
    not set, and the app is initialised without looking at [admin.apps]. *)
Definition initialize (s : Startup) : bool :=
  let serviceAccount :=
    if truthy (FIREBASE_SERVICE_ACCOUNT s)
    then parse_account s (js_String (FIREBASE_SERVICE_ACCOUNT s))
    else require_key_file s in
  match serviceAccount with
  | Rejects error => false
  | Resolves serviceAccount =>
      match initializeApp s serviceAccount with
      | Rejects error => false
      | Resolves _ => true
      end
  end.

Section WithEnv.
Variable env : Env.

(** app.js:1170-1189.  The relay reports a failure to the callback,
    which logs it. *)
Definition sendMail (to subject htmlContent : JsVal) : M unit :=
  if negb (truthy (NODEMAILER_PASS env)) then ret tt
  else
    try_catch
      (mailer_sendMail env
         (obj [("from", JStr "courtease.notification@gmail.com");
               ("to", to); ("subject", subject); ("html", htmlContent)]))
      (fun error => ret tt).

(** [authorization ? authorization.split('Bearer ')[1] : null]. *)
Definition bearer_token (authorization : option string) : JsVal :=
  match authorization with
  | Some a =>
      if truthy (JStr a)
      then match nth_error (split "Bearer " a) 1 with
           | Some t => JStr t
           | None => JUndefined
           end
      else JNull
  | None => JNull
  end.

(** app.js:1193-1214.  [next] is the handler behind the middleware; it
    is given [req.user]. *)
Definition verifyToken (req : Req) (next : JsVal -> M Response) : M Response :=
  if negb (IS_FIREBASE_LIVE env) then next (obj [("uid", JStr "mock-user-id")])
  else
    let idToken := bearer_token (req_authorization req) in
    if negb (truthy idToken) then
      ret (status_json 401 (obj [("success", JBool false);
                                 ("message", JStr "Authorization required.")]))
    else
      decoded <- try_catch
                   (decodedToken <- auth_call env verifyIdToken [idToken] ;;
                    ret (Some decodedToken))
                   (fun error => ret None) ;;
      match decoded with
      | Some user => next user
      | None =>
          ret (status_json 401 (obj [("success", JBool false);
                                     ("message", JStr "Invalid or expired token.")]))
      end.

(** The sentinel [admin.firestore.FieldValue.serverTimestamp()]. *)
Definition FieldValue_serverTimestamp : JsVal :=
  obj [("FieldValue", JStr "serverTimestamp")].

(** app.js:1220-1275. *)
Definition post_api_register (req : Req) : M Response :=
  if negb (truthy (req_body req))
     || negb (truthy (get_prop (req_body req) "email"))
     || negb (truthy (get_prop (req_body req) "password"))
  then
    ret (status_json 400
           (obj [("success", JBool false);
                 ("message", JStr "Error: Registration data missing. Client must use 'Content-Type: application/json' and JSON.stringify().")]))
  else if negb (IS_FIREBASE_LIVE env) then
    ret (json (obj [("success", JBool true);
                    ("message", JStr "User mock-registered (Firebase not live)")]))
  else
    let email := get_prop (req_body req) "email" in
    let password := get_prop (req_body req) "password" in
    try_catch
      (userRecord <- auth_call env createUser
                       [obj [("email", email); ("password", password);
                             ("emailVerified", JBool false); ("disabled", JBool false)]] ;;
       userId <- member userRecord "uid" ;;
       firestore_set env "users" userId
         (obj [("email", email); ("createdAt", FieldValue_serverTimestamp)]) ;;
       sendMail email (JStr "Welcome to CourtEase!")
         (JStr "<p>Hello,</p><p>Thank you for registering! Your account has been successfully created.</p>") ;;
       ret (json (obj [("success", JBool true); ("userId", userId);
                       ("message", JStr "User registered successfully. Welcome email sent.")])))
      (fun error =>
         code <- member error "code" ;;
         let errorMessage :=
           if strict_eq code (JStr "auth/email-already-in-use")
           then "This email is already in use."
           else "Registration failed." in
         ret (status_json 400 (obj [("success", JBool false); ("message", JStr errorMessage)]))).

(** app.js:1281-1300.  The password of the request is not read. *)
Definition post_api_login (req : Req) : M Response :=
  if negb (IS_FIREBASE_LIVE env) then
    ret (json (obj [("success", JBool true); ("token", JStr "mock-jwt-token");
                    ("message", JStr "Mock Login Success")]))
  else
    email <- member (req_body req) "email" ;;
    try_catch
      (userRecord <- auth_call env getUserByEmail [email] ;;
       uid <- member userRecord "uid" ;;
       customToken <- auth_call env createCustomToken [uid] ;;
       ret (json (obj [("success", JBool true); ("token", customToken); ("userId", uid);
                       ("message", JStr "Login successful (Token generated)")])))
      (fun error =>
         ret (status_json 401 (obj [("success", JBool false);
                                    ("message", JStr "Invalid credentials or user not found.")]))).

Definition analyze_document_prompt : string :=
  "Analyze this legal document. Extract the following information and return it in a structured JSON format: " ++ nl
  ++ "        1. " ++ dq ++ "summary" ++ dq ++ ": A brief, one-paragraph summary of the document's content and legal issue." ++ nl
  ++ "        2. " ++ dq ++ "parties" ++ dq ++ ": List of key parties involved (e.g., Plaintiff, Defendant)." ++ nl
  ++ "        3. " ++ dq ++ "next_steps" ++ dq ++ ": Recommended immediate action for the client." ++ nl
  ++ "        4. " ++ dq ++ "keywords" ++ dq ++ ": A list of 3-5 keywords." ++ nl
  ++ "        5. " ++ dq ++ "potential_case_id" ++ dq ++ ": Generate a unique case ID based on the document's content (e.g., COURT-YYYYMMDD-XYZ)." ++ nl
  ++ "        ".

(** The case document written after the analysis (app.js:1356-1364). *)
Definition case_record (uid summary parties keywords : JsVal) : JsVal :=
  obj [("userId", uid); ("summary", summary); ("parties", parties);
       ("keywords", keywords);
       ("status", JStr "New Case - Review Required");
       ("createdAt", FieldValue_serverTimestamp)].

(** app.js:1308-1377, behind [verifyToken]. *)
Definition post_api_ai_analyze_document (req : Req) : M Response :=
  verifyToken req (fun user =>
    if negb (IS_FIREBASE_LIVE env) then
      ret (json (obj [("summary", JStr "Mock Analysis: The document is an important legal paper that needs immediate review.");
                      ("caseId", JStr "CASE-MOCK-001")]))
    else
      match req_file req with
      | None =>
          ret (status_json 400 (obj [("success", JBool false); ("message", JStr "No file uploaded.")]))
      | Some file =>
          if negb (truthy (GEMINI_API_KEY env)) then
            ret (status_json 500 (obj [("success", JBool false);
                                       ("message", JStr "GEMINI_API_KEY not configured.")]))
          else
            let base64Data := toString_base64 (buffer file) in
            try_catch
              (response <- sdk_generateContent env (JStr "gemini-2.5-flash")
                             (obj [("contents",
                                    JArr [obj [("inlineData",
                                                obj [("data", JStr base64Data);
                                                     ("mimeType", mimetype file)])];
                                          JStr analyze_document_prompt]);
                                   ("config", obj [("responseMimeType", JStr "application/json")])]) ;;
               jsonResponse <- parse env (js_String (text_property response)) ;;
               caseId <- member jsonResponse "potential_case_id" ;;
               uid <- member user "uid" ;;
               summary <- member jsonResponse "summary" ;;
               parties <- member jsonResponse "parties" ;;
               keywords <- member jsonResponse "keywords" ;;
               firestore_set env "cases" caseId (case_record uid summary parties keywords) ;;
               ret (json (obj [("success", JBool true); ("summary", summary);
                               ("caseId", caseId); ("details", jsonResponse)])))
              (fun error =>
                 ret (status_json 500
                        (obj [("success", JBool false);
                              ("message", JStr "AI analysis failed due to server error or invalid document.")])))
      end).

(** app.js:1384-1420, behind [verifyToken]. *)
Definition post_api_ai_legal_research (req : Req) : M Response :=
  verifyToken req (fun user =>
    if negb (IS_FIREBASE_LIVE env) then
      ret (json (obj [("results",
                       JArr [obj [("title", JStr "Mock Judgement 1"); ("url", JStr "#")];
                             obj [("title", JStr "Mock Judgement 2"); ("url", JStr "#")]])]))
    else
      query <- member (req_body req) "query" ;;
      if negb (truthy (INDIAN_KANOON_TOKEN env)) then
        ret (status_json 500 (obj [("success", JBool false);
                                   ("message", JStr "INDIAN_KANOON_TOKEN not configured.")]))
      else
        try_catch
          (searchUrl <- interpolate [query]
                          ("https://api.indiankanoon.org/search/?formInput="
                           ++ encodeURIComponent env (js_String query)) ;;
           data <- axios_get env IndianKanoon searchUrl
                     [obj [("headers",
                            obj [("Authorization",
                                  JStr ("Token " ++ js_String (INDIAN_KANOON_TOKEN env)));
                                 ("Accept", JStr "application/json")])]] ;;
           rs <- member data "results" ;;
           results <- array_map rs
                        (fun r =>
                           title <- member r "title" ;;
                           url <- member r "url" ;;
                           ret (obj [("title", title); ("url", url)])) ;;
           ret (json (obj [("success", JBool true); ("results", results)])))
          (fun error =>
             response <- member error "response" ;;
             let errorMessage :=
               if strict_eq (opt_prop response "status") (JNum 401)
               then "Unauthorized: Invalid Indian Kanoon Token."
               else "Legal research failed. Check if Indian Kanoon Token is valid." in
             ret (status_json 500 (obj [("success", JBool false); ("message", JStr errorMessage)])))).

(** app.js:1428-1448, behind [verifyToken]. *)
Definition get_api_cases (req : Req) : M Response :=
  verifyToken req (fun user =>
    if negb (IS_FIREBASE_LIVE env) then
      ret (json (obj [("cases", JArr [obj [("id", JStr "MOCK-001");
                                           ("summary", JStr "Mock Case Summary")]])]))
    else
      try_catch
        (uid <- member user "uid" ;;
         docs <- firestore_get_query env "cases"
                   [obj [("where", JArr [JStr "userId"; JStr "=="; uid])];
                    obj [("orderBy", JArr [JStr "createdAt"; JStr "desc"])]] ;;
         let cases :=
           map (fun doc => JObj (spread [("id", JStr (doc_id doc))] (doc_data doc))) docs in
         ret (json (obj [("success", JBool true); ("cases", JArr cases)])))
        (fun error =>
           ret (status_json 500 (obj [("success", JBool false);
                                      ("message", JStr "Failed to retrieve cases.")])))).

(** app.js:1451-1472. *)
Definition post_api_cases_update_hearing (req : Req) : M Response :=
  if negb (IS_FIREBASE_LIVE env) then ret App.mock_mode
  else
    caseId <- member (req_body req) "caseId" ;;
    hearingDate <- member (req_body req) "hearingDate" ;;
    firestore_update env "cases" caseId (obj [("hearingDate", hearingDate)]) ;;
    caseDoc <- firestore_get env "cases" caseId ;;
    let userId := opt_prop (snap_data caseDoc) "userId" in
    userDoc <- firestore_get env "users" userId ;;
    let clientEmail := opt_prop (snap_data userDoc) "email" in
    (if truthy clientEmail
     then html <- interpolate [hearingDate] (App.hearing_html caseId hearingDate) ;;
          sendMail clientEmail (JStr "Case Update: Next Hearing Date") (JStr html)
     else ret tt) ;;
    ret (json (obj [("success", JBool true)])).

(** app.js:1475-1496. *)
Definition post_api_cases_update_status (req : Req) : M Response :=
  if negb (IS_FIREBASE_LIVE env) then ret App.mock_mode
  else
    caseId <- member (req_body req) "caseId" ;;
    status <- member (req_body req) "status" ;;
    firestore_update env "cases" caseId (obj [("status", status)]) ;;
    caseDoc <- firestore_get env "cases" caseId ;;
    let userId := opt_prop (snap_data caseDoc) "userId" in
    userDoc <- firestore_get env "users" userId ;;
    let clientEmail := opt_prop (snap_data userDoc) "email" in
    (if truthy clientEmail
     then html <- interpolate [status] (App.status_html caseId status) ;;
          sendMail clientEmail (JStr "Case Update: Status Changed") (JStr html)
     else ret tt) ;;
    ret (json (obj [("success", JBool true)])).
End WithEnv.
End App2.

(* ================================================================== *)
(** ** All the API routes                                               *)
(* ================================================================== *)

(** The routes of the two documents that answer JSON. *)
Inductive Route :=
| R1_register | R1_login | R1_update_profile | R1_search | R1_analyze | R1_chat
| R1_upload | R1_save_case | R1_get_cases | R1_all_cases | R1_add_note
| R1_update_hearing | R1_update_status
| R2_register | R2_login | R2_analyze_document | R2_legal_research | R2_cases
| R2_update_hearing | R2_update_status.

(** Handling one request. *)
Definition handle (env : Env) (route : Route) (req : Req) : M Response :=
  match route with
  | R1_register => App.post_api_register env req
  | R1_login => App.post_api_login env req
  | R1_update_profile => App.post_api_update_profile env req
  | R1_search => App.post_api_search env req
  | R1_analyze => App.post_api_analyze env req
  | R1_chat => App.post_api_chat env req
  | R1_upload => App.post_api_upload env req
  | R1_save_case => App.post_api_save_case env req
  | R1_get_cases => App.post_api_get_cases env req
  | R1_all_cases => App.post_api_all_cases env req
  | R1_add_note => App.post_api_cases_add_note env req
  | R1_update_hearing => App.post_api_cases_update_hearing env req
  | R1_update_status => App.post_api_cases_update_status env req
  | R2_register => App2.post_api_register env req
  | R2_login => App2.post_api_login env req
  | R2_analyze_document => App2.post_api_ai_analyze_document env req
  | R2_legal_research => App2.post_api_ai_legal_research env req
  | R2_cases => App2.get_api_cases env req
  | R2_update_hearing => App2.post_api_cases_update_hearing env req
  | R2_update_status => App2.post_api_cases_update_status env req
  end.

(* ================================================================== *)
(** ** A sample environment                                             *)
(* ================================================================== *)

(** One concrete world, used to run the program on concrete requests.
    The identity provider knows two accounts (asha@example.com, who has a
    profile document and a case, and ravi@example.com, who has none); the
    judgment search is unreachable; the model answers according to the
    document or the prompt it is sent. *)
Module Sample.
Definition network_error : Fields := [("message", JStr "Network Error")].

(** The error axios throws when the identity provider answers 400. *)
Definition invalid_password : Fields :=
  [("message", JStr "Request failed with status code 400");
   ("response",
    obj [("status", JNum 400);
         ("data", obj [("error", obj [("code", JNum 400);
                                      ("message", JStr "INVALID_PASSWORD")])])])].

(** The first account. *)
Definition email : JsVal := JStr "asha@example.com".
Definition password : JsVal := JStr "s3cret-pass".
Definition uid : JsVal := JStr "uid-asha".

(** A JSON text and the value it denotes. *)
Definition analysis_json : string :=
  "{" ++ dq ++ "summary" ++ dq ++ ":" ++ dq ++ "Bail granted" ++ dq ++ "}".
Definition analysis_value : JsVal := obj [("summary", JStr "Bail granted")].

(** The result of an analysis, as the client sends it back to be saved. *)
Definition analysis : JsVal :=
  obj [("summary", JStr "Bail granted"); ("facts", JStr "Arrest on 3 May");
       ("judgments", JArr []); ("solutions", JArr [JStr "File the bond"])].

(** Agrees with JSON.parse on the text above and on the texts that are
    not JSON; no other text is parsed below. *)
Definition parse_json (s : string) : Reply JsVal :=
  if s =? analysis_json then Resolves analysis_value
  else Rejects [("name", JStr "SyntaxError"); ("message", JStr "Unexpected token in JSON")].

(** The answers of the model. *)
Definition fenced_json : string := "```json" ++ nl ++ analysis_json ++ nl ++ "```".
Definition fenced_prose : string := "```json" ++ nl ++ "I cannot read this file." ++ nl ++ "```".

Definition answer (text : string) : Reply SdkResult :=
  Resolves (ResultObject (Some (Resolves text)) JUndefined "[object Object]").

(** Documents are told apart by their base64 text, prompts by a word. *)
Definition model (modelParams request : JsVal) : Reply SdkResult :=
  match request with
  | JArr _ =>
      let data := get_prop (get_prop (get_index request 0) "inlineData") "data" in
      if strict_eq data (JStr "QQ==") then answer fenced_json
      else if strict_eq data (JStr "Qg==") then answer fenced_prose
      else Rejects network_error
  | JStr prompt =>
      if occurs "tenant" prompt then answer fenced_json
      else if occurs "landlord" prompt then answer "I am not sure."
      else Rejects network_error
  | _ => Rejects network_error
  end.

(** The REST endpoint of the model answers prose after the SDK was sent
    the document "Qw==", and is unreachable otherwise. *)
Definition rest_model (h : list Call) : Reply JsVal :=
  match last h (MailerSendMail JNull) with
  | SdkGenerateContent _ request =>
      if strict_eq (get_prop (get_prop (get_index request 0) "inlineData") "data") (JStr "Qw==")
      then Resolves (obj [("candidates", JArr [obj [("content", obj [("text", JStr "Sorry.")])]])])
      else Rejects network_error
  | _ => Rejects network_error
  end.

(** A second account, which has no profile document. *)
Definition email2 : JsVal := JStr "ravi@example.com".
Definition password2 : JsVal := JStr "pa55-word".
Definition uid2 : JsVal := JStr "uid-ravi".

Definition sign_in (args : list JsVal) : Reply JsVal :=
  match args with
  | [b] =>
      if strict_eq (get_prop b "email") email && strict_eq (get_prop b "password") password
      then Resolves (obj [("localId", uid)])
      else if strict_eq (get_prop b "email") email2 && strict_eq (get_prop b "password") password2
      then Resolves (obj [("localId", uid2)])
      else Rejects invalid_password
  | _ => Rejects invalid_password
  end.

Definition accounts (op : AuthOp) (args : list JsVal) : Reply JsVal :=
  match op, args with
  | createUser, _ => Resolves (obj [("uid", JStr "uid-new")])
  | updateUser, _ => Resolves (obj [("uid", uid)])
  | getUserByEmail, [e] =>
      if strict_eq e email then Resolves (obj [("uid", uid); ("email", email)])
      else Rejects [("code", JStr "auth/user-not-found")]
  | createCustomToken, _ => Resolves (JStr "custom-token")
  | verifyIdToken, _ => Resolves (obj [("uid", uid)])
  | _, _ => Rejects network_error
  end.

(** Firestore holds Asha's profile, a case of hers and a case of Ravi's. *)
Definition documents (coll : string) (id : JsVal) : Reply Snapshot :=
  if (coll =? "users") && strict_eq id uid then
    Resolves {| snap_exists := true;
                snap_data := obj [("name", JStr "Asha"); ("email", email);
                                  ("role", JStr "Litigant")] |}
  else if (coll =? "cases") && strict_eq id (JStr "CASE-1") then
    Resolves {| snap_exists := true;
                snap_data := obj [("caseId", JStr "CASE-1"); ("userId", uid);
                                  ("status", JStr "Submitted")] |}
  else if (coll =? "cases") && strict_eq id (JStr "CASE-2") then
    Resolves {| snap_exists := true;
                snap_data := obj [("caseId", JStr "CASE-2"); ("userId", uid2);
                                  ("status", JStr "Filed")] |}
  else Resolves {| snap_exists := false; snap_data := JUndefined |}.

(** [set] creates or replaces a document; [update] needs the document
    to exist. *)
Definition write (op : FsOp) (coll : string) (args : list JsVal) : Reply unit :=
  match op, args with
  | FsUpdate, id :: _ =>
      match documents coll id with
      | Resolves {| snap_exists := true |} => Resolves tt
      | _ => Rejects [("code", JNum 5); ("message", JStr "NOT_FOUND: No document to update")]
      end
  | _, _ => Resolves tt
  end.

(** JSON.stringify on the values met below: the empty object. *)
Definition stringify (v : JsVal) : JsVal :=
  match v with
  | JObj [] => JStr "{}"
  | _ => JUndefined
  end.

Definition key (present : bool) (v : string) : JsVal :=
  if present then JStr v else JUndefined.

(** [live]: the Firebase Admin SDK initialised; [keys]: the API keys and
    the mail credentials are set.  The clock stands still;
    [encodeURIComponent] is the identity, which is right for the queries
    below (letters only). *)
Definition env (live keys : bool) : Env :=
  {| FIREBASE_WEB_API_KEY := key keys "web-key";
     INDIAN_KANOON_TOKEN := key keys "kanoon-token";
     GEMINI_API_KEY := key keys "gemini-key";
     NODEMAILER_PASS := key keys "relay-pass";
     EMAIL_USER := key keys "courtease@example.com";
     EMAIL_PASS := key keys "relay-pass";
     IS_FIREBASE_LIVE := live;
     JSON_parse := parse_json;
     JSON_stringify := stringify;
     encodeURIComponent := fun s => s;
     clock := fun _ => 1700000000000%Z;
     toISOString := fun _ => "2023-11-14T22:13:20.000Z";
     auth := fun _ => accounts;
     firestore_write := fun _ => write;
     firestore_read := fun _ => documents;
     firestore_query := fun _ _ _ => Resolves [];
     axios := fun h _ api _ args =>
                match api with
                | IdentityToolkit => sign_in args
                | IndianKanoon => Rejects network_error
                | GenerativeLanguage => rest_model h
                end;
     generateContent := fun _ => model;
     mailer := fun _ _ => Resolves tt |}.

Definition empty_state : State := {| MOCK_DB_users := []; clock_reads := 0 |}.

Definition request (b : JsVal) : Req :=
  {| req_body := b; req_file := None; req_authorization := None |}.

Definition upload (base64 : string) : Req :=
  {| req_body := obj [];
     req_file := Some {| buffer := {| toString_base64 := base64 |};
                         mimetype := JStr "application/pdf" |};
     req_authorization := Some "Bearer id-token" |}.
End Sample.

(** A second world, in which the services answer otherwise: the identity
    provider refuses to create an account for an email that is taken,
    Firestore refuses to create profile documents, the judgment search is
    reachable, and the model introduces its fenced answer to one document
    with a sentence. *)
Module Sample2.
Definition email_taken : Fields :=
  [("code", JStr "auth/email-already-in-use");
   ("message", JStr "The email address is already in use by another account.")].

Definition permission_denied : Fields :=
  [("code", JNum 7); ("message", JStr "PERMISSION_DENIED: Missing or insufficient permissions")].

Definition accounts (op : AuthOp) (args : list JsVal) : Reply JsVal :=
  match op, args with
  | createUser, [properties] =>
      if strict_eq (get_prop properties "email") Sample.email then Rejects email_taken
      else Resolves (obj [("uid", JStr "uid-new")])
  | _, _ => Sample.accounts op args
  end.

Definition write (op : FsOp) (coll : string) (args : list JsVal) : Reply unit :=
  match op with
  | FsSet => if coll =? "users" then Rejects permission_denied else Resolves tt
  | _ => Sample.write op coll args
  end.

Definition puttaswamy : JsVal :=
  obj [("tid", JNum 127517806); ("title", JStr "Justice K.S. Puttaswamy v. Union of India");
       ("docsource", JStr "Supreme Court of India")].

Definition maneka : JsVal :=
  obj [("tid", JNum 1766147); ("title", JStr "Maneka Gandhi v. Union of India");
       ("docsource", JStr "Supreme Court of India")].

(** The search answers two documents for "privacy", and a list with a
    hole for "bail". *)
Definition search (url : string) : Reply JsVal :=
  if occurs "privacy" url then Resolves (obj [("docs", JArr [puttaswamy; maneka])])
  else if occurs "bail" url then Resolves (obj [("docs", JArr [maneka; JNull])])
  else Rejects Sample.network_error.

(** A fenced answer with a sentence before it. *)
Definition introduced_json : string := "Here is the analysis:" ++ nl ++ Sample.fenced_json.

(** The document "RA==" is answered with the introduced block. *)
Definition model (modelParams request : JsVal) : Reply SdkResult :=
  match request with
  | JArr _ =>
      if strict_eq (get_prop (get_prop (get_index request 0) "inlineData") "data") (JStr "RA==")
      then Sample.answer introduced_json
      else Sample.model modelParams request
  | _ => Sample.model modelParams request
  end.

(** Live, with every key set. *)
Definition env : Env :=
  let base := Sample.env true true in
  {| FIREBASE_WEB_API_KEY := FIREBASE_WEB_API_KEY base;
     INDIAN_KANOON_TOKEN := INDIAN_KANOON_TOKEN base;
     GEMINI_API_KEY := GEMINI_API_KEY base;
     NODEMAILER_PASS := NODEMAILER_PASS base;
     EMAIL_USER := EMAIL_USER base;
     EMAIL_PASS := EMAIL_PASS base;
     IS_FIREBASE_LIVE := true;
     JSON_parse := JSON_parse base;
     JSON_stringify := JSON_stringify base;
     encodeURIComponent := encodeURIComponent base;
     clock := clock base;
     toISOString := toISOString base;
     auth := fun _ => accounts;
     firestore_write := fun _ => write;
     firestore_read := firestore_read base;
     firestore_query := firestore_query base;
     axios := fun h method api url args =>
                match api with
                | IndianKanoon => search url
                | _ => axios base h method api url args
                end;
     generateContent := fun _ => model;
     mailer := mailer base |}.
End Sample2.

(* ================================================================== *)
(** ** Vocabulary of the properties                                     *)
(* ================================================================== *)

(** The relay credentials that [App.sendMail] asks for are set. *)
Definition mail_configured (env : Env) : bool :=
  truthy (EMAIL_USER env) && truthy (EMAIL_PASS env).

(** The password of a login attempt does not match the stored
    credentials: in live mode the identity provider refuses the password
    grant; in mock mode no record of [MOCK_DB.users] has this email and
    this password. *)
Definition wrong_password (env : Env) (h : list Call) (st : State)
    (email password : JsVal) : Prop :=
  if IS_FIREBASE_LIVE env then
    exists err,
      axios env h POST IdentityToolkit (App.signIn_url env) [App.signIn_body email password]
      = Rejects err
  else
    forall u, In u (MOCK_DB_users st) -> App.credentials_match email password u = false.

(** [l] is [S] with some elements left out. *)
Inductive Subseq {A : Type} : list A -> list A -> Prop :=
| Subseq_nil : Subseq [] []
| Subseq_skip (x : A) (l S : list A) : Subseq l S -> Subseq l (x :: S)
| Subseq_take (x : A) (l S : list A) : Subseq l S -> Subseq (x :: l) (x :: S).

(** Whatever the services answer, the call sites that [m] reaches are
    among [S], in that order, each at most once. *)
Definition emits {A : Type} (S : list Site) (m : M A) : Prop :=
  forall h st, Subseq (map site_of (calls (m h st))) S.

(** The call sites of each route, in program order. *)
Definition call_sites (route : Route) : list Site :=
  match route with
  | R1_register => [AuthSite createUser; FirestoreSite FsSet "users"; MailSite]
  | R1_login => [AxiosSite POST IdentityToolkit; FirestoreSite FsGet "users"]
  | R1_update_profile => [FirestoreSite FsUpdate "users"; AuthSite updateUser]
  | R1_search => [AxiosSite POST IndianKanoon]
  | R1_analyze | R1_chat | R1_upload => [SdkSite; AxiosSite POST GenerativeLanguage]
  | R1_save_case => [FirestoreSite FsSet "cases"; MailSite]
  | R1_get_cases | R1_all_cases => [FirestoreSite FsQuery "cases"]
  | R1_add_note => [FirestoreSite FsUpdate "cases"]
  | R1_update_hearing | R1_update_status | R2_update_hearing | R2_update_status =>
      [FirestoreSite FsUpdate "cases"; FirestoreSite FsGet "cases";
       FirestoreSite FsGet "users"; MailSite]
  | R2_register => [AuthSite createUser; FirestoreSite FsSet "users"; MailSite]
  | R2_login => [AuthSite getUserByEmail; AuthSite createCustomToken]
  | R2_analyze_document => [AuthSite verifyIdToken; SdkSite; FirestoreSite FsSet "cases"]
  | R2_legal_research => [AuthSite verifyIdToken; AxiosSite GET IndianKanoon]
  | R2_cases => [AuthSite verifyIdToken; FirestoreSite FsQuery "cases"]
  end.

Definition site_service (s : Site) : Service :=
  match s with
  | AuthSite _ => Auth
  | FirestoreSite _ _ => Database
  | AxiosSite _ IdentityToolkit => Auth
  | AxiosSite _ IndianKanoon => Search
  | AxiosSite _ GenerativeLanguage => AI
  | SdkSite => AI
  | MailSite => Mail
  end.


(** The routes registered behind [verifyToken] (app.js:1308, 1384, 1428). *)
Definition protected (route : Route) : bool :=
  match route with
  | R2_analyze_document | R2_legal_research | R2_cases => true
  | _ => false
  end.

(** The call sites a route can still reach in mock mode. *)
Definition mock_sites (route : Route) : list Site :=
  match route with
  | R1_search => [AxiosSite POST IndianKanoon]
  | R1_analyze | R1_chat | R1_upload => [SdkSite; AxiosSite POST GenerativeLanguage]
  | _ => []
  end.

(** The call sites of a route that are not calls to service [s]. *)
Definition sites_without (s : Service) (route : Route) : list Site :=
  filter (fun x => negb (Service_eqb s (site_service x))) (call_sites route).

(** [m] leaves [MOCK_DB.users] as it found it. *)
Definition keeps_users {A : Type} (m : M A) : Prop :=
  forall h st, MOCK_DB_users (state (m h st)) = MOCK_DB_users st.

(** No property of the list has the key [k]. *)
Definition key_absent (k : string) (fs : Fields) : bool :=
  forallb (fun kv => negb (fst kv =? k)) fs.

(** The entry [searchJudgments] makes of one document of the search
    service (app.js:146-150). *)
Definition judgment_entry (d : JsVal) : JsVal :=
  obj [("title", get_prop d "title"); ("court", get_prop d "docsource");
       ("link", JStr ("https://indiankanoon.org/doc/" ++ js_String (get_prop d "tid") ++ "/"))].

(* ================================================================== *)
(** * Properties                                                        *)
(* ================================================================== *)

(** ** Strings: what fence stripping leaves *)

Example strip_fences_example :
  strip_fences ("```json" ++ nl ++ "{}" ++ nl ++ "```") = "{}".
Proof. reflexivity. Qed.

Example split_example : split "Bearer " "Bearer abc" = [""; "abc"].
Proof. reflexivity. Qed.

Example js_String_example : js_String (JArr [JNum 12; JNull; JStr "a"]) = "12,,a".
Proof. reflexivity. Qed.

Example js_String_large_example :
  js_String (JNum 999999999999999868928) = "999999999999999900000"
  /\ js_String (JNum (10 ^ 21)) = "1e+21"
  /\ js_String (JNum (- (2 ^ 80))) = "-1.2089258196146292e+24".
Proof. repeat split; vm_compute; reflexivity. Qed.

Example array_index_example :
  map array_index ["0"; "7"; "42"; "07"; "4294967294"; "4294967295"; "-1"; "id"; ""]
  = [Some 0%N; Some 7%N; Some 42%N; None; Some 4294967294%N; None; None; None; None].
Proof. reflexivity. Qed.

Example converts_example :
  converts (obj [("toString", JNum 1)]) = false
  /\ converts (JArr [JNull; obj [("toString", JNull)]]) = false
  /\ converts (JArr [JNull; obj [("valueOf", JNum 1)]; JArr []]) = true.
Proof. repeat split. Qed.

Example spread_order_example :
  spread [("id", JStr "u")] (obj [("b", JNum 1); ("2", JNum 2); ("10", JNum 3)])
  = [("2", JNum 2); ("10", JNum 3); ("id", JStr "u"); ("b", JNum 1)].
Proof. reflexivity. Qed.

Lemma prefix_cons (c : ascii) (p s : string) (d : ascii) :
  prefix (String c p) (String d s) = if ascii_dec c d then prefix p s else false.
Proof. reflexivity. Qed.

Lemma prefix_nil (s : string) : prefix "" s = true.
Proof. destruct s; reflexivity. Qed.

Lemma occurs_cons (p : string) (c : ascii) (s : string) :
  occurs p (String c s) = prefix p (String c s) || occurs p s.
Proof. destruct p; reflexivity. Qed.

Lemma remove_from_skip (k : nat) (pat : string) (c : ascii) (r : string) :
  remove_from (S k) pat (String c r) = remove_from k pat r.
Proof. reflexivity. Qed.

Lemma remove_from_scan (pat : string) (c : ascii) (r : string) :
  remove_from 0 pat (String c r)
  = if prefix pat (String c r) then remove_from (String.length pat - 1) pat r
    else String c (remove_from 0 pat r).
Proof. reflexivity. Qed.

(** Decide the comparisons of characters that a goal is stuck on. *)
Ltac ascii_cases :=
  unfold backtick in *;
  repeat match goal with
         | |- context [ascii_dec ?a ?b] => destruct (ascii_dec a b); try congruence
         end.

Lemma remove_fence_other (c : ascii) (r : string) :
  c <> backtick -> remove_all fence (String c r) = String c (remove_all fence r).
Proof. intros Hc. unfold remove_all, fence. rewrite remove_from_scan, prefix_cons. now ascii_cases. Qed.

Lemma remove_fence_one (c : ascii) (r : string) :
  c <> backtick ->
  remove_all fence (String backtick (String c r)) = String backtick (String c (remove_all fence r)).
Proof.
  intros Hc. rewrite <- (remove_fence_other c r Hc).
  unfold remove_all, fence. rewrite remove_from_scan, !prefix_cons. now ascii_cases.
Qed.

Lemma remove_fence_two (c : ascii) (r : string) :
  c <> backtick ->
  remove_all fence (String backtick (String backtick (String c r)))
  = String backtick (String backtick (String c (remove_all fence r))).
Proof.
  intros Hc. rewrite <- (remove_fence_one c r Hc).
  unfold remove_all, fence. rewrite remove_from_scan, !prefix_cons. now ascii_cases.
Qed.

Lemma remove_fence_three (r : string) :
  remove_all fence (String backtick (String backtick (String backtick r))) = remove_all fence r.
Proof.
  unfold remove_all, fence. rewrite remove_from_scan, !prefix_cons, prefix_nil.
  ascii_cases. now destruct r.
Qed.

Lemma occurs_fence_other (c : ascii) (s : string) :
  c <> backtick -> occurs fence (String c s) = occurs fence s.
Proof. intros Hc. rewrite occurs_cons. unfold fence at 1. rewrite prefix_cons. now ascii_cases. Qed.

Lemma occurs_fence_one (c : ascii) (s : string) :
  c <> backtick -> occurs fence (String backtick (String c s)) = occurs fence s.
Proof.
  intros Hc. rewrite occurs_cons, (occurs_fence_other c s Hc).
  unfold fence at 1. rewrite !prefix_cons. now ascii_cases.
Qed.

Lemma occurs_fence_two (c : ascii) (s : string) :
  c <> backtick -> occurs fence (String backtick (String backtick (String c s))) = occurs fence s.
Proof.
  intros Hc. rewrite occurs_cons, (occurs_fence_one c s Hc).
  unfold fence at 1. rewrite !prefix_cons. now ascii_cases.
Qed.

Lemma remove_fence_clean_bounded (n : nat) :
  forall s, String.length s <= n -> occurs fence (remove_all fence s) = false.
Proof.
  induction n as [|n IH]; intros s Hs.
  - destruct s; [reflexivity | simpl in Hs; lia].
  - destruct s as [|c1 s1]; [reflexivity|]. simpl in Hs.
    destruct (ascii_dec c1 backtick) as [E1|N1].
    2:{ rewrite remove_fence_other, occurs_fence_other by assumption. apply IH. lia. }
    subst c1. destruct s1 as [|c2 s2]; [reflexivity|]. simpl in Hs.
    destruct (ascii_dec c2 backtick) as [E2|N2].
    2:{ rewrite remove_fence_one, occurs_fence_one by assumption. apply IH. lia. }
    subst c2. destruct s2 as [|c3 s3]; [reflexivity|]. simpl in Hs.
    destruct (ascii_dec c3 backtick) as [E3|N3].
    2:{ rewrite remove_fence_two, occurs_fence_two by assumption. apply IH. lia. }
    subst c3. rewrite remove_fence_three. apply IH. lia.
Qed.

Lemma remove_fence_clean (s : string) : occurs fence (remove_all fence s) = false.
Proof. apply (remove_fence_clean_bounded (String.length s)). lia. Qed.

(** trimming keeps a piece of the string *)
Lemma prefix_app (p s w : string) : prefix p s = true -> prefix p (s ++ w) = true.
Proof.
  revert s; induction p as [|c p IH]; intros s H.
  - apply prefix_nil.
  - destruct s as [|d s]; [discriminate|]. simpl append. rewrite prefix_cons in *.
    destruct (ascii_dec c d); [auto|discriminate].
Qed.

Lemma occurs_app (p s w : string) : occurs p s = true -> occurs p (s ++ w) = true.
Proof.
  induction s as [|c s IH]; intros H.
  - destruct p; [destruct w; reflexivity | discriminate].
  - simpl append. rewrite occurs_cons in *. apply orb_true_iff in H. apply orb_true_iff.
    destruct H as [H|H]; [left; apply (prefix_app p (String c s) w H) | right; auto].
Qed.

Lemma occurs_trim_start (p s : string) : occurs p (trim_start s) = true -> occurs p s = true.
Proof.
  induction s as [|c s IH]; [trivial|]. simpl trim_start.
  destruct (is_space c); [|trivial].
  intros H. rewrite occurs_cons. apply orb_true_iff. right. auto.
Qed.

Lemma trim_end_prefix (s : string) : exists w, s = trim_end s ++ w.
Proof.
  induction s as [|c s [w IH]]; [exists ""; reflexivity|].
  simpl trim_end. destruct (trim_end s) as [|d t] eqn:E.
  - destruct (is_space c).
    + exists (String c s). reflexivity.
    + exists w. simpl. simpl in IH. now rewrite <- IH.
  - exists w. simpl. simpl in IH. now rewrite <- IH.
Qed.

Lemma occurs_trim (p s : string) : occurs p (trim s) = true -> occurs p s = true.
Proof.
  unfold trim. intros H. apply occurs_trim_start.
  destruct (trim_end_prefix (trim_start s)) as [w E]. rewrite E. now apply occurs_app.
Qed.

Lemma not_occurs_trim (p s : string) : occurs p s = false -> occurs p (trim s) = false.
Proof.
  intros H. destruct (occurs p (trim s)) eqn:E; [|reflexivity].
  apply occurs_trim in E. congruence.
Qed.

Lemma prefix_fence_json (s : string) : prefix fence_json s = true -> prefix fence s = true.
Proof.
  unfold fence_json, fence. intros H.
  destruct s as [|a s]; [simpl in H; discriminate|].
  rewrite prefix_cons in *. destruct (ascii_dec "`" a); [|discriminate].
  destruct s as [|b s]; [simpl in H; discriminate|].
  rewrite prefix_cons in *. destruct (ascii_dec "`" b); [|discriminate].
  destruct s as [|c s]; [simpl in H; discriminate|].
  rewrite prefix_cons in *. destruct (ascii_dec "`" c); [|discriminate].
  apply prefix_nil.
Qed.

Lemma occurs_fence_json (s : string) : occurs fence_json s = true -> occurs fence s = true.
Proof.
  induction s as [|c s IH]; [discriminate|]. rewrite !occurs_cons.
  intros H. apply orb_true_iff in H. apply orb_true_iff.
  destruct H as [H|H]; [left; now apply prefix_fence_json | right; auto].
Qed.

(** No fence marker is left in the text that is parsed. *)
Lemma strip_fences_clean (text : string) :
  occurs fence (strip_fences text) = false /\ occurs fence_json (strip_fences text) = false.
Proof.
  assert (H : occurs fence (strip_fences text) = false).
  { unfold strip_fences. apply not_occurs_trim, remove_fence_clean. }
  split; [exact H|].
  destruct (occurs fence_json (strip_fences text)) eqn:E; [|reflexivity].
  apply occurs_fence_json in E. congruence.
Qed.

(** Content between one pair of markers. *)
Lemma occurs_backtick_cons (c : ascii) (s : string) :
  occurs "`" (String c s) = false -> c <> backtick /\ occurs "`" s = false.
Proof.
  rewrite occurs_cons, prefix_cons, prefix_nil. intros H. apply orb_false_iff in H.
  destruct H as [H1 H2]. split; [|exact H2].
  unfold backtick. destruct (ascii_dec "`" c); [discriminate|congruence].
Qed.

Lemma remove_fence_json_tail (body : string) :
  occurs "`" body = false -> remove_all fence_json (body ++ fence) = body ++ fence.
Proof.
  induction body as [|c body IH]; intros H; [reflexivity|].
  apply occurs_backtick_cons in H. destruct H as [Hc H].
  simpl append. unfold remove_all, fence_json. rewrite remove_from_scan, prefix_cons.
  ascii_cases. f_equal. now apply IH.
Qed.

Lemma remove_fence_tail (body : string) :
  occurs "`" body = false -> remove_all fence (body ++ fence) = body.
Proof.
  induction body as [|c body IH]; intros H; [reflexivity|].
  apply occurs_backtick_cons in H. destruct H as [Hc H].
  simpl append. rewrite remove_fence_other by assumption. f_equal. now apply IH.
Qed.

Lemma remove_fence_json_head (x : string) :
  remove_all fence_json (fence_json ++ x) = remove_all fence_json x.
Proof.
  unfold remove_all, fence_json. cbn [append].
  rewrite remove_from_scan, !prefix_cons, prefix_nil. ascii_cases.
  cbn [String.length Nat.sub]. now rewrite !remove_from_skip.
Qed.

Lemma strip_fences_fenced (body : string) :
  occurs "`" body = false -> strip_fences (fence_json ++ body ++ fence) = trim body.
Proof.
  intros H. unfold strip_fences. f_equal.
  rewrite remove_fence_json_head, remove_fence_json_tail by assumption. now apply remove_fence_tail.
Qed.
(** ** Running a computation step by step *)

(** Unfold the monad and the primitives, and tidy the history. *)
Ltac norm :=
  cbv beta iota zeta delta
    [try_catch bind ret throw member perform array_map interpolate
     auth_call firestore_set firestore_update firestore_get firestore_get_query
     axios_post axios_get sdk_generateContent mailer_sendMail parse
     new_Date_toISOString Date_now get_users push_user response_text
     result state calls];
  try change (truthy (get_prop App.gemini_model "model")) with true;
  try change (truthy (get_prop (JStr "gemini-2.5-flash") "model")) with false;
  cbv beta iota; cbn [forallb andb converts];
  rewrite ?app_nil_r, <- ?app_assoc; cbn [app].

(** Use the answer [H] of a service, or the value [H] of a test. *)
Ltac step H := rewrite H; norm.

Lemma find_none_all {A : Type} (f : A -> bool) (l : list A) :
  (forall x, In x l -> f x = false) -> find f l = None.
Proof.
  induction l as [|a l IH]; intros H; [reflexivity|]. simpl.
  rewrite (H a (or_introl eq_refl)). apply IH. intros x Hx. apply H. now right.
Qed.



(** ** C1: a login with a wrong password *)

(** C1 (amended).  [loginUser] of the first document: when the password
    does not match the stored credentials, the answer has success false, a
    message, and neither a user nor a token; nothing is stored.  The login
    of the second document does not read the password: two requests with
    the same email are answered alike.  In mock mode it answers success
    true with the token "mock-jwt-token"; in live mode it answers success
    true with a custom token when the identity provider finds the account
    of the email and issues a token for its uid, and status 401 with
    success false when one of these two calls fails. *)
Theorem loginUser_wrong_password (env : Env) (h : list Call) (st : State)
    (email password : JsVal) :
  (wrong_password env h st email password ->
   exists message,
     result (App.loginUser env email password h st)
     = Return (JObj [("success", JBool false); ("message", message)])
     /\ get_prop (JObj [("success", JBool false); ("message", message)]) "user" = JUndefined
     /\ get_prop (JObj [("success", JBool false); ("message", message)]) "token" = JUndefined
     /\ state (App.loginUser env email password h st) = st)
  /\ (forall req : Req,
        let run := App2.post_api_login env req h st in
        let found := AuthCall getUserByEmail [get_prop (req_body req) "email"] in
        let refused :=
          status_json 401 (JObj [("success", JBool false);
                                 ("message", JStr "Invalid credentials or user not found.")]) in
        (forall req' : Req,
           nullish (req_body req) = false -> nullish (req_body req') = false ->
           get_prop (req_body req') "email" = get_prop (req_body req) "email" ->
           App2.post_api_login env req' h st = run)
        /\ (IS_FIREBASE_LIVE env = false ->
            result run
            = Return (json (JObj [("success", JBool true); ("token", JStr "mock-jwt-token");
                                  ("message", JStr "Mock Login Success")]))
            /\ calls run = [])
        /\ (IS_FIREBASE_LIVE env = true -> nullish (req_body req) = false ->
            (forall err,
               auth env h getUserByEmail [get_prop (req_body req) "email"] = Rejects err ->
               result run = Return refused)
            /\ (forall userRecord,
                  auth env h getUserByEmail [get_prop (req_body req) "email"]
                  = Resolves userRecord ->
                  nullish userRecord = false ->
                  (forall token,
                     auth env (h ++ [found])%list createCustomToken [get_prop userRecord "uid"]
                     = Resolves token ->
                     result run
                     = Return (json (JObj [("success", JBool true); ("token", token);
                                           ("userId", get_prop userRecord "uid");
                                           ("message",
                                            JStr "Login successful (Token generated)")])))
                  /\ (forall err,
                        auth env (h ++ [found])%list createCustomToken
                          [get_prop userRecord "uid"] = Rejects err ->
                        result run = Return refused)))).
Proof.
  split.
  - unfold wrong_password, App.loginUser. destruct (IS_FIREBASE_LIVE env).
    + intros [err Herr]. norm. step Herr. cbn [nullish]. norm.
      eexists. repeat split; reflexivity.
    + intros Hnone. norm. rewrite (find_none_all _ _ Hnone). norm.
      eexists. repeat split; reflexivity.
  - intros req run found refused. subst run found refused.
    unfold App2.post_api_login. split; [|split].
    + intros req' Hbody Hbody' Hemail. destruct (IS_FIREBASE_LIVE env); [|reflexivity].
      cbn [negb]. norm. now rewrite Hbody, Hbody', Hemail.
    + intros Hmock. rewrite Hmock. split; reflexivity.
    + intros Hlive Hbody. rewrite Hlive. cbn [negb]. norm. rewrite Hbody. norm. split.
      * intros err Hfind. now step Hfind.
      * intros userRecord Hfind Hrecord. step Hfind. step Hrecord. split.
        -- intros token Htoken. now step Htoken.
        -- intros err Htoken. now step Htoken.
Qed.

Lemma loginUser_wrong_password_witness :
  wrong_password (Sample.env true true) [] Sample.empty_state Sample.email (JStr "wrong")
  /\ exists message,
       result (App.loginUser (Sample.env true true) Sample.email (JStr "wrong")
                 [] Sample.empty_state)
       = Return (JObj [("success", JBool false); ("message", message)]).
Proof.
  assert (H : wrong_password (Sample.env true true) [] Sample.empty_state
                Sample.email (JStr "wrong")).
  { exists Sample.invalid_password. reflexivity. }
  split; [exact H|].
  destruct (proj1 (loginUser_wrong_password _ _ _ _ _) H) as [message [Hr _]].
  exists message. exact Hr.
Defined.

(** C1 as stated fails on the second document: its login never reads the
    password.  The identity provider refuses the password "wrong" for
    asha@example.com, [loginUser] answers success false, and
    [App2.post_api_login] answers success true with a token; in mock mode
    it does so for every request. *)
Lemma login_wrong_password_counterexample :
  let req := Sample.request (obj [("email", Sample.email); ("password", JStr "wrong")]) in
  wrong_password (Sample.env true true) [] Sample.empty_state Sample.email (JStr "wrong")
  /\ result (App.post_api_login (Sample.env true true) req [] Sample.empty_state)
     = Return (json (JObj [("success", JBool false); ("message", JStr "INVALID_PASSWORD")]))
  /\ result (App2.post_api_login (Sample.env true true) req [] Sample.empty_state)
     = Return (json (JObj [("success", JBool true); ("token", JStr "custom-token");
                           ("userId", Sample.uid);
                           ("message", JStr "Login successful (Token generated)")]))
  /\ result (App2.post_api_login (Sample.env false true) req [] Sample.empty_state)
     = Return (json (JObj [("success", JBool true); ("token", JStr "mock-jwt-token");
                           ("message", JStr "Mock Login Success")])).
Proof.
  repeat split; try reflexivity.
  exists Sample.invalid_password. reflexivity.
Qed.

(** ** C9: the mock user store keeps and returns the password *)



(** ** C10: login of an account that has no profile document *)

(** C10.  In live mode, when the password grant succeeds and the user has
    no profile document, login answers success true and the user payload
    carries the default profile (name "User", role "Litigant", zero stats)
    between the user id and the email. *)
Theorem login_without_profile (env : Env) (h : list Call) (st : State)
    (email password data : JsVal) (snap : Snapshot) :
  IS_FIREBASE_LIVE env = true ->
  axios env h POST IdentityToolkit (App.signIn_url env) [App.signIn_body email password]
  = Resolves data ->
  nullish data = false ->
  firestore_read env
    (h ++ [AxiosCall POST IdentityToolkit (App.signIn_url env) [App.signIn_body email password]])%list
    "users" (get_prop data "localId")
  = Resolves snap ->
  snap_exists snap = false ->
  result (App.loginUser env email password h st)
  = Return (JObj [("success", JBool true);
                  ("user", JObj [("id", get_prop data "localId");
                                 ("name", JStr "User"); ("role", JStr "Litigant");
                                 ("stats", JObj [("cases", JNum 0); ("docs", JNum 0)]);
                                 ("email", email)])]).
Proof.
  intros Hlive Hsign Hdata Hread Hex.
  unfold App.loginUser. rewrite Hlive. norm.
  step Hsign. step Hdata. step Hread. now rewrite Hex.
Qed.

Lemma login_without_profile_witness :
  result (App.loginUser (Sample.env true true) Sample.email2 Sample.password2 []
            Sample.empty_state)
  = Return (JObj [("success", JBool true);
                  ("user", JObj [("id", Sample.uid2);
                                 ("name", JStr "User"); ("role", JStr "Litigant");
                                 ("stats", JObj [("cases", JNum 0); ("docs", JNum 0)]);
                                 ("email", Sample.email2)])]).
Proof.
  exact (login_without_profile (Sample.env true true) [] Sample.empty_state
           Sample.email2 Sample.password2 (obj [("localId", Sample.uid2)])
           {| snap_exists := false; snap_data := JUndefined |}
           eq_refl eq_refl eq_refl eq_refl eq_refl).
Defined.

(** ** C2: registration *)

Lemma sendMail_run (env : Env) (to subject msg : JsVal) (h : list Call) (st : State) :
  App.sendMail env to subject msg h st
  = {| result := Return tt; state := st;
       calls := if mail_configured env
                then [MailerSendMail (App.mail_options env to subject msg)]
                else [] |}.
Proof.
  unfold App.sendMail, mail_configured.
  destruct (truthy (EMAIL_USER env)), (truthy (EMAIL_PASS env)); cbn [negb orb andb];
    try reflexivity.
  norm. now destruct (mailer env h (App.mail_options env to subject msg)) as [err|[]].
Qed.

(** C2 (amended).  In live mode, for a name and a role that convert to
    strings (as every string does), when the identity provider creates the
    account and Firestore accepts the write, [registerUser] of the first
    document answers success true after exactly these calls: the account
    creation, the write of the profile document under the new user id, whose
    role is the submitted role and whose stats are zero, and, if the relay
    credentials are set, one send of the welcome mail (none otherwise). *)
Theorem registerUser_live (env : Env) (h : list Call) (st : State)
    (name email password role userRecord : JsVal) :
  let createdAt := JStr (toISOString env (clock env (clock_reads st))) in
  let creation := AuthCall createUser [App.account_properties name email password] in
  let profile := App.profile_record name email role createdAt in
  let welcome := App.mail_options env email (JStr "Welcome to CourtEase")
                   (JStr (App.welcome_html name role)) in
  let run := App.registerUser env name email password role h st in
  IS_FIREBASE_LIVE env = true ->
  converts name = true -> converts role = true ->
  auth env h createUser [App.account_properties name email password] = Resolves userRecord ->
  nullish userRecord = false ->
  firestore_write env (h ++ [creation])%list FsSet "users" [get_prop userRecord "uid"; profile]
  = Resolves tt ->
  result run = Return (JObj [("success", JBool true)])
  /\ calls run
     = ([creation; FirestoreCall FsSet "users" [get_prop userRecord "uid"; profile]]
        ++ (if mail_configured env then [MailerSendMail welcome] else []))%list
  /\ get_prop profile "role" = role
  /\ get_prop profile "stats" = JObj [("cases", JNum 0); ("docs", JNum 0)]
  /\ attempts Mail (calls run) = (if mail_configured env then 1 else 0).
Proof.
  intros createdAt creation profile welcome run Hlive Hname Hrole Hcreate Hrecord Hwrite.
  subst run createdAt creation profile welcome.
  unfold App.registerUser. rewrite Hlive. norm.
  step Hcreate. step Hrecord. step Hwrite. rewrite Hname, Hrole. norm.
  rewrite sendMail_run. norm.
  repeat split; destruct (mail_configured env); reflexivity.
Qed.

Lemma registerUser_live_witness :
  let run := App.registerUser (Sample.env true true) (JStr "Asha") Sample.email
               Sample.password (JStr "Lawyer") [] Sample.empty_state in
  result run = Return (JObj [("success", JBool true)])
  /\ map site_of (calls run) = [AuthSite createUser; FirestoreSite FsSet "users"; MailSite]
  /\ attempts Mail (calls run) = 1.
Proof.
  destruct (registerUser_live (Sample.env true true) [] Sample.empty_state (JStr "Asha")
              Sample.email Sample.password (JStr "Lawyer") (obj [("uid", JStr "uid-new")])
              eq_refl eq_refl eq_refl eq_refl eq_refl eq_refl) as [Hr [Hc [_ [_ Hm]]]].
  cbv zeta. rewrite Hr, Hm, Hc. repeat split.
Defined.

(** C2 as stated fails in four places.  In mock mode registration
    succeeds, stores a record with no stats and sends no mail.  In live
    mode without relay credentials it succeeds and no mail is sent.  The
    registration of the second document writes a profile with neither role
    nor stats.  And a role that does not convert to a string (the object
    with a property [toString] that is no function) is written to the
    profile, but the welcome mail cannot be composed: no mail is sent and
    the answer is success false. *)
Lemma register_counterexample :
  let body := obj [("name", JStr "Asha"); ("email", Sample.email);
                   ("password", Sample.password); ("role", JStr "Lawyer")] in
  let odd := App.post_api_register (Sample.env true true)
               (Sample.request (obj [("name", JStr "Asha"); ("email", Sample.email);
                                     ("password", Sample.password);
                                     ("role", obj [("toString", JNum 1)])])) []
               Sample.empty_state in
  let mock := App.post_api_register (Sample.env false true) (Sample.request body) []
                Sample.empty_state in
  let unmailed := App.post_api_register (Sample.env true false) (Sample.request body) []
                    Sample.empty_state in
  let second := App2.post_api_register (Sample.env true true) (Sample.request body) []
                  Sample.empty_state in
  (result mock = Return (json (JObj [("success", JBool true); ("message", JStr "Mock Registered")]))
   /\ calls mock = []
   /\ map (fun u => get_prop u "stats") (MOCK_DB_users (state mock)) = [JUndefined])
  /\ (result unmailed = Return (json (JObj [("success", JBool true)]))
      /\ attempts Mail (calls unmailed) = 0)
  /\ (result second
      = Return (json (JObj [("success", JBool true); ("userId", JStr "uid-new");
                            ("message", JStr "User registered successfully. Welcome email sent.")]))
      /\ calls second
         = [AuthCall createUser [JObj [("email", Sample.email); ("password", Sample.password);
                                       ("emailVerified", JBool false); ("disabled", JBool false)]];
            FirestoreCall FsSet "users"
              [JStr "uid-new";
               JObj [("email", Sample.email);
                     ("createdAt", JObj [("FieldValue", JStr "serverTimestamp")])]];
            MailerSendMail
              (JObj [("from", JStr "courtease.notification@gmail.com");
                     ("to", Sample.email);
                     ("subject", JStr "Welcome to CourtEase!");
                     ("html", JStr "<p>Hello,</p><p>Thank you for registering! Your account has been successfully created.</p>")])])
  /\ (result odd
      = Return (json (JObj [("success", JBool false);
                            ("message", JStr "Cannot convert object to primitive value")]))
      /\ map site_of (calls odd) = [AuthSite createUser; FirestoreSite FsSet "users"]).
Proof. repeat split. Qed.

(** ** C6: case creation *)

(** C6 (amended).  In live mode, for a user id and an analysis result that
    is not null or undefined, when Firestore accepts the write,
    [saveCaseToDB] makes one call: it writes, under the id "CASE-" followed
    by the time, a case record whose status is "Submitted", whose notes are
    empty and whose hearing date is null, and returns that id. *)
Theorem saveCaseToDB_live (env : Env) (h : list Call) (st : State) (userId caseData : JsVal) :
  let caseId := JStr ("CASE-" ++ string_of_Z (clock env (clock_reads st))) in
  let createdAt := JStr (toISOString env (clock env (S (clock_reads st)))) in
  let record := App.case_record caseId userId
                  (get_prop caseData "summary") (get_prop caseData "facts")
                  (get_prop caseData "judgments") (get_prop caseData "solutions") createdAt in
  let run := App.saveCaseToDB env userId caseData h st in
  IS_FIREBASE_LIVE env = true ->
  nullish caseData = false ->
  firestore_write env h FsSet "cases" [caseId; record] = Resolves tt ->
  result run = Return caseId
  /\ calls run = [FirestoreCall FsSet "cases" [caseId; record]]
  /\ get_prop record "userId" = userId
  /\ get_prop record "status" = JStr "Submitted"
  /\ get_prop record "notes" = JArr []
  /\ get_prop record "hearingDate" = JNull.
Proof.
  intros caseId createdAt record run Hlive Hdata Hwrite.
  subst run record createdAt caseId.
  unfold App.saveCaseToDB. rewrite Hlive. cbn [negb]. norm. cbn [clock_reads].
  step Hdata. cbn [clock_reads MOCK_DB_users]. step Hwrite.
  repeat split; reflexivity.
Qed.

Lemma saveCaseToDB_live_witness :
  let run := App.saveCaseToDB (Sample.env true true) Sample.uid Sample.analysis []
               Sample.empty_state in
  result run = Return (JStr "CASE-1700000000000")
  /\ calls run
     = [FirestoreCall FsSet "cases"
          [JStr "CASE-1700000000000";
           JObj [("caseId", JStr "CASE-1700000000000"); ("userId", Sample.uid);
                 ("summary", JStr "Bail granted"); ("facts", JStr "Arrest on 3 May");
                 ("judgments", JArr []); ("solutions", JArr [JStr "File the bond"]);
                 ("status", JStr "Submitted"); ("notes", JArr []); ("hearingDate", JNull);
                 ("createdAt", JStr "2023-11-14T22:13:20.000Z")]]].
Proof.
  destruct (saveCaseToDB_live (Sample.env true true) [] Sample.empty_state Sample.uid
              Sample.analysis eq_refl eq_refl eq_refl) as [Hr [Hc _]].
  cbv zeta. rewrite Hr, Hc. split; reflexivity.
Defined.

(** C6 as stated fails in mock mode: /api/save-case, the one caller of
    [saveCaseToDB], answers success true to a user id and an analysis
    result, and no case record is written. *)
Lemma case_creation_counterexample :
  let body := obj [("userId", Sample.uid); ("email", Sample.email);
                   ("data", Sample.analysis)] in
  let run := App.post_api_save_case (Sample.env false true) (Sample.request body) []
               Sample.empty_state in
  result run = Return (json (JObj [("success", JBool true); ("message", JStr "Mock Mode")]))
  /\ calls run = [].
Proof. split; reflexivity. Qed.

(** ** C7: status update *)

(** C7 (amended).  In live mode, for every string [status], whether or not
    it is one of the five listed values, when the case document exists (the
    update and the two reads are answered), the handler of
    /api/cases/update-status of the first document updates the single field
    [status] of the case to that string, reads the case, reads the owner's
    profile under the case's [userId], sends one mail "Case Update: Status
    Changed" naming the case and the status to the profile's email when
    that email is set and the relay credentials are configured, and answers
    success true. *)
Theorem update_status_live (env : Env) (h : list Call) (st : State) (req : Req)
    (status : string) (caseDoc userDoc : Snapshot) :
  let caseId := get_prop (req_body req) "caseId" in
  let userId := opt_prop (snap_data caseDoc) "userId" in
  let clientEmail := opt_prop (snap_data userDoc) "email" in
  let update := FirestoreCall FsUpdate "cases" [caseId; JObj [("status", JStr status)]] in
  let notice := App.mail_options env clientEmail (JStr "Case Update: Status Changed")
                  (JStr (App.status_html caseId (JStr status))) in
  let run := App.post_api_cases_update_status env req h st in
  IS_FIREBASE_LIVE env = true ->
  nullish (req_body req) = false ->
  get_prop (req_body req) "status" = JStr status ->
  firestore_write env h FsUpdate "cases" [caseId; JObj [("status", JStr status)]] = Resolves tt ->
  firestore_read env (h ++ [update])%list "cases" caseId = Resolves caseDoc ->
  firestore_read env (h ++ [update; FirestoreCall FsGet "cases" [caseId]])%list "users" userId
  = Resolves userDoc ->
  result run = Return (json (JObj [("success", JBool true)]))
  /\ calls run
     = ([update; FirestoreCall FsGet "cases" [caseId]; FirestoreCall FsGet "users" [userId]]
        ++ (if truthy clientEmail && mail_configured env then [MailerSendMail notice] else []))%list.
Proof.
  intros caseId userId clientEmail update notice run Hlive Hbody Hstatus Hwrite Hcase Huser.
  subst run notice update clientEmail userId caseId.
  change (JObj [("status", JStr status)]) with (obj [("status", JStr status)]) in *.
  unfold App.post_api_cases_update_status. rewrite Hlive. cbn [negb]. norm.
  step Hbody. step Hstatus. step Hwrite. step Hcase. step Huser.
  destruct (truthy (opt_prop (snap_data userDoc) "email")); cbn [andb].
  - rewrite sendMail_run. norm. repeat split.
  - norm. repeat split.
Qed.

Lemma update_status_live_witness :
  let req := Sample.request (obj [("caseId", JStr "CASE-1"); ("status", JStr "Adjourned sine die")]) in
  let run := App.post_api_cases_update_status (Sample.env true true) req [] Sample.empty_state in
  result run = Return (json (JObj [("success", JBool true)]))
  /\ calls run
     = [FirestoreCall FsUpdate "cases" [JStr "CASE-1"; JObj [("status", JStr "Adjourned sine die")]];
        FirestoreCall FsGet "cases" [JStr "CASE-1"];
        FirestoreCall FsGet "users" [Sample.uid];
        MailerSendMail
          (JObj [("from", JStr (dq ++ "CourtEase Team" ++ dq ++ " <courtease@example.com>"));
                 ("to", Sample.email);
                 ("subject", JStr "Case Update: Status Changed");
                 ("html", JStr "<p>The status for your case (<b>CASE-1</b>) has been updated to <b>Adjourned sine die</b>.</p>")])].
Proof.
  destruct (update_status_live (Sample.env true true) [] Sample.empty_state
              (Sample.request (obj [("caseId", JStr "CASE-1");
                                    ("status", JStr "Adjourned sine die")]))
              "Adjourned sine die"
              {| snap_exists := true;
                 snap_data := obj [("caseId", JStr "CASE-1"); ("userId", Sample.uid);
                                   ("status", JStr "Submitted")] |}
              {| snap_exists := true;
                 snap_data := obj [("name", JStr "Asha"); ("email", Sample.email);
                                   ("role", JStr "Litigant")] |}
              eq_refl eq_refl eq_refl eq_refl eq_refl eq_refl) as [Hr Hc].
  cbv zeta. rewrite Hr, Hc. split; reflexivity.
Defined.

(** C7 as stated fails in three places.  In mock mode the handler answers
    success without an update or a notification.  In live mode, for a case
    whose owner has no profile document (CASE-2), it updates the status and
    answers success without a notification.  In live mode without relay
    credentials, for a case whose owner has an email (CASE-1), it does the
    same. *)
Lemma update_status_counterexample :
  let req := Sample.request (obj [("caseId", JStr "CASE-1"); ("status", JStr "Closed")]) in
  let orphan := Sample.request (obj [("caseId", JStr "CASE-2"); ("status", JStr "Closed")]) in
  let mock := App.post_api_cases_update_status (Sample.env false true) req [] Sample.empty_state in
  let live := App.post_api_cases_update_status (Sample.env true true) orphan [] Sample.empty_state in
  let unmailed := App.post_api_cases_update_status (Sample.env true false) req []
                    Sample.empty_state in
  (result mock = Return (json (JObj [("success", JBool true); ("message", JStr "Mock Mode")]))
   /\ calls mock = [])
  /\ (result live = Return (json (JObj [("success", JBool true)]))
      /\ calls live
         = [FirestoreCall FsUpdate "cases" [JStr "CASE-2"; JObj [("status", JStr "Closed")]];
            FirestoreCall FsGet "cases" [JStr "CASE-2"];
            FirestoreCall FsGet "users" [Sample.uid2]])
  /\ (result unmailed = Return (json (JObj [("success", JBool true)]))
      /\ calls unmailed
         = [FirestoreCall FsUpdate "cases" [JStr "CASE-1"; JObj [("status", JStr "Closed")]];
            FirestoreCall FsGet "cases" [JStr "CASE-1"];
            FirestoreCall FsGet "users" [Sample.uid]]).
Proof. repeat split. Qed.

(** ** Computations that cannot throw *)








(** ** C3: the judgment search falls back *)

(** C3 (amended).  [searchJudgments] of the first document: when the
    search token is not set, or the query does not convert to a string, or
    the call to the search service throws, or its answer has no array
    [docs], the result is the list of the two landmark cases, Kesavananda
    Bharati v. State of Kerala and Vishaka v. State of Rajasthan, returned
    and not thrown.  /api/ai/legal-research of the second document, in live
    mode and for a request whose bearer token the identity provider
    accepts, answers status 500 with success false when the search token is
    not set (without calling the search service) and when the call to the
    search service throws. *)
Theorem searchJudgments_fallback (env : Env) (h : list Call) (st : State) (query : JsVal) :
  let request := axios env h POST IndianKanoon (App.search_url env query)
                   [obj []; App.search_config env] in
  (truthy (INDIAN_KANOON_TOKEN env) = false
   \/ converts query = false
   \/ (exists err, request = Rejects err)
   \/ (exists data, request = Resolves data
                    /\ (nullish data = true \/ forall items, get_prop data "docs" <> JArr items)) ->
   result (App.searchJudgments env query h st)
   = Return (JArr [JObj [("title", JStr "Kesavananda Bharati v. State of Kerala");
                         ("court", JStr "Supreme Court"); ("link", JStr "#")];
                   JObj [("title", JStr "Vishaka v. State of Rajasthan");
                         ("court", JStr "Supreme Court"); ("link", JStr "#")]]))
  /\ (forall (req : Req) (user : JsVal),
        let idToken := App2.bearer_token (req_authorization req) in
        let check := AuthCall verifyIdToken [idToken] in
        let asked := get_prop (req_body req) "query" in
        let headers :=
          obj [("headers",
                obj [("Authorization", JStr ("Token " ++ js_String (INDIAN_KANOON_TOKEN env)));
                     ("Accept", JStr "application/json")])] in
        let run := App2.post_api_ai_legal_research env req h st in
        IS_FIREBASE_LIVE env = true ->
        truthy idToken = true ->
        auth env h verifyIdToken [idToken] = Resolves user ->
        nullish (req_body req) = false ->
        (truthy (INDIAN_KANOON_TOKEN env) = false ->
         result run
         = Return (status_json 500 (JObj [("success", JBool false);
                                          ("message", JStr "INDIAN_KANOON_TOKEN not configured.")]))
         /\ calls run = [check])
        /\ (forall err,
              truthy (INDIAN_KANOON_TOKEN env) = true ->
              converts asked = true ->
              axios env (h ++ [check])%list GET IndianKanoon (App.search_url env asked) [headers]
              = Rejects err ->
              result run
              = Return (status_json 500
                          (JObj [("success", JBool false);
                                 ("message",
                                  JStr (if strict_eq (opt_prop (lookup "response" err) "status")
                                                     (JNum 401)
                                        then "Unauthorized: Invalid Indian Kanoon Token."
                                        else "Legal research failed. Check if Indian Kanoon Token is valid."))])))).
Proof.
  intros request. subst request. split.
  - intros H. unfold App.searchJudgments.
    destruct (truthy (INDIAN_KANOON_TOKEN env)) eqn:Htoken; [|norm; reflexivity].
    norm. destruct (converts query) eqn:Hquery; norm; [|reflexivity].
    destruct H as [H|[H|[[err H]|[data [H Hdata]]]]]; try discriminate.
    + now step H.
    + step H. destruct (nullish data) eqn:Hnull; norm; [reflexivity|].
      destruct Hdata as [Hdata|Hdata]; [discriminate|].
      destruct (get_prop data "docs") as [| | | | |items|] eqn:Hdocs; norm; try reflexivity.
      now destruct (Hdata items).
  - intros req user idToken check asked headers run Hlive Hyes Hauth Hbody.
    subst run headers asked check idToken.
    unfold App2.post_api_ai_legal_research, App2.verifyToken.
    rewrite Hlive, Hyes. cbn [negb]. norm. step Hauth. step Hbody. split.
    + intros Htoken. rewrite Htoken. cbn [negb]. norm. split; reflexivity.
    + intros err Htoken Hquery Haxios. rewrite Htoken. cbn [negb]. norm.
      step Hquery. unfold App.search_url in Haxios. step Haxios. cbn [nullish get_prop]. norm.
      now destruct (strict_eq _ _).
Qed.

Lemma searchJudgments_fallback_witness :
  result (App.searchJudgments (Sample.env true true) (JStr "privacy") []
            Sample.empty_state)
  = Return (JArr [JObj [("title", JStr "Kesavananda Bharati v. State of Kerala");
                        ("court", JStr "Supreme Court"); ("link", JStr "#")];
                  JObj [("title", JStr "Vishaka v. State of Rajasthan");
                        ("court", JStr "Supreme Court"); ("link", JStr "#")]]).
Proof.
  apply (proj1 (searchJudgments_fallback (Sample.env true true) [] Sample.empty_state
                  (JStr "privacy"))).
  right. right. left. exists Sample.network_error. reflexivity.
Defined.

(** C3 as stated fails on the second document: in live mode, for a request
    with an accepted bearer token, its /api/ai/legal-research answers 500
    with success false when the token is not set and when the search
    service cannot be reached. *)
Lemma legal_research_counterexample :
  let req := {| req_body := obj [("query", JStr "privacy")];
                req_file := None;
                req_authorization := Some "Bearer id-token" |} in
  result (App2.post_api_ai_legal_research (Sample.env true false) req [] Sample.empty_state)
  = Return (status_json 500 (JObj [("success", JBool false);
                                   ("message", JStr "INDIAN_KANOON_TOKEN not configured.")]))
  /\ result (App2.post_api_ai_legal_research (Sample.env true true) req [] Sample.empty_state)
     = Return (status_json 500
                 (JObj [("success", JBool false);
                        ("message", JStr "Legal research failed. Check if Indian Kanoon Token is valid.")])).
Proof. split; reflexivity. Qed.

(** ** C4: answers of the model that are not JSON *)

Lemma truthy_text (text : string) : text <> "" -> truthy (JStr text) = true.
Proof. intros H. cbn. apply String.eqb_neq in H. now rewrite H. Qed.




(** ** C8: fence markers are stripped before parsing *)

(** C8 (amended).  Whatever text the model answers, through the SDK or
    through the REST call, the text that [processDocument] and
    [analyzeCase] parse is the answer without its fence markers, trimmed:
    it holds neither ``` nor ```json, and when it parses, its parse is what
    they return.  For an answer that is one fenced block, ```json, a content
    without backquote, ```, the text parsed is the content, trimmed. *)
Theorem fenced_answer_parsed (env : Env) (h : list Call) (st : State) :
  let document_sdk := fun buf =>
    generateContent env h App.gemini_model (App.document_sdk_payload (toString_base64 buf)) in
  let document_rest := fun buf =>
    axios env (h ++ [SdkGenerateContent App.gemini_model
                       (App.document_sdk_payload (toString_base64 buf))])%list
      POST GenerativeLanguage (App.gemini_rest_url env)
      [App.document_rest_body (toString_base64 buf); App.json_headers] in
  let case_sdk := fun facts =>
    generateContent env h App.gemini_model (JStr (App.analyzeCase_prompt facts)) in
  let case_rest := fun facts =>
    axios env (h ++ [SdkGenerateContent App.gemini_model
                       (JStr (App.analyzeCase_prompt facts))])%list
      POST GenerativeLanguage (App.gemini_rest_url env)
      [App.text_rest_body (App.analyzeCase_prompt facts); App.json_headers] in
  (forall text,
     occurs fence (strip_fences text) = false /\ occurs fence_json (strip_fences text) = false)
  /\ (forall content,
        occurs "`" content = false ->
        strip_fences (fence_json ++ content ++ fence) = trim content)
  /\ (truthy (GEMINI_API_KEY env) = true ->
      (forall buf answer text t str v,
         document_sdk buf = Resolves answer ->
         answer = ResultObject (Some (Resolves text)) t str \/ answer = ResultString text ->
         text <> "" ->
         JSON_parse env (strip_fences text) = Resolves v ->
         result (App.processDocument env buf h st) = Return v)
      /\ (forall buf e data v,
            document_sdk buf = Rejects e ->
            document_rest buf = Resolves data ->
            converts (App.document_rest_text env data) = true ->
            JSON_parse env (strip_fences (js_String (App.document_rest_text env data)))
            = Resolves v ->
            result (App.processDocument env buf h st) = Return v)
      /\ (forall facts answer text t str v,
            converts facts = true ->
            case_sdk facts = Resolves answer ->
            answer = ResultObject (Some (Resolves text)) t str \/ answer = ResultString text ->
            text <> "" ->
            JSON_parse env (strip_fences text) = Resolves v ->
            result (App.analyzeCase env facts h st) = Return v)
      /\ (forall facts e data v,
            converts facts = true ->
            case_sdk facts = Rejects e ->
            case_rest facts = Resolves data ->
            converts (App.text_rest_text env data) = true ->
            JSON_parse env (strip_fences (js_String (App.text_rest_text env data)))
            = Resolves v ->
            result (App.analyzeCase env facts h st) = Return v)).
Proof.
  intros document_sdk document_rest case_sdk case_rest.
  subst document_sdk document_rest case_sdk case_rest.
  split; [apply strip_fences_clean|]. split; [apply strip_fences_fenced|].
  intros Hkey. split; [|split; [|split]].
  - intros buf answer text t str v Hsdk Hanswer Htext Hparse.
    unfold App.processDocument, genAI_ready. rewrite Hkey. cbn [negb]. norm.
    step Hsdk. destruct Hanswer as [-> | ->]; norm; unfold js_or; cbn [string_or_null];
      try change (truthy JUndefined) with false; cbv beta iota;
      repeat (rewrite (truthy_text text Htext); norm); cbn [js_String]; now step Hparse.
  - intros buf e data v Hsdk Hrest Hshown Hparse.
    unfold App.processDocument, genAI_ready. rewrite Hkey. cbn [negb]. norm.
    step Hsdk. step Hrest. step Hshown. now step Hparse.
  - intros facts answer text t str v Hfacts Hsdk Hanswer Htext Hparse.
    unfold App.analyzeCase, genAI_ready. rewrite Hkey. cbn [negb]. norm.
    step Hfacts. step Hsdk. destruct Hanswer as [-> | ->]; norm; unfold js_or;
      cbn [String_of_result]; try change (truthy JUndefined) with false; cbv beta iota;
      repeat (rewrite (truthy_text text Htext); norm); cbn [js_String]; now step Hparse.
  - intros facts e data v Hfacts Hsdk Hrest Hshown Hparse.
    unfold App.analyzeCase, genAI_ready. rewrite Hkey. cbn [negb]. norm.
    step Hfacts. step Hsdk. step Hrest. step Hshown. now step Hparse.
Qed.

Lemma fenced_answer_parsed_witness :
  strip_fences Sample.fenced_json = Sample.analysis_json
  /\ result (App.processDocument (Sample.env true true) {| toString_base64 := "QQ==" |} []
               Sample.empty_state)
     = Return (JObj [("summary", JStr "Bail granted")])
  /\ result (App.analyzeCase (Sample.env true true) (JStr "The tenant paid the rent.") []
               Sample.empty_state)
     = Return (JObj [("summary", JStr "Bail granted")]).
Proof.
  destruct (fenced_answer_parsed (Sample.env true true) [] Sample.empty_state)
    as [_ [Hblock Hrun]].
  destruct (Hrun eq_refl) as [Hdoc [_ [Hswot _]]].
  split; [exact (Hblock (nl ++ Sample.analysis_json ++ nl) eq_refl)|]. split.
  - exact (Hdoc {| toString_base64 := "QQ==" |} _ Sample.fenced_json JUndefined
             "[object Object]" Sample.analysis_value eq_refl (or_introl eq_refl)
             ltac:(discriminate) eq_refl).
  - exact (Hswot (JStr "The tenant paid the rent.") _ Sample.fenced_json JUndefined
             "[object Object]" Sample.analysis_value eq_refl eq_refl (or_introl eq_refl)
             ltac:(discriminate) eq_refl).
Defined.

(** C8 as stated fails for an answer that holds more than the fenced
    block.  The model answers the document "RA==" with a sentence followed
    by the block ```json {"summary":"Bail granted"} ```; the markers are
    removed but the sentence stays, the text is not JSON, and what
    [processDocument] returns is not the parse of the fenced content but
    the object that reports the text. *)
Lemma fenced_answer_counterexample :
  let run := App.processDocument Sample2.env {| toString_base64 := "RA==" |} []
               Sample.empty_state in
  generateContent Sample2.env [] App.gemini_model (App.document_sdk_payload "RA==")
  = Sample.answer ("Here is the analysis:" ++ nl ++ fence_json ++ nl ++ Sample.analysis_json
                   ++ nl ++ fence)
  /\ JSON_parse Sample2.env Sample.analysis_json = Resolves Sample.analysis_value
  /\ result run
     = Return (JObj [("summary",
                      JStr ("AI returned non-JSON output (SDK). Raw: Here is the analysis:"
                            ++ nl ++ nl ++ Sample.analysis_json));
                     ("facts", JStr ""); ("judgments", JArr []); ("solutions", JArr [])])
  /\ result run <> Return Sample.analysis_value.
Proof. repeat split. discriminate. Qed.

(** ** C5: how often a request calls a service *)

Lemma Subseq_nil_l {A : Type} (S : list A) : Subseq [] S.
Proof. induction S; constructor; assumption. Qed.

Lemma Subseq_refl {A : Type} (l : list A) : Subseq l l.
Proof. induction l; constructor; assumption. Qed.

Lemma Subseq_app {A : Type} (l1 S1 l2 S2 : list A) :
  Subseq l1 S1 -> Subseq l2 S2 -> Subseq (l1 ++ l2)%list (S1 ++ S2)%list.
Proof.
  induction 1; intros H2; cbn [app];
    [assumption | apply Subseq_skip; auto | apply Subseq_take; auto].
Qed.

Lemma Subseq_In {A : Type} (l S : list A) (x : A) : Subseq l S -> In x l -> In x S.
Proof.
  induction 1; intros Hx; [assumption| right; auto |].
  destruct Hx as [Hx|Hx]; [now left | right; auto].
Qed.

Lemma Subseq_NoDup {A : Type} (l S : list A) : Subseq l S -> NoDup S -> NoDup l.
Proof.
  induction 1; intros HS; [constructor| |]; inversion HS; subst; auto.
  constructor; auto. intros Hx. eauto using Subseq_In.
Qed.

Lemma Subseq_filter_length {A : Type} (f : A -> bool) (l S : list A) :
  Subseq l S -> List.length (filter f l) <= List.length (filter f S).
Proof.
  induction 1; cbn [filter]; [lia| |]; destruct (f x); cbn [List.length]; lia.
Qed.

Lemma Subseq_single {A : Type} (x : A) (S : list A) : In x S -> Subseq [x] S.
Proof.
  induction S as [|y S IH]; intros H; [destruct H|].
  destruct H as [H|H]; [subst; constructor; apply Subseq_nil_l | constructor; auto].
Qed.

Lemma emits_silent {A : Type} (S : list Site) (m : M A) :
  (forall h st, calls (m h st) = []) -> emits S m.
Proof. intros H h st. rewrite H. apply Subseq_nil_l. Qed.

Lemma emits_ret {A : Type} (S : list Site) (a : A) : emits S (ret a).
Proof. now apply emits_silent. Qed.

Lemma emits_throw {A : Type} (S : list Site) (e : JsVal) : emits S (@throw A e).
Proof. now apply emits_silent. Qed.

Lemma emits_member (S : list Site) (v : JsVal) (k : string) : emits S (member v k).
Proof. apply emits_silent. intros h st. unfold member. now destruct (nullish v). Qed.

Lemma emits_interpolate (S : list Site) (holes : list JsVal) (text : string) :
  emits S (interpolate holes text).
Proof. apply emits_silent. intros h st. unfold interpolate. now destruct (forallb converts holes). Qed.

Lemma emits_parse (S : list Site) (env : Env) (s : string) : emits S (parse env s).
Proof. now apply emits_silent. Qed.

Lemma emits_Date_now (S : list Site) (env : Env) : emits S (Date_now env).
Proof. now apply emits_silent. Qed.

Lemma emits_new_Date (S : list Site) (env : Env) : emits S (new_Date_toISOString env).
Proof. now apply emits_silent. Qed.

Lemma emits_get_users (S : list Site) : emits S get_users.
Proof. now apply emits_silent. Qed.

Lemma emits_push_user (S : list Site) (u : JsVal) : emits S (push_user u).
Proof. now apply emits_silent. Qed.

Lemma emits_perform {A : Type} (S : list Site) (c : Call) (answer : list Call -> Reply A) :
  In (site_of c) S -> emits S (perform c answer).
Proof. intros H h st. cbn. now apply Subseq_single. Qed.

(** The sites of a sequence split between its two parts. *)
Lemma emits_bind {A B : Type} (n : nat) (S : list Site) (m : M A) (k : A -> M B) :
  emits (firstn n S) m -> (forall a, emits (skipn n S) (k a)) -> emits S (bind m k).
Proof.
  intros Hm Hk h st. unfold bind. specialize (Hm h st).
  destruct (m h st) as [[e|a] st1 cs1]; cbn [calls] in *.
  - rewrite <- (firstn_skipn n S), <- (app_nil_r (map site_of cs1)).
    apply Subseq_app; [assumption | apply Subseq_nil_l].
  - specialize (Hk a (h ++ cs1)%list st1).
    destruct (k a (h ++ cs1)%list st1) as [r st2 cs2]; cbn [calls] in *.
    rewrite map_app, <- (firstn_skipn n S). now apply Subseq_app.
Qed.

Lemma emits_try_catch {A : Type} (n : nat) (S : list Site) (m : M A) (handler : JsVal -> M A) :
  emits (firstn n S) m -> (forall e, emits (skipn n S) (handler e)) ->
  emits S (try_catch m handler).
Proof.
  intros Hm Hh h st. unfold try_catch. specialize (Hm h st).
  destruct (m h st) as [[e|a] st1 cs1]; cbn [calls] in *.
  - specialize (Hh e (h ++ cs1)%list st1).
    destruct (handler e (h ++ cs1)%list st1) as [r st2 cs2]; cbn [calls] in *.
    rewrite map_app, <- (firstn_skipn n S). now apply Subseq_app.
  - rewrite <- (firstn_skipn n S), <- (app_nil_r (map site_of cs1)).
    apply Subseq_app; [assumption | apply Subseq_nil_l].
Qed.

Lemma emits_mapM {A B : Type} (S : list Site) (f : A -> M B) (l : list A) :
  (forall x, emits [] (f x)) -> emits S (mapM f l).
Proof.
  intros Hf. apply emits_silent. induction l as [|x l IH]; intros h st; [reflexivity|].
  cbn [mapM]. unfold bind. specialize (Hf x h st).
  destruct (f x h st) as [[e|y] st1 cs1]; cbn [calls] in *;
    inversion Hf as [E| |]; destruct cs1; try discriminate; [reflexivity|].
  specialize (IH (h ++ [])%list st1).
  destruct (mapM f l (h ++ [])%list st1) as [[e|ys] st2 cs2]; cbn [calls] in *; now subst.
Qed.

Lemma Subseq_trans {A : Type} (l m S : list A) : Subseq l m -> Subseq m S -> Subseq l S.
Proof.
  intros H1 H2. revert l H1. induction H2 as [|x m S H2 IH|x m S H2 IH]; intros l H1.
  - assumption.
  - apply Subseq_skip. auto.
  - inversion H1; subst; [apply Subseq_skip | apply Subseq_take]; auto.
Qed.

Lemma emits_sub {A : Type} (S' S : list Site) (m : M A) :
  emits S' m -> Subseq S' S -> emits S m.
Proof. intros Hm HS h st. eapply Subseq_trans; [apply Hm | exact HS]. Qed.

Create HintDb emits discriminated.

(** Decide [Subseq l S] for two given lists: take where the heads agree. *)
Ltac subseq_solve :=
  solve [ repeat first [ apply Subseq_nil_l | apply Subseq_take | apply Subseq_skip ] ].

(** Prove [emits S m] for a list [S] that is given: follow the shape of
    [m]; at a sequence, give the first part the shortest prefix of [S]
    that it needs. *)
Ltac emits_auto :=
  cbv beta zeta; cbn [firstn skipn];
  lazymatch goal with
  | |- emits _ (ret _) => apply emits_ret
  | |- emits _ (throw _) => apply emits_throw
  | |- emits _ (member _ _) => apply emits_member
  | |- emits _ (parse _ _) => apply emits_parse
  | |- emits _ (interpolate _ _) => apply emits_interpolate
  | |- emits _ (Date_now _) => apply emits_Date_now
  | |- emits _ (new_Date_toISOString _) => apply emits_new_Date
  | |- emits _ get_users => apply emits_get_users
  | |- emits _ (push_user _) => apply emits_push_user
  | |- emits _ (perform _ _) => apply emits_perform; cbn [site_of In]; auto 6
  | |- emits _ (mapM _ _) => apply emits_mapM; intros; emits_auto
  | |- emits ?S (bind _ _) => emits_split S ltac:(fun n => apply (emits_bind n))
  | |- emits ?S (try_catch _ _) => emits_split S ltac:(fun n => apply (emits_try_catch n))
  | |- emits _ (if ?b then _ else _) => destruct b; emits_auto
  | |- emits _ (match ?x with _ => _ end) => destruct x; emits_auto
  | |- emits _ _ =>
      first [ solve [ eapply emits_sub; [solve [auto with emits] | cbn [call_sites]; subseq_solve] ]
            | progress unfold auth_call, firestore_set, firestore_update, firestore_get,
                firestore_get_query, axios_post, axios_get, sdk_generateContent,
                mailer_sendMail, response_text, array_map; emits_auto ]
  end
with emits_split S lem :=
  let go n := (lem n; [solve [emits_auto] | intros; emits_auto]) in
  lazymatch S with
  | [] => go 0%nat
  | [_] => first [go 0%nat | go 1%nat]
  | [_; _] => first [go 0%nat | go 1%nat | go 2%nat]
  | [_; _; _] => first [go 0%nat | go 1%nat | go 2%nat | go 3%nat]
  | _ => first [go 0%nat | go 1%nat | go 2%nat | go 3%nat | go 4%nat]
  end.

Lemma sendMail_emits (env : Env) (to subject msg : JsVal) :
  emits [MailSite] (App.sendMail env to subject msg).
Proof. unfold App.sendMail. emits_auto. Qed.
#[local] Hint Resolve sendMail_emits : emits.

Lemma sendMail2_emits (env : Env) (to subject msg : JsVal) :
  emits [MailSite] (App2.sendMail env to subject msg).
Proof. unfold App2.sendMail. emits_auto. Qed.
#[local] Hint Resolve sendMail2_emits : emits.

Lemma registerUser_emits (env : Env) (name email password role : JsVal) :
  emits (call_sites R1_register) (App.registerUser env name email password role).
Proof. unfold App.registerUser, call_sites. emits_auto. Qed.
#[local] Hint Resolve registerUser_emits : emits.

Lemma loginUser_emits (env : Env) (email password : JsVal) :
  emits (call_sites R1_login) (App.loginUser env email password).
Proof. unfold App.loginUser, call_sites. emits_auto. Qed.
#[local] Hint Resolve loginUser_emits : emits.

Lemma updateUserProfile_emits (env : Env) (uid data : JsVal) :
  emits (call_sites R1_update_profile) (App.updateUserProfile env uid data).
Proof. unfold App.updateUserProfile, call_sites. emits_auto. Qed.
#[local] Hint Resolve updateUserProfile_emits : emits.

Lemma searchJudgments_emits (env : Env) (query : JsVal) :
  emits (call_sites R1_search) (App.searchJudgments env query).
Proof. unfold App.searchJudgments, call_sites. emits_auto. Qed.
#[local] Hint Resolve searchJudgments_emits : emits.

Lemma processDocument_emits (env : Env) (buf : Buffer) :
  emits (call_sites R1_upload) (App.processDocument env buf).
Proof. unfold App.processDocument, call_sites. emits_auto. Qed.
#[local] Hint Resolve processDocument_emits : emits.

Lemma chatAI_emits (env : Env) (msg : JsVal) :
  emits (call_sites R1_chat) (App.chatAI env msg).
Proof. unfold App.chatAI, call_sites. emits_auto. Qed.
#[local] Hint Resolve chatAI_emits : emits.

Lemma analyzeCase_emits (env : Env) (text : JsVal) :
  emits (call_sites R1_analyze) (App.analyzeCase env text).
Proof. unfold App.analyzeCase, call_sites. emits_auto. Qed.
#[local] Hint Resolve analyzeCase_emits : emits.

Lemma saveCaseToDB_emits (env : Env) (userId caseData : JsVal) :
  emits [FirestoreSite FsSet "cases"] (App.saveCaseToDB env userId caseData).
Proof. unfold App.saveCaseToDB. emits_auto. Qed.
#[local] Hint Resolve saveCaseToDB_emits : emits.

Lemma verifyToken_emits (env : Env) (req : Req) (next : JsVal -> M Response) (S : list Site) :
  (forall user, emits S (next user)) ->
  emits (AuthSite verifyIdToken :: S) (App2.verifyToken env req next).
Proof.
  intros Hnext. unfold App2.verifyToken.
  destruct (negb (IS_FIREBASE_LIVE env)).
  - eapply emits_sub; [apply Hnext | apply Subseq_skip, Subseq_refl].
  - destruct (negb (truthy (App2.bearer_token (req_authorization req)))); [apply emits_ret|].
    apply (emits_bind 1); cbn [firstn skipn].
    + unfold auth_call. emits_auto.
    + intros [user|]; [apply Hnext | apply emits_ret].
Qed.

(** Every route reaches only its own call sites, in program order. *)
Lemma handle_emits (env : Env) (route : Route) (req : Req) :
  emits (call_sites route) (handle env route req).
Proof.
  destruct route; cbn [handle call_sites].
  - unfold App.post_api_register. emits_auto.
  - unfold App.post_api_login. emits_auto.
  - unfold App.post_api_update_profile. emits_auto.
  - unfold App.post_api_search. emits_auto.
  - unfold App.post_api_analyze. emits_auto.
  - unfold App.post_api_chat. emits_auto.
  - unfold App.post_api_upload. emits_auto.
  - unfold App.post_api_save_case. emits_auto.
  - unfold App.post_api_get_cases. emits_auto.
  - unfold App.post_api_all_cases. emits_auto.
  - unfold App.post_api_cases_add_note. emits_auto.
  - unfold App.post_api_cases_update_hearing. emits_auto.
  - unfold App.post_api_cases_update_status. emits_auto.
  - unfold App2.post_api_register. emits_auto.
  - unfold App2.post_api_login. emits_auto.
  - unfold App2.post_api_ai_analyze_document. apply verifyToken_emits. intros user. emits_auto.
  - unfold App2.post_api_ai_legal_research. apply verifyToken_emits. intros user. emits_auto.
  - unfold App2.get_api_cases. apply verifyToken_emits. intros user. emits_auto.
  - unfold App2.post_api_cases_update_hearing. emits_auto.
  - unfold App2.post_api_cases_update_status. emits_auto.
Qed.

Lemma service_of_site (c : Call) : service_of c = site_service (site_of c).
Proof. now destruct c. Qed.

Lemma attempts_sites (s : Service) (cs : list Call) :
  attempts s cs
  = List.length (filter (fun x => Service_eqb s (site_service x)) (map site_of cs)).
Proof.
  unfold attempts. induction cs as [|c cs IH]; [reflexivity|].
  cbn [filter map]. unfold is_service at 1. rewrite service_of_site.
  destruct (Service_eqb s (site_service (site_of c))); cbn [List.length]; now rewrite IH.
Qed.

Lemma attempts_bound (s : Service) (cs : list Call) (S : list Site) :
  Subseq (map site_of cs) S ->
  attempts s cs <= List.length (filter (fun x => Service_eqb s (site_service x)) S).
Proof. intros H. rewrite attempts_sites. now apply Subseq_filter_length. Qed.

Lemma call_sites_NoDup (route : Route) : NoDup (call_sites route).
Proof.
  destruct route; cbn [call_sites]; repeat constructor; cbn [In]; intuition discriminate.
Qed.

(** C5 (amended).  Handling one request reaches each call site of its
    route at most once, in program order: nothing is retried in a loop.
    It makes at most one call to the search service and at most one to the
    mail relay; at most two to the identity provider and at most three to
    Firestore, all different operations; and at most two to the model, the
    second one being the REST call that follows the SDK call. *)
Theorem request_calls (env : Env) (route : Route) (req : Req) (h : list Call) (st : State) :
  let made := calls (handle env route req h st) in
  Subseq (map site_of made) (call_sites route)
  /\ NoDup (map site_of made)
  /\ attempts Search made <= 1
  /\ attempts Mail made <= 1
  /\ attempts Auth made <= 2
  /\ attempts Database made <= 3
  /\ attempts AI made <= 2
  /\ (attempts AI made = 2 ->
      filter (fun x => Service_eqb AI (site_service x)) (map site_of made)
      = [SdkSite; AxiosSite POST GenerativeLanguage]).
Proof.
  intros made. assert (H : Subseq (map site_of made) (call_sites route))
    by apply handle_emits.
  split; [exact H|]. split; [exact (Subseq_NoDup _ _ H (call_sites_NoDup route))|].
  repeat split.
  - etransitivity; [exact (attempts_bound Search made _ H)|]. destruct route; cbn; lia.
  - etransitivity; [exact (attempts_bound Mail made _ H)|]. destruct route; cbn; lia.
  - etransitivity; [exact (attempts_bound Auth made _ H)|]. destruct route; cbn; lia.
  - etransitivity; [exact (attempts_bound Database made _ H)|]. destruct route; cbn; lia.
  - etransitivity; [exact (attempts_bound AI made _ H)|]. destruct route; cbn; lia.
  - rewrite attempts_sites. revert H. generalize (map site_of made). intros l H Hl.
    destruct route; cbn [call_sites] in H;
      repeat match goal with
             | H : Subseq _ (_ :: _) |- _ => inversion H; clear H; subst
             | H : Subseq _ [] |- _ => inversion H; clear H; subst
             end; cbn in Hl; try discriminate; reflexivity.
Qed.

Lemma request_calls_witness :
  let made := calls (handle (Sample.env true true) R1_update_status
                       (Sample.request (obj [("caseId", JStr "CASE-1"); ("status", JStr "Closed")]))
                       [] Sample.empty_state) in
  map site_of made = call_sites R1_update_status /\ NoDup (map site_of made).
Proof.
  destruct (request_calls (Sample.env true true) R1_update_status
              (Sample.request (obj [("caseId", JStr "CASE-1"); ("status", JStr "Closed")]))
              [] Sample.empty_state) as [_ [H _]].
  split; [reflexivity | exact H].
Defined.

(** C5 as stated fails for the model.  When the SDK call throws, one
    upload calls the model a second time, through the REST endpoint.  When
    the SDK call answers a text that is not JSON, one SWOT analysis does the
    same. *)
Lemma request_calls_counterexample :
  let upload := calls (handle (Sample.env true true) R1_upload (Sample.upload "Qw==") []
                         Sample.empty_state) in
  let swot := calls (handle (Sample.env true true) R1_analyze
                       (Sample.request (obj [("text", JStr "The landlord cut the power.")])) []
                       Sample.empty_state) in
  (map service_of upload = [AI; AI]
   /\ map site_of upload = [SdkSite; AxiosSite POST GenerativeLanguage]
   /\ attempts AI upload = 2)
  /\ (map service_of swot = [AI; AI]
      /\ map site_of swot = [SdkSite; AxiosSite POST GenerativeLanguage]
      /\ attempts AI swot = 2).
Proof. repeat split. Qed.


(* ================================================================== *)
(** * Further properties                                                *)
(* ================================================================== *)

(** ** The bearer token and [verifyToken] *)

Lemma split_from_skip (k : nat) (sep : string) (c : ascii) (r : string) :
  split_from (S k) sep (String c r) = split_from k sep r.
Proof. reflexivity. Qed.

Lemma split_from_scan (sep : string) (c : ascii) (r : string) :
  split_from 0 sep (String c r)
  = if prefix sep (String c r)
    then let '(p, ps) := split_from (String.length sep - 1) sep r in (EmptyString, p :: ps)
    else let '(p, ps) := split_from 0 sep r in (String c p, ps).
Proof. reflexivity. Qed.

Lemma split_from_clean (sep t : string) :
  occurs sep t = false -> split_from 0 sep t = (t, []).
Proof.
  induction t as [|c t IH]; intros H; [reflexivity|].
  rewrite occurs_cons in H. apply orb_false_iff in H. destruct H as [Hp Ho].
  rewrite split_from_scan, Hp, (IH Ho). reflexivity.
Qed.

Lemma split_bearer (t : string) :
  occurs "Bearer " t = false -> split "Bearer " ("Bearer " ++ t) = [""; t].
Proof.
  intros H. unfold split. cbn [append].
  rewrite split_from_scan, !prefix_cons, prefix_nil. ascii_cases.
  cbn [String.length Nat.sub]. rewrite !split_from_skip, (split_from_clean _ _ H).
  reflexivity.
Qed.

(** X1.  The token [verifyToken] reads from an Authorization header
    "Bearer t" is [t] (when [t] does not hold "Bearer " again); a header
    that is missing or empty gives [null], and a header that does not hold
    "Bearer " gives [undefined]: in both cases there is no token. *)
Theorem bearer_token_read :
  (forall t, occurs "Bearer " t = false ->
             App2.bearer_token (Some ("Bearer " ++ t)) = JStr t)
  /\ (forall a, occurs "Bearer " a = false ->
                truthy (App2.bearer_token (Some a)) = false)
  /\ truthy (App2.bearer_token None) = false.
Proof.
  split; [|split; [|reflexivity]].
  - intros t H. unfold App2.bearer_token. rewrite (split_bearer t H). reflexivity.
  - intros a H. unfold App2.bearer_token.
    destruct (truthy (JStr a)); [|reflexivity].
    unfold split. rewrite (split_from_clean _ _ H). reflexivity.
Qed.

Lemma bearer_token_read_witness :
  App2.bearer_token (Some "Bearer id-token") = JStr "id-token"
  /\ truthy (App2.bearer_token (Some "Basic dXNlcjpwYXNz")) = false.
Proof.
  destruct bearer_token_read as [H1 [H2 _]].
  split; [exact (H1 "id-token" eq_refl) | exact (H2 "Basic dXNlcjpwYXNz" eq_refl)].
Defined.

Lemma verifyToken_no_token (env : Env) (req : Req) (next : JsVal -> M Response)
    (h : list Call) (st : State) :
  IS_FIREBASE_LIVE env = true ->
  truthy (App2.bearer_token (req_authorization req)) = false ->
  App2.verifyToken env req next h st
  = {| result := Return (status_json 401 (JObj [("success", JBool false);
                                                ("message", JStr "Authorization required.")]));
       state := st; calls := [] |}.
Proof. intros Hlive Hno. unfold App2.verifyToken. now rewrite Hlive, Hno. Qed.

Lemma verifyToken_bad_token (env : Env) (req : Req) (next : JsVal -> M Response)
    (h : list Call) (st : State) (err : Fields) :
  IS_FIREBASE_LIVE env = true ->
  truthy (App2.bearer_token (req_authorization req)) = true ->
  auth env h verifyIdToken [App2.bearer_token (req_authorization req)] = Rejects err ->
  App2.verifyToken env req next h st
  = {| result := Return (status_json 401 (JObj [("success", JBool false);
                                                ("message", JStr "Invalid or expired token.")]));
       state := st;
       calls := [AuthCall verifyIdToken [App2.bearer_token (req_authorization req)]] |}.
Proof.
  intros Hlive Hyes Hauth. unfold App2.verifyToken. rewrite Hlive, Hyes. cbn [negb]. norm.
  now step Hauth.
Qed.

(** X2.  In live mode [verifyToken] answers 401 and does not run the
    handler behind it in two cases: when the request carries no token it
    says "Authorization required." and calls no service; when the identity
    provider refuses the token it says "Invalid or expired token." after
    that one call. *)
Theorem verifyToken_refuses (env : Env) (req : Req) (next : JsVal -> M Response)
    (h : list Call) (st : State) :
  IS_FIREBASE_LIVE env = true ->
  let idToken := App2.bearer_token (req_authorization req) in
  let run := App2.verifyToken env req next h st in
  (truthy idToken = false ->
   run = {| result := Return (status_json 401 (JObj [("success", JBool false);
                                                     ("message", JStr "Authorization required.")]));
            state := st; calls := [] |})
  /\ (forall err,
        truthy idToken = true ->
        auth env h verifyIdToken [idToken] = Rejects err ->
        run = {| result := Return (status_json 401 (JObj [("success", JBool false);
                                                          ("message", JStr "Invalid or expired token.")]));
                 state := st; calls := [AuthCall verifyIdToken [idToken]] |}).
Proof.
  intros Hlive idToken run. subst run idToken. split.
  - intros Hno. now apply verifyToken_no_token.
  - intros err Hyes Hauth. now apply (verifyToken_bad_token _ _ _ _ _ err).
Qed.

Lemma verifyToken_refuses_witness :
  App2.get_api_cases (Sample.env true true) (Sample.request (obj [])) [] Sample.empty_state
  = {| result := Return (status_json 401 (JObj [("success", JBool false);
                                                ("message", JStr "Authorization required.")]));
       state := Sample.empty_state; calls := [] |}.
Proof.
  exact (proj1 (verifyToken_refuses (Sample.env true true) (Sample.request (obj [])) _ []
                  Sample.empty_state eq_refl) eq_refl).
Defined.

(** X3.  [verifyToken] lets a request through in two cases, and then the
    answer is the handler's: in mock mode, without any call, the handler
    runs for the user id "mock-user-id"; in live mode, when the identity
    provider accepts the token, the handler runs after that one call, for
    the decoded token. *)
Theorem verifyToken_passes (env : Env) (req : Req) (next : JsVal -> M Response)
    (h : list Call) (st : State) :
  let idToken := App2.bearer_token (req_authorization req) in
  let run := App2.verifyToken env req next h st in
  (IS_FIREBASE_LIVE env = false ->
   run = next (JObj [("uid", JStr "mock-user-id")]) h st)
  /\ (forall decoded,
        IS_FIREBASE_LIVE env = true ->
        truthy idToken = true ->
        auth env h verifyIdToken [idToken] = Resolves decoded ->
        let behind := next decoded (h ++ [AuthCall verifyIdToken [idToken]])%list st in
        result run = result behind
        /\ state run = state behind
        /\ calls run = AuthCall verifyIdToken [idToken] :: calls behind).
Proof.
  intros idToken run. subst run idToken. unfold App2.verifyToken. split.
  - intros Hmock. rewrite Hmock. reflexivity.
  - intros decoded Hlive Hyes Hauth. rewrite Hlive, Hyes. cbn [negb]. norm.
    step Hauth.
    destruct (next decoded _ st) as [r st2 cs2]. repeat split.
Qed.

Lemma verifyToken_passes_witness :
  let run := App2.verifyToken (Sample.env true true) (Sample.upload "QQ==")
               (fun user => ret (json user)) [] Sample.empty_state in
  result run = Return (json (JObj [("uid", Sample.uid)]))
  /\ calls run = [AuthCall verifyIdToken [JStr "id-token"]].
Proof.
  destruct (proj2 (verifyToken_passes (Sample.env true true) (Sample.upload "QQ==")
                     (fun user => ret (json user)) [] Sample.empty_state)
              (obj [("uid", Sample.uid)]) eq_refl eq_refl eq_refl) as [Hr [_ Hc]].
  cbv zeta. rewrite Hr, Hc. split; reflexivity.
Defined.

(** X4.  In live mode, a request to a route behind [verifyToken]
    (/api/ai/analyze-document, /api/ai/legal-research, /api/cases) that
    carries no token, or a token the identity provider refuses, is answered
    401 and reaches neither Firestore nor the model nor the search
    service. *)
Theorem protected_route_refuses (env : Env) (route : Route) (req : Req)
    (h : list Call) (st : State) :
  let idToken := App2.bearer_token (req_authorization req) in
  let run := handle env route req h st in
  protected route = true ->
  IS_FIREBASE_LIVE env = true ->
  truthy idToken = false
  \/ (exists err, truthy idToken = true /\ auth env h verifyIdToken [idToken] = Rejects err) ->
  (exists answer, result run = Return (status_json 401 answer)
                  /\ get_prop answer "success" = JBool false)
  /\ attempts Database (calls run) = 0
  /\ attempts AI (calls run) = 0
  /\ attempts Search (calls run) = 0.
Proof.
  intros idToken run Hprot Hlive Hcase. subst run idToken.
  destruct route; try discriminate Hprot; cbn [handle];
    unfold App2.post_api_ai_analyze_document, App2.post_api_ai_legal_research,
      App2.get_api_cases;
    (destruct Hcase as [Hno|[err [Hyes Hauth]]];
     [ rewrite (verifyToken_no_token _ _ _ _ _ Hlive Hno)
     | rewrite (verifyToken_bad_token _ _ _ _ _ _ Hlive Hyes Hauth) ]);
    (split; [eexists; split; reflexivity | repeat split]).
Qed.

Lemma protected_route_refuses_witness :
  let run := handle (Sample.env true true) R2_analyze_document
               {| req_body := obj []; req_file := None; req_authorization := Some "Basic abc" |}
               [] Sample.empty_state in
  (exists answer, result run = Return (status_json 401 answer)
                  /\ get_prop answer "success" = JBool false)
  /\ attempts Database (calls run) = 0
  /\ attempts AI (calls run) = 0
  /\ attempts Search (calls run) = 0.
Proof.
  exact (protected_route_refuses (Sample.env true true) R2_analyze_document
           {| req_body := obj []; req_file := None; req_authorization := Some "Basic abc" |}
           [] Sample.empty_state eq_refl eq_refl (or_introl eq_refl)).
Defined.

(** ** The adapters of the first document *)

(** X5.  In live mode, when Firestore accepts the update of a profile,
    [updateUserProfile] passes a new name on to the identity provider as
    the display name, and calls the identity provider only then: with no
    [name] in the data (or an empty one) the update of Firestore is its
    only call and the answer is success. *)
Theorem updateUserProfile_name (env : Env) (h : list Call) (st : State) (uid data : JsVal) :
  let update := FirestoreCall FsUpdate "users" [uid; data] in
  let rename := AuthCall updateUser [uid; JObj [("displayName", get_prop data "name")]] in
  let run := App.updateUserProfile env uid data h st in
  IS_FIREBASE_LIVE env = true ->
  nullish data = false ->
  firestore_write env h FsUpdate "users" [uid; data] = Resolves tt ->
  calls run = (update :: if truthy (get_prop data "name") then [rename] else [])
  /\ (truthy (get_prop data "name") = false ->
      result run = Return (JObj [("success", JBool true)]))
  /\ (forall answer,
        auth env (h ++ [update])%list updateUser [uid; JObj [("displayName", get_prop data "name")]]
        = Resolves answer ->
        result run = Return (JObj [("success", JBool true)])).
Proof.
  intros update rename run Hlive Hdata Hwrite. subst run rename update.
  change (JObj [("displayName", get_prop data "name")])
    with (obj [("displayName", get_prop data "name")]).
  unfold App.updateUserProfile. rewrite Hlive. norm. step Hwrite. step Hdata.
  destruct (truthy (get_prop data "name")); norm.
  - destruct (auth env _ updateUser _) as [err|answer] eqn:Hauth; norm; cbn [nullish]; norm;
      repeat split; try discriminate; intros answer' E; discriminate E.
  - repeat split.
Qed.

Lemma updateUserProfile_name_witness :
  let run := App.updateUserProfile (Sample.env true true) Sample.uid
               (obj [("name", JStr "Asha Rao")]) [] Sample.empty_state in
  result run = Return (JObj [("success", JBool true)])
  /\ calls run
     = [FirestoreCall FsUpdate "users" [Sample.uid; JObj [("name", JStr "Asha Rao")]];
        AuthCall updateUser [Sample.uid; JObj [("displayName", JStr "Asha Rao")]]].
Proof.
  destruct (updateUserProfile_name (Sample.env true true) [] Sample.empty_state Sample.uid
              (obj [("name", JStr "Asha Rao")]) eq_refl eq_refl eq_refl) as [Hc [_ Hr]].
  cbv zeta. rewrite Hc, (Hr (obj [("uid", Sample.uid)]) eq_refl). split; reflexivity.
Defined.

(** X6.  In live mode, when Firestore refuses the update of a profile,
    [updateUserProfile] answers success false with the message of that
    error, and the identity provider is not called: the display name is
    left as it was. *)
Theorem updateUserProfile_refused (env : Env) (h : list Call) (st : State)
    (uid data : JsVal) (err : Fields) :
  IS_FIREBASE_LIVE env = true ->
  firestore_write env h FsUpdate "users" [uid; data] = Rejects err ->
  App.updateUserProfile env uid data h st
  = {| result := Return (JObj [("success", JBool false); ("message", lookup "message" err)]);
       state := st;
       calls := [FirestoreCall FsUpdate "users" [uid; data]] |}.
Proof.
  intros Hlive Hwrite. unfold App.updateUserProfile. rewrite Hlive. norm. now step Hwrite.
Qed.

Lemma updateUserProfile_refused_witness :
  App.updateUserProfile (Sample.env true true) (JStr "uid-nobody")
    (obj [("name", JStr "Nobody")]) [] Sample.empty_state
  = {| result := Return (JObj [("success", JBool false);
                               ("message", JStr "NOT_FOUND: No document to update")]);
       state := Sample.empty_state;
       calls := [FirestoreCall FsUpdate "users"
                   [JStr "uid-nobody"; JObj [("name", JStr "Nobody")]]] |}.
Proof.
  exact (updateUserProfile_refused (Sample.env true true) [] Sample.empty_state
           (JStr "uid-nobody") (obj [("name", JStr "Nobody")]) _ eq_refl eq_refl).
Defined.

(** X7.  In live mode, when the identity provider refuses to create the
    account, [registerUser] answers success false with the message of that
    error; no profile is written and no mail is sent. *)
Theorem registerUser_refused (env : Env) (h : list Call) (st : State)
    (name email password role : JsVal) (err : Fields) :
  IS_FIREBASE_LIVE env = true ->
  auth env h createUser [App.account_properties name email password] = Rejects err ->
  App.registerUser env name email password role h st
  = {| result := Return (JObj [("success", JBool false); ("message", lookup "message" err)]);
       state := st;
       calls := [AuthCall createUser [App.account_properties name email password]] |}.
Proof.
  intros Hlive Hauth. unfold App.registerUser. rewrite Hlive. norm. now step Hauth.
Qed.

Lemma registerUser_refused_witness :
  App.registerUser Sample2.env (JStr "Asha") Sample.email (JStr "another-pass")
    (JStr "Litigant") [] Sample.empty_state
  = {| result := Return (JObj [("success", JBool false);
                               ("message",
                                JStr "The email address is already in use by another account.")]);
       state := Sample.empty_state;
       calls := [AuthCall createUser
                   [App.account_properties (JStr "Asha") Sample.email (JStr "another-pass")]] |}.
Proof.
  exact (registerUser_refused Sample2.env [] Sample.empty_state (JStr "Asha") Sample.email
           (JStr "another-pass") (JStr "Litigant") _ eq_refl eq_refl).
Defined.

(** X8.  In live mode, when the account is created and Firestore then
    refuses the profile, [registerUser] answers success false with the
    message of that error and sends no mail; the account is not removed:
    after the creation, the write is the last call. *)
Theorem registerUser_no_rollback (env : Env) (h : list Call) (st : State)
    (name email password role userRecord : JsVal) (err : Fields) :
  let creation := AuthCall createUser [App.account_properties name email password] in
  let profile := App.profile_record name email role
                   (JStr (toISOString env (clock env (clock_reads st)))) in
  let run := App.registerUser env name email password role h st in
  IS_FIREBASE_LIVE env = true ->
  auth env h createUser [App.account_properties name email password] = Resolves userRecord ->
  nullish userRecord = false ->
  firestore_write env (h ++ [creation])%list FsSet "users" [get_prop userRecord "uid"; profile]
  = Rejects err ->
  result run = Return (JObj [("success", JBool false); ("message", lookup "message" err)])
  /\ calls run = [creation; FirestoreCall FsSet "users" [get_prop userRecord "uid"; profile]].
Proof.
  intros creation profile run Hlive Hauth Hrecord Hwrite. subst run profile creation.
  unfold App.registerUser. rewrite Hlive. norm. step Hauth. step Hrecord. step Hwrite.
  split; reflexivity.
Qed.

Lemma registerUser_no_rollback_witness :
  let run := App.registerUser Sample2.env (JStr "Meera") (JStr "meera@example.com")
               (JStr "pass-w0rd") (JStr "Lawyer") [] Sample.empty_state in
  result run
  = Return (JObj [("success", JBool false);
                  ("message", JStr "PERMISSION_DENIED: Missing or insufficient permissions")])
  /\ map site_of (calls run) = [AuthSite createUser; FirestoreSite FsSet "users"].
Proof.
  destruct (registerUser_no_rollback Sample2.env [] Sample.empty_state (JStr "Meera")
              (JStr "meera@example.com") (JStr "pass-w0rd") (JStr "Lawyer")
              (obj [("uid", JStr "uid-new")]) Sample2.permission_denied
              eq_refl eq_refl eq_refl eq_refl) as [Hr Hc].
  cbv zeta. rewrite Hr, Hc. split; reflexivity.
Defined.

(** Split on every answer of a service and every test that a run is
    stuck on. *)
Ltac case_answers :=
  repeat (norm; unfold TypeError; cbn [nullish];
          match goal with
          | |- context [match ?x with Rejects _ => _ | Resolves _ => _ end] => destruct x
          | |- context [if ?b then _ else _] => destruct b
          | |- context [match ?x with Some _ => _ | None => _ end] => destruct x
          | |- context [match ?x with ResultString _ => _ | ResultObject _ _ _ => _ end] =>
              destruct x
          end).







(** ** Objects: writing and reading properties *)

Lemma lookup_set_same (k : string) (v : JsVal) (fs : Fields) :
  lookup k (set_field k v fs) = v.
Proof.
  induction fs as [|[k' v'] fs IH]; cbn [set_field lookup].
  - now rewrite String.eqb_refl.
  - destruct (k' =? k) eqn:E; cbn [lookup]; [now rewrite E|].
    destruct (listed_before k k'); cbn [lookup]; [now rewrite String.eqb_refl|].
    now rewrite E.
Qed.

Lemma lookup_set_other (k k' : string) (v : JsVal) (fs : Fields) :
  k' <> k -> lookup k (set_field k' v fs) = lookup k fs.
Proof.
  intros Hk. assert (Hkk : (k' =? k) = false) by now apply String.eqb_neq.
  induction fs as [|[k0 v0] fs IH]; cbn [set_field lookup].
  - now rewrite Hkk.
  - destruct (k0 =? k') eqn:E; cbn [lookup].
    + apply String.eqb_eq in E. subst k0. now rewrite Hkk.
    + destruct (listed_before k' k0); cbn [lookup]; [now rewrite Hkk|]. now rewrite IH.
Qed.

Lemma key_absent_not_In (k : string) (fs : Fields) :
  ~ In k (map fst fs) -> key_absent k fs = true.
Proof.
  induction fs as [|[k' v'] fs IH]; intros H; [reflexivity|].
  cbn [key_absent forallb fst]. cbn [map fst In] in H.
  destruct (k' =? k) eqn:E.
  - apply String.eqb_eq in E. tauto.
  - cbn [negb andb]. apply IH. tauto.
Qed.

(** Spreading an object over a base: its own properties win. *)
Lemma lookup_spread (k : string) (fs base : Fields) :
  NoDup (map fst fs) ->
  lookup k (spread base (JObj fs))
  = if key_absent k fs then lookup k base else lookup k fs.
Proof.
  unfold spread. cbn [own_entries]. revert base.
  induction fs as [|[k1 v1] fs IH]; intros base Hnd; [reflexivity|].
  inversion Hnd as [|x l Hnot Hrest]; subst. cbn [fold_left fst snd].
  rewrite (IH _ Hrest). cbn [key_absent forallb fst lookup].
  destruct (k1 =? k) eqn:E; cbn [negb andb].
  - apply String.eqb_eq in E. subst k1.
    fold (key_absent k fs). rewrite (key_absent_not_In _ _ Hnot). apply lookup_set_same.
  - fold (key_absent k fs). destruct (key_absent k fs); [|reflexivity].
    apply lookup_set_other. now apply String.eqb_neq.
Qed.

(** X10.  In live mode, when the password grant succeeds and the user has
    a profile document, the user payload of [loginUser] is built from the
    profile: its [email] is always the email of the request, its [id] is
    the user id unless the profile has a property [id] of its own, which
    then wins, and every other property is the profile's. *)
Theorem loginUser_payload (env : Env) (h : list Call) (st : State)
    (email password data : JsVal) (profile : Fields) :
  let signIn := AxiosCall POST IdentityToolkit (App.signIn_url env)
                  [App.signIn_body email password] in
  IS_FIREBASE_LIVE env = true ->
  axios env h POST IdentityToolkit (App.signIn_url env) [App.signIn_body email password]
  = Resolves data ->
  nullish data = false ->
  firestore_read env (h ++ [signIn])%list "users" (get_prop data "localId")
  = Resolves {| snap_exists := true; snap_data := JObj profile |} ->
  NoDup (map fst profile) ->
  exists user,
    result (App.loginUser env email password h st)
    = Return (JObj [("success", JBool true); ("user", user)])
    /\ get_prop user "email" = email
    /\ get_prop user "id"
       = (if key_absent "id" profile then get_prop data "localId" else lookup "id" profile)
    /\ (forall k, k <> "email" -> k <> "id" -> get_prop user k = lookup k profile).
Proof.
  intros signIn Hlive Hsign Hdata Hread Hnd. subst signIn.
  unfold App.loginUser. rewrite Hlive. norm. step Hsign. step Hdata. step Hread.
  cbn [snap_exists snap_data].
  exists (JObj (set_field "email" email
                  (spread [("id", get_prop data "localId")] (JObj profile)))).
  split; [reflexivity|]. cbn [get_prop].
  split; [apply lookup_set_same|]. split.
  - rewrite lookup_set_other by discriminate. rewrite (lookup_spread _ _ _ Hnd).
    reflexivity.
  - intros k Hemail Hid. rewrite lookup_set_other by congruence.
    rewrite (lookup_spread _ _ _ Hnd). destruct (key_absent k profile) eqn:Habs; [|reflexivity].
    cbn [lookup]. apply String.eqb_neq in Hid. rewrite String.eqb_sym, Hid.
    clear -Habs. induction profile as [|[k' v'] fs IH]; [reflexivity|].
    cbn [key_absent forallb fst] in Habs. apply andb_true_iff in Habs. destruct Habs as [E Habs].
    cbn [lookup]. destruct (k' =? k); [discriminate|]. now apply IH.
Qed.

Lemma loginUser_payload_witness :
  exists user,
    result (App.loginUser (Sample.env true true) Sample.email Sample.password []
              Sample.empty_state)
    = Return (JObj [("success", JBool true); ("user", user)])
    /\ get_prop user "email" = Sample.email
    /\ get_prop user "id" = Sample.uid
    /\ get_prop user "role" = JStr "Litigant".
Proof.
  destruct (loginUser_payload (Sample.env true true) [] Sample.empty_state
              Sample.email Sample.password (obj [("localId", Sample.uid)])
              [("name", JStr "Asha"); ("email", Sample.email); ("role", JStr "Litigant")]
              eq_refl eq_refl eq_refl eq_refl)
    as [user [Hr [He [Hi Hk]]]].
  { repeat constructor; cbn [In]; intuition discriminate. }
  exists user. split; [exact Hr|]. split; [exact He|]. split; [exact Hi|].
  rewrite (Hk "role"); [reflexivity | discriminate | discriminate].
Defined.

(** ** The judgment search, when it answers *)

Lemma mapM_returns {A B : Type} (f : A -> M B) (g : A -> B) (l : list A)
    (h : list Call) (st : State) :
  (forall x h', In x l -> f x h' st = {| result := Return (g x); state := st; calls := [] |}) ->
  mapM f l h st = {| result := Return (map g l); state := st; calls := [] |}.
Proof.
  revert h. induction l as [|x l IH]; intros h Hf; [reflexivity|].
  cbn [mapM map]. unfold bind at 1. rewrite (Hf x h (or_introl eq_refl)).
  unfold bind at 1. rewrite IH by (intros y h' Hy; apply Hf; now right). reflexivity.
Qed.

Lemma mapM_throws {A B : Type} (f : A -> M B) (bad : A -> bool) (l : list A)
    (h : list Call) (st : State) :
  (forall x h', exists r, f x h' st = {| result := r; state := st; calls := [] |}
                          /\ (bad x = true -> exists e, r = Throw e)) ->
  existsb bad l = true ->
  exists e, mapM f l h st = {| result := Throw e; state := st; calls := [] |}.
Proof.
  intros Hf. revert h. induction l as [|x l IH]; intros h Hbad; [discriminate|].
  cbn [existsb] in Hbad. cbn [mapM]. unfold bind at 1.
  destruct (Hf x h) as [r [Hr Hthrow]]. rewrite Hr.
  destruct r as [e|y]; [now exists e|].
  destruct (bad x); [destruct (Hthrow eq_refl) as [e E]; discriminate E|].
  cbn [orb] in Hbad. destruct (IH (h ++ [])%list Hbad) as [e He].
  unfold bind at 1. rewrite He. now exists e.
Qed.

Lemma judgment_entry_run (d : JsVal) (h : list Call) (st : State) :
  exists r,
    (title <- member d "title" ;;
     court <- member d "docsource" ;;
     tid <- member d "tid" ;;
     link <- interpolate [tid] ("https://indiankanoon.org/doc/" ++ js_String tid ++ "/") ;;
     ret (obj [("title", title); ("court", court); ("link", JStr link)])) h st
    = {| result := r; state := st; calls := [] |}
    /\ (nullish d = true -> exists e, r = Throw e)
    /\ (nullish d = false -> converts (get_prop d "tid") = true ->
        r = Return (judgment_entry d)).
Proof.
  norm. destruct (nullish d) eqn:Hd; norm.
  - eexists. split; [reflexivity|]. split; [eauto | discriminate].
  - destruct (converts (get_prop d "tid")) eqn:Htid; norm;
      eexists; (split; [reflexivity|]); split; intros; try discriminate; reflexivity.
Qed.

(** X11.  For a query that converts to a string, when the search service
    answers an array [docs] none of whose elements is null or undefined and
    each of whose [tid] converts to a string, [searchJudgments] returns one
    entry per document, in the same order: its title, its [docsource] as
    court, and the link https://indiankanoon.org/doc/<tid>/. *)
Theorem searchJudgments_entries (env : Env) (h : list Call) (st : State)
    (query data : JsVal) (docs : list JsVal) :
  truthy (INDIAN_KANOON_TOKEN env) = true ->
  converts query = true ->
  axios env h POST IndianKanoon (App.search_url env query) [obj []; App.search_config env]
  = Resolves data ->
  nullish data = false ->
  get_prop data "docs" = JArr docs ->
  forallb (fun d => negb (nullish d) && converts (get_prop d "tid")) docs = true ->
  result (App.searchJudgments env query h st) = Return (JArr (map judgment_entry docs)).
Proof.
  intros Htoken Hquery Haxios Hdata Hdocs Hall.
  unfold App.searchJudgments. rewrite Htoken. norm. step Hquery. step Haxios. step Hdata.
  rewrite Hdocs. norm. rewrite (mapM_returns _ judgment_entry); [reflexivity|].
  intros d h' Hin. destruct (judgment_entry_run d h' st) as [r [Hr [_ Hok]]].
  rewrite forallb_forall in Hall. specialize (Hall d Hin).
  apply andb_true_iff in Hall. destruct Hall as [Hd Htid]. apply negb_true_iff in Hd.
  rewrite <- (Hok Hd Htid). exact Hr.
Qed.

Lemma searchJudgments_entries_witness :
  result (App.searchJudgments Sample2.env (JStr "privacy") [] Sample.empty_state)
  = Return (JArr [obj [("title", JStr "Justice K.S. Puttaswamy v. Union of India");
                       ("court", JStr "Supreme Court of India");
                       ("link", JStr "https://indiankanoon.org/doc/127517806/")];
                  obj [("title", JStr "Maneka Gandhi v. Union of India");
                       ("court", JStr "Supreme Court of India");
                       ("link", JStr "https://indiankanoon.org/doc/1766147/")]]).
Proof.
  exact (searchJudgments_entries Sample2.env [] Sample.empty_state (JStr "privacy")
           (obj [("docs", JArr [Sample2.puttaswamy; Sample2.maneka])])
           [Sample2.puttaswamy; Sample2.maneka] eq_refl eq_refl eq_refl eq_refl eq_refl
           eq_refl).
Defined.

(** X12.  When one element of the array [docs] that the search service
    answers is null or undefined, [searchJudgments] drops every result and
    returns the two fallback cases. *)
Theorem searchJudgments_null_entry (env : Env) (h : list Call) (st : State)
    (query data : JsVal) (docs : list JsVal) :
  truthy (INDIAN_KANOON_TOKEN env) = true ->
  axios env h POST IndianKanoon (App.search_url env query) [obj []; App.search_config env]
  = Resolves data ->
  nullish data = false ->
  get_prop data "docs" = JArr docs ->
  existsb nullish docs = true ->
  result (App.searchJudgments env query h st) = Return App.fallback_judgments.
Proof.
  intros Htoken Haxios Hdata Hdocs Hbad.
  unfold App.searchJudgments. rewrite Htoken. norm.
  destruct (converts query); norm; [|reflexivity].
  step Haxios. step Hdata. rewrite Hdocs. norm.
  match goal with
  | |- context [mapM ?f docs ?h' st] =>
      destruct (mapM_throws f nullish docs h' st) as [e He]; [|exact Hbad|rewrite He]
  end.
  - intros d h'. destruct (judgment_entry_run d h' st) as [r [Hr [Hthrow _]]].
    exists r. split; [exact Hr | exact Hthrow].
  - reflexivity.
Qed.

Lemma searchJudgments_null_entry_witness :
  result (App.searchJudgments Sample2.env (JStr "bail") [] Sample.empty_state)
  = Return App.fallback_judgments.
Proof.
  exact (searchJudgments_null_entry Sample2.env [] Sample.empty_state (JStr "bail")
           (obj [("docs", JArr [Sample2.maneka; JNull])])
           [Sample2.maneka; JNull] eq_refl eq_refl eq_refl eq_refl eq_refl).
Defined.

(** ** Chat, upload and analysis *)







(** ** What a missing configuration switches off *)

Ltac unfold_handlers :=
  unfold App.post_api_register, App.post_api_login, App.post_api_update_profile,
    App.post_api_search, App.post_api_analyze, App.post_api_chat, App.post_api_upload,
    App.post_api_save_case, App.post_api_get_cases, App.post_api_all_cases,
    App.post_api_cases_add_note, App.post_api_cases_update_hearing,
    App.post_api_cases_update_status,
    App2.post_api_register, App2.post_api_login, App2.post_api_ai_analyze_document,
    App2.post_api_ai_legal_research, App2.get_api_cases,
    App2.post_api_cases_update_hearing, App2.post_api_cases_update_status.

Lemma attempts_none (s : Service) (cs : list Call) (S : list Site) :
  Subseq (map site_of cs) S ->
  filter (fun x => Service_eqb s (site_service x)) S = [] ->
  attempts s cs = 0.
Proof.
  intros H E. pose proof (attempts_bound s cs S H) as B. rewrite E in B. cbn in B. lia.
Qed.

Lemma handle_emits_mock (env : Env) (route : Route) (req : Req) :
  IS_FIREBASE_LIVE env = false -> emits (mock_sites route) (handle env route req).
Proof.
  intros Hlive.
  destruct route; cbn [handle mock_sites]; unfold_handlers;
    unfold App.registerUser, App.loginUser, App.updateUserProfile, App.saveCaseToDB,
      App2.verifyToken;
    rewrite ?Hlive; cbn [negb]; emits_auto.
Qed.

(** X16.  In mock mode no request, on any route of either document,
    reaches Firestore, the identity provider or the mail relay. *)
Theorem mock_mode_is_isolated (env : Env) (route : Route) (req : Req)
    (h : list Call) (st : State) :
  IS_FIREBASE_LIVE env = false ->
  let made := calls (handle env route req h st) in
  attempts Database made = 0 /\ attempts Auth made = 0 /\ attempts Mail made = 0.
Proof.
  intros Hlive made.
  assert (H : Subseq (map site_of made) (mock_sites route))
    by apply (handle_emits_mock env route req Hlive).
  repeat split; apply (attempts_none _ _ _ H); now destruct route.
Qed.

Lemma mock_mode_is_isolated_witness :
  let made := calls (handle (Sample.env false true) R1_update_status
                       (Sample.request (obj [("caseId", JStr "CASE-1"); ("status", JStr "Closed")]))
                       [] Sample.empty_state) in
  attempts Database made = 0 /\ attempts Auth made = 0 /\ attempts Mail made = 0.
Proof.
  exact (mock_mode_is_isolated (Sample.env false true) R1_update_status
           (Sample.request (obj [("caseId", JStr "CASE-1"); ("status", JStr "Closed")]))
           [] Sample.empty_state eq_refl).
Defined.

Lemma handle_emits_keyless (env : Env) (route : Route) (req : Req) :
  truthy (GEMINI_API_KEY env) = false -> emits (sites_without AI route) (handle env route req).
Proof.
  intros Hkey.
  destruct route; try exact (handle_emits env _ req);
    cbn [handle]; cbv [sites_without call_sites filter negb Service_eqb site_service];
    unfold_handlers; unfold App.analyzeCase, App.chatAI, App.processDocument;
    rewrite ?Hkey; cbn [negb].
  - emits_auto.
  - emits_auto.
  - emits_auto.
  - apply verifyToken_emits. intros user. emits_auto.
Qed.

Lemma handle_emits_tokenless (env : Env) (route : Route) (req : Req) :
  truthy (INDIAN_KANOON_TOKEN env) = false ->
  emits (sites_without Search route) (handle env route req).
Proof.
  intros Htoken.
  destruct route; try exact (handle_emits env _ req);
    cbn [handle]; cbv [sites_without call_sites filter negb Service_eqb site_service];
    unfold_handlers; unfold App.searchJudgments; rewrite ?Htoken; cbn [negb].
  - emits_auto.
  - apply verifyToken_emits. intros user. emits_auto.
Qed.

Lemma handle_emits_mailless (env : Env) (route : Route) (req : Req) :
  mail_configured env = false -> truthy (NODEMAILER_PASS env) = false ->
  emits (sites_without Mail route) (handle env route req).
Proof.
  intros Hmail Hpass.
  assert (Hoff : negb (truthy (EMAIL_USER env)) || negb (truthy (EMAIL_PASS env)) = true)
    by (unfold mail_configured in Hmail;
        destruct (truthy (EMAIL_USER env)), (truthy (EMAIL_PASS env)); easy).
  destruct route; try exact (handle_emits env _ req);
    cbn [handle]; cbv [sites_without call_sites filter negb Service_eqb site_service];
    unfold_handlers; unfold App.registerUser, App.sendMail, App2.sendMail;
    rewrite ?Hoff, ?Hpass; cbn [negb]; emits_auto.
Qed.

(** X17.  A capability whose configuration is missing makes no upstream
    call, on any route: without GEMINI_API_KEY no request reaches the model,
    without INDIAN_KANOON_TOKEN none reaches the search service, and
    without the relay credentials of both documents none reaches the mail
    relay. *)
Theorem missing_key_no_call (env : Env) (route : Route) (req : Req)
    (h : list Call) (st : State) :
  let made := calls (handle env route req h st) in
  (truthy (GEMINI_API_KEY env) = false -> attempts AI made = 0)
  /\ (truthy (INDIAN_KANOON_TOKEN env) = false -> attempts Search made = 0)
  /\ (mail_configured env = false -> truthy (NODEMAILER_PASS env) = false ->
      attempts Mail made = 0).
Proof.
  intros made. split; [|split].
  - intros H. apply (attempts_none _ _ _ (handle_emits_keyless env route req H h st)).
    now destruct route.
  - intros H. apply (attempts_none _ _ _ (handle_emits_tokenless env route req H h st)).
    now destruct route.
  - intros H H'. apply (attempts_none _ _ _ (handle_emits_mailless env route req H H' h st)).
    now destruct route.
Qed.

Lemma missing_key_no_call_witness :
  attempts AI (calls (handle (Sample.env true false) R1_upload (Sample.upload "QQ==") []
                        Sample.empty_state)) = 0
  /\ attempts Search (calls (handle (Sample.env true false) R1_search
                               (Sample.request (obj [("query", JStr "privacy")])) []
                               Sample.empty_state)) = 0
  /\ attempts Mail (calls (handle (Sample.env true false) R1_update_status
                             (Sample.request (obj [("caseId", JStr "CASE-1");
                                                   ("status", JStr "Closed")])) []
                             Sample.empty_state)) = 0.
Proof.
  split; [|split].
  - exact (proj1 (missing_key_no_call (Sample.env true false) R1_upload
                    (Sample.upload "QQ==") [] Sample.empty_state) eq_refl).
  - exact (proj1 (proj2 (missing_key_no_call (Sample.env true false) R1_search
                           (Sample.request (obj [("query", JStr "privacy")])) []
                           Sample.empty_state)) eq_refl).
  - exact (proj2 (proj2 (missing_key_no_call (Sample.env true false) R1_update_status
                           (Sample.request (obj [("caseId", JStr "CASE-1");
                                                 ("status", JStr "Closed")])) []
                           Sample.empty_state)) eq_refl eq_refl).
Defined.

(** ** The case handlers *)



(** X19.  In live mode a case handler of the first document has no
    handler for a failed update: when Firestore rejects the update of the
    case, /api/cases/add-note, /api/cases/update-hearing and
    /api/cases/update-status answer nothing, the rejection escapes the
    handler, and after the update no read is made and no mail is sent. *)
Theorem case_update_failure_escapes (env : Env) (req : Req) (h : list Call) (st : State)
    (route : Route) (err : Fields) :
  let now := toISOString env (clock env (clock_reads st)) in
  let change :=
    match route with
    | R1_add_note =>
        obj [("notes", App.FieldValue_arrayUnion
                         (obj [("text", get_prop (req_body req) "note"); ("time", JStr now)]))]
    | R1_update_hearing => obj [("hearingDate", get_prop (req_body req) "hearingDate")]
    | _ => obj [("status", get_prop (req_body req) "status")]
    end in
  let update := [get_prop (req_body req) "caseId"; change] in
  let run := handle env route req h st in
  route = R1_add_note \/ route = R1_update_hearing \/ route = R1_update_status ->
  IS_FIREBASE_LIVE env = true ->
  nullish (req_body req) = false ->
  firestore_write env h FsUpdate "cases" update = Rejects err ->
  result run = Throw (JObj err) /\ calls run = [FirestoreCall FsUpdate "cases" update].
Proof.
  intros now change update run Hroute Hlive Hbody Hwrite.
  subst run update change now.
  destruct Hroute as [->|[->| ->]]; cbn [handle];
    unfold App.post_api_cases_add_note, App.post_api_cases_update_hearing,
      App.post_api_cases_update_status;
    rewrite Hlive; cbn [negb]; norm; step Hbody; repeat step Hbody;
    step Hwrite; split; reflexivity.
Qed.

Lemma case_update_failure_escapes_witness :
  exists err,
    let req := Sample.request (obj [("caseId", JStr "CASE-404"); ("status", JStr "Closed")]) in
    let run := handle (Sample.env true true) R1_update_status req [] Sample.empty_state in
    result run = Throw (JObj err)
    /\ calls run = [FirestoreCall FsUpdate "cases"
                      [JStr "CASE-404"; obj [("status", JStr "Closed")]]].
Proof.
  eexists.
  exact (case_update_failure_escapes (Sample.env true true)
           (Sample.request (obj [("caseId", JStr "CASE-404"); ("status", JStr "Closed")]))
           [] Sample.empty_state R1_update_status _
           (or_intror (or_intror eq_refl)) eq_refl eq_refl eq_refl).
Defined.

(** X20.  In live mode, when the case document exists,
    /api/cases/update-hearing of the first document updates the single field
    [hearingDate] of the case to the submitted value, reads the case and
    the profile of its owner, and answers success true; when the profile
    has an email, the submitted value has to convert to a string (as every
    string and number does), and one mail "Case Update: New Hearing Date"
    is sent to that email if the relay credentials are configured. *)
Theorem update_hearing_live (env : Env) (h : list Call) (st : State) (req : Req)
    (caseDoc userDoc : Snapshot) :
  let caseId := get_prop (req_body req) "caseId" in
  let hearingDate := get_prop (req_body req) "hearingDate" in
  let userId := opt_prop (snap_data caseDoc) "userId" in
  let clientEmail := opt_prop (snap_data userDoc) "email" in
  let update := FirestoreCall FsUpdate "cases" [caseId; obj [("hearingDate", hearingDate)]] in
  let notice := App.mail_options env clientEmail (JStr "Case Update: New Hearing Date")
                  (JStr (App.hearing_html caseId hearingDate)) in
  let run := App.post_api_cases_update_hearing env req h st in
  IS_FIREBASE_LIVE env = true ->
  nullish (req_body req) = false ->
  firestore_write env h FsUpdate "cases" [caseId; obj [("hearingDate", hearingDate)]]
  = Resolves tt ->
  firestore_read env (h ++ [update])%list "cases" caseId = Resolves caseDoc ->
  firestore_read env (h ++ [update; FirestoreCall FsGet "cases" [caseId]])%list "users" userId
  = Resolves userDoc ->
  (truthy clientEmail = true -> converts hearingDate = true) ->
  result run = Return (json (obj [("success", JBool true)]))
  /\ state run = st
  /\ calls run
     = ([update; FirestoreCall FsGet "cases" [caseId]; FirestoreCall FsGet "users" [userId]]
        ++ (if truthy clientEmail && mail_configured env then [MailerSendMail notice] else []))%list.
Proof.
  intros caseId hearingDate userId clientEmail update notice run
    Hlive Hbody Hwrite Hcase Huser Hdate.
  subst run notice update clientEmail userId hearingDate caseId.
  unfold App.post_api_cases_update_hearing. rewrite Hlive. cbn [negb]. norm.
  step Hbody. step Hwrite. step Hcase. step Huser.
  destruct (truthy (opt_prop (snap_data userDoc) "email")); cbn [andb].
  - norm. rewrite (Hdate eq_refl). norm. rewrite sendMail_run. norm. repeat split.
  - norm. repeat split.
Qed.

Lemma update_hearing_live_witness :
  let req := Sample.request (obj [("caseId", JStr "CASE-1"); ("hearingDate", JNum 20261203)]) in
  let run := App.post_api_cases_update_hearing (Sample.env true true) req [] Sample.empty_state in
  result run = Return (json (obj [("success", JBool true)]))
  /\ map site_of (calls run)
     = [FirestoreSite FsUpdate "cases"; FirestoreSite FsGet "cases"; FirestoreSite FsGet "users";
        MailSite].
Proof.
  destruct (update_hearing_live (Sample.env true true) [] Sample.empty_state
              (Sample.request (obj [("caseId", JStr "CASE-1"); ("hearingDate", JNum 20261203)]))
              {| snap_exists := true;
                 snap_data := obj [("caseId", JStr "CASE-1"); ("userId", Sample.uid);
                                   ("status", JStr "Submitted")] |}
              {| snap_exists := true;
                 snap_data := obj [("name", JStr "Asha"); ("email", Sample.email);
                                   ("role", JStr "Litigant")] |}
              eq_refl eq_refl eq_refl eq_refl eq_refl (fun _ => eq_refl)) as [Hr [_ Hc]].
  cbv zeta. rewrite Hr, Hc. split; reflexivity.
Defined.

(** ** The user store *)

Lemma keeps_ret {A : Type} (a : A) : keeps_users (ret a).
Proof. intros h st. reflexivity. Qed.

Lemma keeps_throw {A : Type} (e : JsVal) : keeps_users (throw (A := A) e).
Proof. intros h st. reflexivity. Qed.

Lemma keeps_member (o : JsVal) (k : string) : keeps_users (member o k).
Proof. intros h st. unfold member. now destruct (nullish o). Qed.

Lemma keeps_parse (env : Env) (s : string) : keeps_users (parse env s).
Proof. intros h st. reflexivity. Qed.

Lemma keeps_interpolate (holes : list JsVal) (text : string) :
  keeps_users (interpolate holes text).
Proof. intros h st. unfold interpolate. now destruct (forallb converts holes). Qed.

Lemma keeps_Date_now (env : Env) : keeps_users (Date_now env).
Proof. intros h st. reflexivity. Qed.

Lemma keeps_get_users : keeps_users get_users.
Proof. intros h st. reflexivity. Qed.

Lemma keeps_perform {A : Type} (c : Call) (answer : list Call -> Reply A) :
  keeps_users (perform c answer).
Proof. intros h st. reflexivity. Qed.

Lemma keeps_bind {A B : Type} (m : M A) (k : A -> M B) :
  keeps_users m -> (forall a, keeps_users (k a)) -> keeps_users (bind m k).
Proof.
  intros Hm Hk h st. unfold bind. specialize (Hm h st).
  destruct (m h st) as [[e|a] st1 cs1]; cbn [state] in *; [assumption|].
  specialize (Hk a (h ++ cs1)%list st1).
  destruct (k a (h ++ cs1)%list st1) as [r st2 cs2]; cbn [state] in *. congruence.
Qed.

Lemma keeps_try_catch {A : Type} (m : M A) (k : JsVal -> M A) :
  keeps_users m -> (forall e, keeps_users (k e)) -> keeps_users (try_catch m k).
Proof.
  intros Hm Hk h st. unfold try_catch. specialize (Hm h st).
  destruct (m h st) as [[e|a] st1 cs1]; cbn [state] in *; [|assumption].
  specialize (Hk e (h ++ cs1)%list st1).
  destruct (k e (h ++ cs1)%list st1) as [r st2 cs2]; cbn [state] in *. congruence.
Qed.

Lemma keeps_mapM {A B : Type} (f : A -> M B) (l : list A) :
  (forall x, keeps_users (f x)) -> keeps_users (mapM f l).
Proof.
  intros Hf. induction l as [|x l IH]; [apply keeps_ret|].
  cbn [mapM]. apply keeps_bind; [apply Hf|]. intros y.
  apply keeps_bind; [apply IH|]. intros ys. apply keeps_ret.
Qed.

(** Prove [keeps_users m] by following the shape of [m]. *)
Ltac keeps_auto :=
  cbv beta zeta;
  lazymatch goal with
  | |- keeps_users (ret _) => apply keeps_ret
  | |- keeps_users (throw _) => apply keeps_throw
  | |- keeps_users (member _ _) => apply keeps_member
  | |- keeps_users (parse _ _) => apply keeps_parse
  | |- keeps_users (interpolate _ _) => apply keeps_interpolate
  | |- keeps_users (Date_now _) => apply keeps_Date_now
  | |- keeps_users get_users => apply keeps_get_users
  | |- keeps_users (perform _ _) => apply keeps_perform
  | |- keeps_users (mapM _ _) => apply keeps_mapM; intros; keeps_auto
  | |- keeps_users (bind _ _) => apply keeps_bind; [keeps_auto | intros; keeps_auto]
  | |- keeps_users (try_catch _ _) => apply keeps_try_catch; [keeps_auto | intros; keeps_auto]
  | |- keeps_users (if ?b then _ else _) => destruct b; keeps_auto
  | |- keeps_users (match ?x with _ => _ end) => destruct x; keeps_auto
  | |- keeps_users _ =>
      progress unfold auth_call, firestore_set, firestore_update, firestore_get,
        firestore_get_query, axios_post, axios_get, sdk_generateContent, mailer_sendMail,
        response_text, array_map, new_Date_toISOString,
        App.sendMail, App2.sendMail, App.loginUser, App.updateUserProfile,
        App.searchJudgments, App.processDocument, App.chatAI, App.analyzeCase,
        App.saveCaseToDB, App2.verifyToken;
      keeps_auto
  end.

Lemma handle_keeps (env : Env) (route : Route) (req : Req) :
  route <> R1_register \/ IS_FIREBASE_LIVE env = true ->
  keeps_users (handle env route req).
Proof.
  intros H.
  destruct route; cbn [handle]; unfold_handlers; try solve [keeps_auto].
  destruct H as [H|H]; [congruence|].
  unfold App.registerUser. rewrite H. keeps_auto.
Qed.

(** X21.  The in-memory user store only grows, by one record at a time,
    and one request alone changes it: a registration of the first document
    in mock mode.  Every other request, on any route of either document and
    whatever the services answer, leaves [MOCK_DB.users] as it was. *)
Theorem user_store_append_only (env : Env) (route : Route) (req : Req)
    (h : list Call) (st : State) :
  let after := MOCK_DB_users (state (handle env route req h st)) in
  exists added,
    after = (MOCK_DB_users st ++ added)%list
    /\ (length added <= 1)%nat
    /\ (added <> [] -> route = R1_register /\ IS_FIREBASE_LIVE env = false).
Proof.
  cbv zeta.
  destruct (IS_FIREBASE_LIVE env) eqn:Hlive.
  - exists []. rewrite app_nil_r.
    split; [apply (handle_keeps env route req); now right|]. split; [cbn; lia | congruence].
  - destruct route;
      try (exists []; rewrite app_nil_r;
           split; [apply (handle_keeps env _ req); left; discriminate|];
           split; [cbn; lia | congruence]).
    cbn [handle]. unfold App.post_api_register, App.registerUser. rewrite Hlive. norm.
    destruct (nullish (req_body req)); norm.
    + exists []. rewrite app_nil_r. split; [reflexivity|]. split; [cbn; lia | congruence].
    + eexists [_]. split; [reflexivity|]. split; [cbn; lia | intros _; now split].
Qed.

Lemma user_store_append_only_witness :
  exists added,
    MOCK_DB_users (state (handle (Sample.env false true) R1_register
                            (Sample.request (obj [("name", JStr "Asha"); ("email", Sample.email);
                                                  ("password", Sample.password);
                                                  ("role", JStr "Litigant")]))
                            [] Sample.empty_state))
    = (MOCK_DB_users Sample.empty_state ++ added)%list
    /\ (length added <= 1)%nat
    /\ (added <> [] -> R1_register = R1_register /\ IS_FIREBASE_LIVE (Sample.env false true) = false).
Proof.
  exact (user_store_append_only (Sample.env false true) R1_register
           (Sample.request (obj [("name", JStr "Asha"); ("email", Sample.email);
                                 ("password", Sample.password); ("role", JStr "Litigant")]))
           [] Sample.empty_state).
Defined.

(** ** Removing the fence markers *)

Lemma remove_all_absent (pat s : string) : occurs pat s = false -> remove_all pat s = s.
Proof.
  unfold remove_all. induction s as [|c s IH]; intros H; [reflexivity|].
  rewrite occurs_cons in H. apply orb_false_iff in H. destruct H as [Hp Ho].
  cbn [remove_from]. rewrite Hp. f_equal. auto.
Qed.

Lemma trim_end_idempotent (s : string) : trim_end (trim_end s) = trim_end s.
Proof.
  induction s as [|c s IH]; [reflexivity|].
  cbn [trim_end]. destruct (trim_end s) as [|d t] eqn:E.
  - destruct (is_space c) eqn:Hc; [reflexivity|]. cbn [trim_end]. now rewrite Hc.
  - change (trim_end (String c (String d t)))
      with (match trim_end (String d t) with
            | EmptyString => if is_space c then EmptyString else String c EmptyString
            | r' => String c r'
            end).
    now rewrite IH.
Qed.

Lemma trim_start_head (s : string) :
  trim_start s = "" \/ exists c r, trim_start s = String c r /\ is_space c = false.
Proof.
  induction s as [|c s IH]; [now left|].
  cbn [trim_start]. destruct (is_space c) eqn:Hc; [exact IH|]. right. now exists c, s.
Qed.

Lemma trim_idempotent (s : string) : trim (trim s) = trim s.
Proof.
  unfold trim.
  destruct (trim_start_head s) as [E|[c [r [E Hc]]]]; rewrite E; [reflexivity|].
  assert (H : trim_start (trim_end (String c r)) = trim_end (String c r)).
  { cbn [trim_end]. destruct (trim_end r); rewrite ?Hc; cbn [trim_start]; now rewrite Hc. }
  rewrite H. apply trim_end_idempotent.
Qed.

Lemma remove_fences_absent (text : string) :
  occurs fence text = false -> remove_all fence (remove_all fence_json text) = text.
Proof.
  intros H.
  assert (Hj : occurs fence_json text = false).
  { destruct (occurs fence_json text) eqn:E; [|reflexivity].
    apply occurs_fence_json in E. congruence. }
  now rewrite (remove_all_absent fence_json text Hj), (remove_all_absent fence text H).
Qed.

(** X22.  A text that holds no fence marker is only trimmed before it is
    parsed: [strip_fences] removes nothing else. *)
Theorem strip_fences_plain (text : string) :
  occurs fence text = false -> strip_fences text = trim text.
Proof. intros H. unfold strip_fences. now rewrite (remove_fences_absent text H). Qed.

Lemma strip_fences_plain_witness :
  strip_fences ("  {" ++ dq ++ "summary" ++ dq ++ ": 1} " ++ nl)
  = "{" ++ dq ++ "summary" ++ dq ++ ": 1}".
Proof.
  rewrite (strip_fences_plain ("  {" ++ dq ++ "summary" ++ dq ++ ": 1} " ++ nl) eq_refl).
  reflexivity.
Defined.

(** X23.  Removing the fence markers is idempotent: the text that is
    parsed is left unchanged by a second removal. *)
Theorem strip_fences_idempotent (text : string) :
  strip_fences (strip_fences text) = strip_fences text.
Proof.
  destruct (strip_fences_clean text) as [Hf _].
  unfold strip_fences at 1. rewrite (remove_fences_absent _ Hf).
  unfold strip_fences. apply trim_idempotent.
Qed.

(** ** The page layout *)








(** ** Start-up *)

(** X26.  The first document starts in live mode only when a service
    account was found, in the environment variable or in the key file; and
    when no Firebase app exists yet, a start-up that makes the first
    document live makes the second document live as well. *)
Theorem initialize_live (s : Startup) :
  App.initialize s = true ->
  (truthy (FIREBASE_SERVICE_ACCOUNT s) = true \/ key_file_exists s = true)
  /\ (apps_length s = 0%nat -> App2.initialize s = true).
Proof.
  unfold App.initialize, App2.initialize. intros H.
  destruct (truthy (FIREBASE_SERVICE_ACCOUNT s)).
  - split; [now left|]. intros E. rewrite E in H. cbn [Nat.eqb] in H.
    destruct (parse_account s _) as [e|account]; [discriminate|].
    destruct (truthy account); [|discriminate].
    now destruct (initializeApp s account).
  - destruct (key_file_exists s); [|discriminate].
    split; [now right|]. intros E. rewrite E in H. cbn [Nat.eqb] in H.
    destruct (require_key_file s) as [e|account]; [discriminate|].
    destruct (truthy account); [|discriminate].
    now destruct (initializeApp s account).
Qed.

Lemma initialize_live_witness :
  let s := {| FIREBASE_SERVICE_ACCOUNT := JUndefined;
              key_file_exists := true;
              require_key_file := Resolves (obj [("project_id", JStr "courtease")]);
              parse_account := fun _ => Rejects [("name", JStr "SyntaxError")];
              apps_length := 0;
              initializeApp := fun _ => Resolves tt |} in
  (truthy (FIREBASE_SERVICE_ACCOUNT s) = true \/ key_file_exists s = true)
  /\ (apps_length s = 0%nat -> App2.initialize s = true).
Proof.
  exact (initialize_live
           {| FIREBASE_SERVICE_ACCOUNT := JUndefined;
              key_file_exists := true;
              require_key_file := Resolves (obj [("project_id", JStr "courtease")]);
              parse_account := fun _ => Rejects [("name", JStr "SyntaxError")];
              apps_length := 0;
              initializeApp := fun _ => Resolves tt |} eq_refl).
Defined.

(** ** The second document: registration, document analysis, case list *)

(** X27.  In live mode, when the identity provider refuses to create the
    account of a registration that has an email and a password, the second
    document answers status 400 with success false, with the message "This
    email is already in use." when the code of the error is
    auth/email-already-in-use and "Registration failed." for every other
    error; no profile is written and no mail is sent. *)
Theorem register2_refused (env : Env) (req : Req) (h : list Call) (st : State)
    (err : Fields) :
  let email := get_prop (req_body req) "email" in
  let password := get_prop (req_body req) "password" in
  let creation :=
    AuthCall createUser [obj [("email", email); ("password", password);
                              ("emailVerified", JBool false); ("disabled", JBool false)]] in
  let message :=
    if strict_eq (lookup "code" err) (JStr "auth/email-already-in-use")
    then "This email is already in use." else "Registration failed." in
  IS_FIREBASE_LIVE env = true ->
  truthy (req_body req) = true -> truthy email = true -> truthy password = true ->
  auth env h createUser [obj [("email", email); ("password", password);
                              ("emailVerified", JBool false); ("disabled", JBool false)]]
  = Rejects err ->
  App2.post_api_register env req h st
  = {| result := Return (status_json 400 (obj [("success", JBool false);
                                               ("message", JStr message)]));
       state := st; calls := [creation] |}.
Proof.
  intros email password creation message Hlive Hbody Hemail Hpassword Hauth.
  subst message creation password email.
  unfold App2.post_api_register. rewrite Hbody, Hemail, Hpassword, Hlive. cbn [negb orb].
  norm. step Hauth. cbn [nullish get_prop]. norm.
  now destruct (strict_eq (lookup "code" err) (JStr "auth/email-already-in-use")).
Qed.

Lemma register2_refused_witness :
  let req := Sample.request (obj [("email", Sample.email); ("password", JStr "another-pass")]) in
  result (App2.post_api_register Sample2.env req [] Sample.empty_state)
  = Return (status_json 400 (obj [("success", JBool false);
                                  ("message", JStr "This email is already in use.")])).
Proof.
  cbv zeta.
  rewrite (register2_refused Sample2.env
             (Sample.request (obj [("email", Sample.email); ("password", JStr "another-pass")]))
             [] Sample.empty_state Sample2.email_taken eq_refl eq_refl eq_refl eq_refl eq_refl).
  reflexivity.
Defined.

(** X28.  /api/ai/analyze-document never reaches the model and never
    writes a case.  It hands [getGenerativeModel] the string
    "gemini-2.5-flash" where the SDK takes an object [{ model: name }], so
    the SDK throws before anything is sent: in live mode, for an accepted
    token, an uploaded file and the key set, the answer is status 500 with
    success false, and the token check is the only call. *)
Theorem analyze_document_unreached (env : Env) (req : Req) (h : list Call) (st : State) :
  let idToken := App2.bearer_token (req_authorization req) in
  let run := App2.post_api_ai_analyze_document env req h st in
  attempts AI (calls run) = 0%nat
  /\ attempts Database (calls run) = 0%nat
  /\ (forall file user,
        IS_FIREBASE_LIVE env = true ->
        truthy idToken = true ->
        auth env h verifyIdToken [idToken] = Resolves user ->
        req_file req = Some file ->
        truthy (GEMINI_API_KEY env) = true ->
        result run
        = Return (status_json 500
                    (obj [("success", JBool false);
                          ("message",
                           JStr "AI analysis failed due to server error or invalid document.")]))
        /\ calls run = [AuthCall verifyIdToken [idToken]]).
Proof.
  intros idToken run. subst run idToken.
  unfold App2.post_api_ai_analyze_document, App2.verifyToken.
  split; [|split].
  - case_answers; reflexivity.
  - case_answers; reflexivity.
  - intros file user Hlive Htoken Hauth Hfile Hkey.
    rewrite Hlive, Htoken, Hfile, Hkey. cbn [negb]. norm. step Hauth. split; reflexivity.
Qed.

Lemma analyze_document_unreached_witness :
  let run := App2.post_api_ai_analyze_document (Sample.env true true) (Sample.upload "QQ==") []
               Sample.empty_state in
  result run
  = Return (status_json 500
              (obj [("success", JBool false);
                    ("message",
                     JStr "AI analysis failed due to server error or invalid document.")]))
  /\ calls run = [AuthCall verifyIdToken [JStr "id-token"]].
Proof.
  exact (proj2 (proj2 (analyze_document_unreached (Sample.env true true)
                         (Sample.upload "QQ==") [] Sample.empty_state))
           {| buffer := {| toString_base64 := "QQ==" |}; mimetype := JStr "application/pdf" |}
           (obj [("uid", Sample.uid)]) eq_refl eq_refl eq_refl eq_refl eq_refl).
Defined.

(** X29.  In live mode, for an accepted token, /api/cases of the second
    document lists the cases of the token's user and of no other: after the
    token check its one call is the query of the collection [cases] for the
    documents whose [userId] is the [uid] of the decoded token, newest
    first; the body of the request is not read.  When the query is answered,
    the cases are its documents, each with its id; when it fails, the answer
    is status 500 with success false. *)
Theorem cases_of_token_user (env : Env) (req : Req) (h : list Call) (st : State)
    (user : JsVal) :
  let idToken := App2.bearer_token (req_authorization req) in
  let check := AuthCall verifyIdToken [idToken] in
  let clauses := [obj [("where", JArr [JStr "userId"; JStr "=="; get_prop user "uid"])];
                  obj [("orderBy", JArr [JStr "createdAt"; JStr "desc"])]] in
  let run := App2.get_api_cases env req h st in
  IS_FIREBASE_LIVE env = true ->
  truthy idToken = true ->
  auth env h verifyIdToken [idToken] = Resolves user ->
  nullish user = false ->
  calls run = [check; FirestoreCall FsQuery "cases" clauses]
  /\ (forall docs,
        firestore_query env (h ++ [check])%list "cases" clauses = Resolves docs ->
        result run
        = Return (json (obj [("success", JBool true);
                             ("cases",
                              JArr (map (fun doc => JObj (spread [("id", JStr (doc_id doc))]
                                                            (doc_data doc))) docs))])))
  /\ (forall err,
        firestore_query env (h ++ [check])%list "cases" clauses = Rejects err ->
        result run
        = Return (status_json 500 (obj [("success", JBool false);
                                        ("message", JStr "Failed to retrieve cases.")]))).
Proof.
  intros idToken check clauses run Hlive Htoken Hauth Huser.
  subst run clauses check idToken.
  unfold App2.get_api_cases, App2.verifyToken. rewrite Hlive, Htoken. cbn [negb]. norm.
  step Hauth. step Huser.
  destruct (firestore_query env _ "cases" _) as [err|docs]; norm;
    (split; [reflexivity|]); split; intros x E; first [discriminate E | reflexivity | idtac].
  - now injection E as <-.
Qed.

Lemma cases_of_token_user_witness :
  let run := App2.get_api_cases (Sample.env true true) (Sample.upload "QQ==") []
               Sample.empty_state in
  result run = Return (json (obj [("success", JBool true); ("cases", JArr [])]))
  /\ calls run
     = [AuthCall verifyIdToken [JStr "id-token"];
        FirestoreCall FsQuery "cases"
          [obj [("where", JArr [JStr "userId"; JStr "=="; Sample.uid])];
           obj [("orderBy", JArr [JStr "createdAt"; JStr "desc"])]]].
Proof.
  destruct (cases_of_token_user (Sample.env true true) (Sample.upload "QQ==") []
              Sample.empty_state (obj [("uid", Sample.uid)]) eq_refl eq_refl eq_refl eq_refl)
    as [Hc [Hr _]].
  cbv zeta. rewrite Hc, (Hr [] eq_refl). split; reflexivity.
Defined.
